(** * Entregas de bodega: row registry, validation and serialization

    Shallow embedding of the two client-side form controllers of the
    warehouse application:

    - [EntregaArticulos] (static/js/bodega/entrega-articulos.js), the
      item-delivery form, with its manual and request-linked modes;
    - [EntregaBienes], the goods-delivery form.

    The JavaScript built-ins the controllers call ([parseInt],
    [parseFloat], [Number::toString], [JSON.stringify], truthiness) are
    modelled in [JS]; the part of the document the controllers read and
    write is modelled in [DOM].  The controllers are written in state
    passing style over a record holding the object's own fields, the
    document, the [alert] log and the submit event.  [Enunciados] holds
    the vocabulary of the statements, [Escenarios] a few concrete
    sessions; the properties follow, one section per subject. *)

From Stdlib Require Import ZArith QArith Qreduction Qpower List String Ascii Bool Lia.
From Stdlib Require Import DecimalString DecimalZ Sorted.
Import ListNotations.

Local Open Scope string_scope.
Local Open Scope Z_scope.

(* ================================================================== *)
(** * JavaScript values and built-ins *)
(* ================================================================== *)

Module JS.

(** Numbers.  A finite Number is the rational value of a binary64;
    [binary64] below gives the Number value for a real, and the readers
    and the printer go through it.  [-0] is identified with [0]: the
    two compare, test and print alike, and the controllers never
    divide. *)
Inductive number :=
| NaN
| Inf (negative : bool)
| Fin (q : Q).

(** Primitive values, as they come from the catalog and from the
    request-lines response. *)
Inductive value :=
| VUndefined
| VNull
| VBool (b : bool)
| VNum (n : number)
| VStr (s : string).

Definition num (z : Z) : number := Fin (inject_Z z).

(** ToBoolean. *)
Definition truthy (v : value) : bool :=
  match v with
  | VUndefined | VNull => false
  | VBool b => b
  | VNum NaN => false
  | VNum (Inf _) => true
  | VNum (Fin q) => negb (Qeq_bool q 0)
  | VStr s => negb (s =? "")%string
  end.

(** [a || b]. *)
Definition or_else (a b : value) : value := if truthy a then a else b.

(** [a > b] and [a <= b] on Numbers; any comparison with NaN is false. *)
Definition gt (a b : number) : bool :=
  match a, b with
  | NaN, _ | _, NaN => false
  | Inf true, _ => false
  | Inf false, Inf false => false
  | Inf false, _ => true
  | Fin _, Inf neg => neg
  | Fin x, Fin y => negb (Qle_bool x y)
  end.

Definition le (a b : number) : bool :=
  match a, b with
  | NaN, _ | _, NaN => false
  | Inf true, _ => true
  | Inf false, Inf false => true
  | Inf false, _ => false
  | Fin _, Inf neg => negb neg
  | Fin x, Fin y => Qle_bool x y
  end.

(** ** The Number value for a real *)

(** [n / d] divided by [2^k], as a fraction of integers. *)
Definition scale2 (n d k : Z) : Z * Z :=
  if 0 <=? k then (n, d * 2 ^ k) else (n * 2 ^ (- k), d).

(** The integer nearest to [n / d], a tie going to the even one. *)
Definition nearest_even (n d : Z) : Z :=
  let q := n / d in
  let r := n mod d in
  if 2 * r <? d then q
  else if d <? 2 * r then q + 1
  else if Z.even q then q else q + 1.

(** The [e] with [2^e <= n / d < 2^(e+1)], for positive [n] and [d]. *)
Definition binary_exponent (n d : Z) : Z :=
  let e0 := Z.log2 n - Z.log2 d in
  let (n', d') := scale2 n d e0 in
  if d' <=? n' then e0 else e0 - 1.

(** Round to nearest, ties to even, in binary64: 53 bits of
    significand, the quantum [2^-1074] at the bottom (so that what is
    below half of it reads as 0), an infinity from [2^1024] on. *)
Definition binary64 (q : Q) : number :=
  let n := Z.abs (Qnum q) in
  let d := Zpos (Qden q) in
  let neg := Qnum q <? 0 in
  if n =? 0 then Fin (inject_Z 0)
  else
    let e := binary_exponent n d in
    if 1024 <=? e then Inf neg
    else
      let t := Z.max (e - 52) (-1074) in
      let (n', d') := scale2 n d t in
      let m := nearest_even n' d' in
      if (m =? 2 ^ 53) && (t =? 971) then Inf neg
      else
        let v := Qred (inject_Z m * Qpower (inject_Z 2) t) in
        Fin (if neg then Qopp v else v).

(** ** Reading numbers from strings *)

(** Leading white space (the ASCII part of StrWhiteSpaceChar). *)
Definition is_space (c : ascii) : bool :=
  let n := N_of_ascii c in
  ((9 <=? n) && (n <=? 13) || (n =? 32))%N.

Fixpoint trim_start (s : string) : string :=
  match s with
  | String c r => if is_space c then trim_start r else s
  | EmptyString => s
  end.

Definition sign_of (s : string) : bool * string :=
  match s with
  | String "-" r => (true, r)
  | String "+" r => (false, r)
  | _ => (false, s)
  end.

Definition digit_of (radix : Z) (c : ascii) : option Z :=
  let n := Z.of_N (N_of_ascii c) in
  let d := if (48 <=? n) && (n <=? 57) then n - 48
           else if (97 <=? n) && (n <=? 122) then n - 87
           else if (65 <=? n) && (n <=? 90) then n - 55
           else radix in
  if d <? radix then Some d else None.

(** Longest prefix of digits of the radix, and what follows it. *)
Fixpoint read_digits (radix : Z) (s : string) : list Z * string :=
  match s with
  | String c r =>
      match digit_of radix c with
      | Some d => let (ds, rest) := read_digits radix r in (d :: ds, rest)
      | None => ([], s)
      end
  | EmptyString => ([], s)
  end.

Definition digits_value (radix : Z) (ds : list Z) : Z :=
  fold_left (fun acc d => acc * radix + d) ds 0.

Definition negate_if (neg : bool) (z : Z) : Z := if neg then - z else z.

(** [parseInt(s)] with the radix left out: decimal, or hexadecimal after
    a [0x] prefix; NaN when no digit follows the sign; otherwise the
    Number value for the integer read. *)
Definition parseInt (s : string) : number :=
  let (neg, s1) := sign_of (trim_start s) in
  let (radix, s2) :=
    match s1 with
    | String "0" (String "x" r) => (16, r)
    | String "0" (String "X" r) => (16, r)
    | _ => (10, s1)
    end in
  match fst (read_digits radix s2) with
  | [] => NaN
  | ds => binary64 (inject_Z (negate_if neg (digits_value radix ds)))
  end.

(** The exponent part [e±ddd], when it is complete; 0 otherwise. *)
Definition read_exponent (s : string) : Z :=
  match s with
  | String c r =>
      if ((c =? "e") || (c =? "E"))%char then
        let (neg, r1) := sign_of r in
        match fst (read_digits 10 r1) with
        | [] => 0
        | ds => negate_if neg (digits_value 10 ds)
        end
      else 0
  | EmptyString => 0
  end.

(** [parseFloat(s)]: the Number value for the longest prefix that is a
    StrDecimalLiteral. *)
Definition parseFloat (s : string) : number :=
  let (neg, s1) := sign_of (trim_start s) in
  if prefix "Infinity" s1 then Inf neg
  else
    let (ip, r1) := read_digits 10 s1 in
    let (fp, r2) :=
      match r1 with
      | String "." r => read_digits 10 r
      | _ => ([], r1)
      end in
    match (ip ++ fp)%list with
    | [] => NaN
    | ds =>
        let e := read_exponent r2 - Z.of_nat (List.length fp) in
        let q := (inject_Z (digits_value 10 ds) * Qpower (inject_Z 10) e)%Q in
        binary64 (if neg then Qopp q else q)
    end.

(** ** Printing *)

Definition string_of_Z (z : Z) : string :=
  NilEmpty.string_of_int (Z.to_int z).

Definition digit_char (d : Z) : ascii := ascii_of_N (Z.to_N (48 + d)).

(** The [n] with [10^(n-1) <= x < 10^n], for a positive binary64 [x]:
    looked for around the estimate the binary exponent gives. *)
Definition decimal_exponent (x : Q) : Z :=
  let e := binary_exponent (Qnum x) (Zpos (Qden x)) in
  let n0 := e * 1233 / 4096 in
  let fits n :=
    Qle_bool (Qpower (inject_Z 10) (n - 1)) x
    && negb (Qle_bool (Qpower (inject_Z 10) n) x) in
  match find fits [n0 - 1; n0; n0 + 1; n0 + 2; n0 + 3] with
  | Some n => n
  | None => n0
  end.

(** The Number value for [v] is [x]. *)
Definition reads_as (x v : Q) : bool :=
  match binary64 v with
  | Fin y => Qeq_bool x y
  | _ => false
  end.

(** The digits [s] of a decimal [s * 10^(n-k)] of [k] digits whose
    Number value is [x]: the decimal nearest to [x] when two will do,
    the even one of two equally near; [None] when none will do.  Only
    the neighbours of [x] among the decimals of [k] digits need to be
    tried. *)
Definition digits_of_length (x : Q) (n k : Z) : option Z :=
  let scaled := Qred (x * Qpower (inject_Z 10) (k - n)) in
  let d := Zpos (Qden scaled) in
  let lo := Qnum scaled / d in
  let r := Qnum scaled mod d in
  let ok s := reads_as x (inject_Z s * Qpower (inject_Z 10) (n - k)) in
  if r =? 0 then Some lo
  else
    match ok lo, ok (lo + 1) with
    | true, true =>
        if 2 * r <? d then Some lo
        else if d <? 2 * r then Some (lo + 1)
        else if Z.even lo then Some lo else Some (lo + 1)
    | true, false => Some lo
    | false, true => Some (lo + 1)
    | false, false => None
    end.

(** The shortest such decimal, looked for from [k] digits up (17 digits
    always do): its digits and their number. *)
Fixpoint shortest_digits (fuel : nat) (x : Q) (n k : Z) : Z * Z :=
  match digits_of_length x n k with
  | Some s => (s, k)
  | None =>
      match fuel with
      | O => (0, 1)
      | S f => shortest_digits f x n (k + 1)
      end
  end.

Definition zeros (n : Z) : string :=
  string_of_list_ascii (repeat "0"%char (Z.to_nat n)).

(** Number::toString (radix 10) of a positive binary64: the shortest
    digits that read back as it, in plain notation for magnitudes in
    [1e-6, 1e21) and in exponent notation outside. *)
Definition positive_to_string (x : Q) : string :=
  let n0 := decimal_exponent x in
  let (s0, k) := shortest_digits 20 x n0 1 in
  (* the upper neighbour may be the next power of ten *)
  let (s, n) := if s0 =? 10 ^ k then (10 ^ (k - 1), n0 + 1) else (s0, n0) in
  let ds := string_of_Z s in
  if (k <=? n) && (n <=? 21) then ds ++ zeros (n - k)
  else if (0 <? n) && (n <=? 21) then
    substring 0 (Z.to_nat n) ds ++ "." ++ substring (Z.to_nat n) (Z.to_nat (k - n)) ds
  else if (-6 <? n) && (n <=? 0) then "0." ++ zeros (- n) ++ ds
  else
    let e := n - 1 in
    let ex := (if e <? 0 then "e-" else "e+") ++ string_of_Z (Z.abs e) in
    if k =? 1 then ds ++ ex
    else substring 0 1 ds ++ "." ++ substring 1 (Z.to_nat (k - 1)) ds ++ ex.

(** Number::toString of the Number value for [q]. *)
Definition Q_to_string (q : Q) : string :=
  match binary64 q with
  | NaN => "NaN"
  | Inf false => "Infinity"
  | Inf true => "-Infinity"
  | Fin x =>
      if Qeq_bool x 0 then "0"
      else if Qnum x <? 0 then "-" ++ positive_to_string (Qopp x)
      else positive_to_string x
  end.

Definition number_to_string (n : number) : string :=
  match n with
  | NaN => "NaN"
  | Inf false => "Infinity"
  | Inf true => "-Infinity"
  | Fin q => Q_to_string q
  end.

(** ToString, as applied by template literals and by [+] on a string. *)
Definition to_string (v : value) : string :=
  match v with
  | VUndefined => "undefined"
  | VNull => "null"
  | VBool true => "true"
  | VBool false => "false"
  | VNum n => number_to_string n
  | VStr s => s
  end.

(** [s.replace(/c/g, by)] for a one-character pattern. *)
Fixpoint replace_all (c : ascii) (by_ : string) (s : string) : string :=
  match s with
  | EmptyString => EmptyString
  | String x r =>
      if (x =? c)%char then by_ ++ replace_all c by_ r
      else String x (replace_all c by_ r)
  end.

(** Objects whose properties are primitives, in insertion order. *)
Definition object := list (string * value).

Fixpoint trim_end (s : string) : string :=
  match s with
  | EmptyString => EmptyString
  | String c r =>
      match trim_end r with
      | EmptyString => if is_space c then EmptyString else String c EmptyString
      | t => String c t
      end
  end.

Definition nonempty {A : Type} (l : list A) : bool :=
  match l with [] => false | _ :: _ => true end.

(** Nothing, or a complete exponent part to the end of the string. *)
Definition exponent_ok (r : string) : bool :=
  match r with
  | EmptyString => true
  | String c r' =>
      ((c =? "e") || (c =? "E"))%char &&
      let (ds, rest) := read_digits 10 (snd (sign_of r')) in
      nonempty ds && (rest =? "")%string
  end.

(** An unsigned StrDecimalLiteral, as a whole string: [1], [1.], [1.5],
    [.5], each with an optional exponent part. *)
Definition decimal_literal (s : string) : bool :=
  let (ip, r1) := read_digits 10 s in
  match r1 with
  | String "." r =>
      let (fp, r2) := read_digits 10 r in
      (nonempty ip || nonempty fp) && exponent_ok r2
  | _ => nonempty ip && exponent_ok r1
  end.

(** A valid floating-point number of HTML: an optional [-], digits and/or
    a point followed by digits, an optional exponent part. *)
Definition valid_float (s : string) : bool :=
  let s1 := match s with String "-" r => r | _ => s end in
  let (ip, r1) := read_digits 10 s1 in
  match r1 with
  | String "." r =>
      let (fp, r2) := read_digits 10 r in
      nonempty fp && exponent_ok r2
  | _ => nonempty ip && exponent_ok r1
  end.

(** The value sanitization algorithm of [input type=number]: the text is
    kept when it is a valid floating-point number that reads as a finite
    Number. *)
Definition sanitize_number (s : string) : string :=
  if valid_float s then
    match parseFloat s with
    | Fin _ => s
    | _ => ""
    end
  else "".

Definition string_to_number (s : string) : number :=
  let t := trim_end (trim_start s) in
  if (t =? "")%string then num 0
  else
    let (neg, body) := sign_of t in
    if (body =? "Infinity")%string then Inf neg
    else if decimal_literal body then parseFloat t
    else NaN.

(** ToNumber on primitives; a string must be a decimal literal as a
    whole (the hexadecimal, octal and binary literal forms are not
    modelled), and the empty string counts as 0. *)
Definition to_number (v : value) : number :=
  match v with
  | VUndefined => NaN
  | VNull => num 0
  | VBool true => num 1
  | VBool false => num 0
  | VNum n => n
  | VStr s => string_to_number s
  end.

(** ** JSON *)

#[warnings="-register-all"]
Inductive json :=
| JNull
| JBool (b : bool)
| JNum (q : Q)
| JStr (s : string)
| JArr (items : list json)
| JObj (members : list (string * json)).

(** SerializeJSONProperty on primitives: [undefined] has no JSON form,
    NaN and the infinities are written [null]. *)
Definition json_of_value (v : value) : option json :=
  match v with
  | VUndefined => None
  | VNull => Some JNull
  | VBool b => Some (JBool b)
  | VNum (Fin q) => Some (JNum q)
  | VNum _ => Some JNull
  | VStr s => Some (JStr s)
  end.

(** Properties holding [undefined] are left out of a serialized object. *)
Fixpoint json_members (o : object) : list (string * json) :=
  match o with
  | [] => []
  | (k, v) :: r =>
      match json_of_value v with
      | Some j => (k, j) :: json_members r
      | None => json_members r
      end
  end.

Definition json_of_objects (l : list object) : json :=
  JArr (map (fun o => JObj (json_members o)) l).

Definition hex_char (d : Z) : ascii :=
  if d <? 10 then digit_char d else ascii_of_N (Z.to_N (87 + d)).

Definition dquote : ascii := ascii_of_N 34.
Definition bslash : ascii := ascii_of_N 92.

(** QuoteJSONString, byte by byte. *)
Definition quote_char (c : ascii) : string :=
  let n := Z.of_N (N_of_ascii c) in
  if n =? 34 then String bslash (String dquote "")
  else if n =? 92 then String bslash (String bslash "")
  else if n =? 8 then String bslash "b"
  else if n =? 9 then String bslash "t"
  else if n =? 10 then String bslash "n"
  else if n =? 12 then String bslash "f"
  else if n =? 13 then String bslash "r"
  else if n <? 32 then
    String bslash
      ("u00" ++ String (hex_char (n / 16)) (String (hex_char (n mod 16)) ""))
  else String c "".

Fixpoint quote_body (s : string) : string :=
  match s with
  | EmptyString => EmptyString
  | String c r => quote_char c ++ quote_body r
  end.

Definition quote (s : string) : string :=
  String dquote (quote_body s ++ String dquote "").

Definition join (sep : string) (l : list string) : string :=
  match l with
  | [] => ""
  | x :: r => fold_left (fun acc y => acc ++ sep ++ y) r x
  end.

(** The text [JSON.stringify] produces (no indentation). *)
Fixpoint print_json (j : json) : string :=
  match j with
  | JNull => "null"
  | JBool true => "true"
  | JBool false => "false"
  | JNum q => Q_to_string q
  | JStr s => quote s
  | JArr items => "[" ++ join "," (map print_json items) ++ "]"
  | JObj members =>
      "{" ++ join "," (map (fun kv => quote (fst kv) ++ ":" ++ print_json (snd kv))
                           members) ++ "}"
  end.

Definition JSON_stringify (l : list object) : string :=
  print_json (json_of_objects l).

(** A JSON reader (RFC 8259), standing for the decoder on the receiving
    side of the form: white space, literals, numbers, strings with their
    escapes (code points below 256), arrays and objects. *)
Fixpoint skip_ws (s : string) : string :=
  match s with
  | String c r =>
      let n := N_of_ascii c in
      if ((n =? 32) || (n =? 9) || (n =? 10) || (n =? 13))%N then skip_ws r else s
  | EmptyString => s
  end.

Definition strip_prefix (p s : string) : option string :=
  if prefix p s then Some (substring (length p) (length s - length p) s)
  else None.

Definition read_number (s : string) : option (Q * string) :=
  let (neg, s1) := match s with String "-" r => (true, r) | _ => (false, s) end in
  let (ip, r1) := read_digits 10 s1 in
  let (fp, r2) :=
    match r1 with
    | String "." r => read_digits 10 r
    | _ => ([], r1)
    end in
  let (e, r3) :=
    match r2 with
    | String c r =>
        if ((c =? "e") || (c =? "E"))%char then
          let (eneg, r') := sign_of r in
          let (ds, r'') := read_digits 10 r' in
          (negate_if eneg (digits_value 10 ds), r'')
        else (0, r2)
    | EmptyString => (0, r2)
    end in
  match ip with
  | [] => None
  | _ =>
      let q := (inject_Z (digits_value 10 (ip ++ fp))
                * Qpower (inject_Z 10) (e - Z.of_nat (List.length fp)))%Q in
      Some (Qred (if neg then Qopp q else q), r3)
  end.

Definition unescape (e : ascii) : option ascii :=
  let n := N_of_ascii e in
  if ((n =? 34) || (n =? 92) || (n =? 47))%N then Some e
  else if (e =? "b")%char then Some (ascii_of_N 8)
  else if (e =? "t")%char then Some (ascii_of_N 9)
  else if (e =? "n")%char then Some (ascii_of_N 10)
  else if (e =? "f")%char then Some (ascii_of_N 12)
  else if (e =? "r")%char then Some (ascii_of_N 13)
  else None.

Definition cons_char (c : ascii) (r : option (string * string))
  : option (string * string) :=
  match r with
  | Some (t, u) => Some (String c t, u)
  | None => None
  end.

(** The characters of a string literal after its opening quote, and the
    text after its closing quote. *)
Fixpoint read_string (s : string) : option (string * string) :=
  match s with
  | EmptyString => None
  | String c r =>
      let n := N_of_ascii c in
      if (n =? 34)%N then Some ("", r)
      else if (n =? 92)%N then
        match r with
        | String "u" (String a (String b (String x (String y r')))) =>
            match digit_of 16 a, digit_of 16 b, digit_of 16 x, digit_of 16 y with
            | Some 0, Some 0, Some h, Some l =>
                cons_char (ascii_of_N (Z.to_N (h * 16 + l))) (read_string r')
            | _, _, _, _ => None
            end
        | String e r' =>
            match unescape e with
            | Some x => cons_char x (read_string r')
            | None => None
            end
        | EmptyString => None
        end
      else if (n <? 32)%N then None
      else cons_char c (read_string r)
  end.

Fixpoint parse_value (fuel : nat) (s : string) {struct fuel}
  : option (json * string) :=
  match fuel with
  | O => None
  | S f =>
      match skip_ws s with
      | EmptyString => None
      | String c r as t =>
          if (c =? "[")%char then
            match skip_ws r with
            | String "]" r' => Some (JArr [], r')
            | r' => match parse_items f r' with
                    | Some (items, u) => Some (JArr items, u)
                    | None => None
                    end
            end
          else if (c =? "{")%char then
            match skip_ws r with
            | String "}" r' => Some (JObj [], r')
            | r' => match parse_members f r' with
                    | Some (members, u) => Some (JObj members, u)
                    | None => None
                    end
            end
          else if (N_of_ascii c =? 34)%N then
            match read_string r with
            | Some (x, u) => Some (JStr x, u)
            | None => None
            end
          else if (c =? "n")%char then option_map (pair JNull) (strip_prefix "null" t)
          else if (c =? "t")%char then
            option_map (pair (JBool true)) (strip_prefix "true" t)
          else if (c =? "f")%char then
            option_map (pair (JBool false)) (strip_prefix "false" t)
          else
            match read_number t with
            | Some (q, u) => Some (JNum q, u)
            | None => None
            end
      end
  end

with parse_items (fuel : nat) (s : string) {struct fuel}
  : option (list json * string) :=
  match fuel with
  | O => None
  | S f =>
      match parse_value f s with
      | Some (v, r) =>
          match skip_ws r with
          | String "," r' =>
              match parse_items f r' with
              | Some (vs, u) => Some (v :: vs, u)
              | None => None
              end
          | String "]" r' => Some ([v], r')
          | _ => None
          end
      | None => None
      end
  end

with parse_members (fuel : nat) (s : string) {struct fuel}
  : option (list (string * json) * string) :=
  match fuel with
  | O => None
  | S f =>
      match skip_ws s with
      | String c r =>
          if (N_of_ascii c =? 34)%N then
            match read_string r with
            | Some (k, r1) =>
                match skip_ws r1 with
                | String ":" r2 =>
                    match parse_value f r2 with
                    | Some (v, r3) =>
                        match skip_ws r3 with
                        | String "," r4 =>
                            match parse_members f r4 with
                            | Some (ms, u) => Some ((k, v) :: ms, u)
                            | None => None
                            end
                        | String "}" r4 => Some ([(k, v)], r4)
                        | _ => None
                        end
                    | None => None
                    end
                | _ => None
                end
            | None => None
            end
          else None
      | EmptyString => None
      end
  end.

(** [JSON.parse]: a whole text is one value, white space around it. *)
Definition JSON_parse (s : string) : option json :=
  match parse_value (S (length s)) s with
  | Some (v, r) => match skip_ws r with EmptyString => Some v | _ => None end
  | None => None
  end.

End JS.

(* ================================================================== *)
(** * The part of the document the controllers work on *)
(* ================================================================== *)

Module DOM.
Import JS.

Definition attributes := list (string * string).

Fixpoint lookup (name : string) (l : attributes) : option string :=
  match l with
  | [] => None
  | (k, v) :: r => if (k =? name)%string then Some v else lookup name r
  end.

(** An [<option>]: its attributes and its inner markup. *)
Record option_element := { op_attrs : attributes; op_html : string }.

Inductive node_content :=
| Input (value : string)
| Select (options : list option_element) (selectedIndex : Z)
| Markup (html : string).

(** An element inside a table cell: an input with its current value, a
    select with its options, or any other element (span, button) with
    its inner markup.  Inner markup is kept as text: it stands for
    content without elements that carry an id, which is what the
    templates of the controllers produce as long as the texts they
    interpolate unescaped hold no tag. *)
Record element := { attrs : attributes; content : node_content }.

Record cell := { cell_html : string; cell_children : list element }.

(** A [<tr>] of the table body.  The placeholder row has no id and a
    single cell. *)
Record row := { row_id : option string; cells : list cell }.

(** The anchors of the page, [None] when the page lacks one.  The rows
    and their controls are looked up by id in the table body; the other
    anchors are the fields below. *)
Record document := {
  tbody : option (list row);        (* #articulosBody, #bienesBody *)
  detallesJson : option string;     (* #detallesJson: its value *)
  btnAgregar : option bool;         (* #btnAgregarArticulo: disabled *)
  infoSolicitud : option bool;      (* #infoSolicitud: carries d-none *)
  datosSolicitud : option string;   (* #datosSolicitud: innerHTML *)
  id_bodega_origen : option string  (* #id_bodega_origen: its value *)
}.

Definition getAttribute (e : element) (name : string) : option string :=
  lookup name (attrs e).

Definition nth_Z {A : Type} (l : list A) (i : Z) : option A :=
  if i <? 0 then None else nth_error l (Z.to_nat i).

Definition option_value (o : option_element) : string :=
  match lookup "value" (op_attrs o) with
  | Some v => v
  | None => op_html o
  end.

(** [e.value]: [None] stands for [undefined]. *)
Definition value_of (e : element) : option string :=
  match content e with
  | Input v => Some v
  | Select opts i =>
      Some (match nth_Z opts i with Some o => option_value o | None => "" end)
  | Markup _ => None
  end.

Definition has_id (id : string) (e : element) : bool :=
  match getAttribute e "id" with
  | Some x => (x =? id)%string
  | None => false
  end.

Definition row_has_id (id : string) (r : row) : bool :=
  match row_id r with
  | Some x => (x =? id)%string
  | None => false
  end.

Definition row_elements (r : row) : list element :=
  flat_map cell_children (cells r).

(** [document.getElementById] inside the table body, in document order:
    a row comes before the elements of its cells. *)
Fixpoint find_by_id (id : string) (rows : list row) : option element :=
  match rows with
  | [] => None
  | r :: rest =>
      if row_has_id id r then Some {| attrs := [("id", id)]; content := Markup "" |}
      else match find (has_id id) (row_elements r) with
           | Some e => Some e
           | None => find_by_id id rest
           end
  end.

Definition getElementById (d : document) (id : string) : option element :=
  match tbody d with
  | Some rows => find_by_id id rows
  | None => None
  end.

(** [node.remove()] on the first node carrying the id; [None] when there
    is no such node. *)
Fixpoint remove_element (id : string) (l : list element) : option (list element) :=
  match l with
  | [] => None
  | e :: r =>
      if has_id id e then Some r
      else option_map (cons e) (remove_element id r)
  end.

Fixpoint remove_in_cells (id : string) (cs : list cell) : option (list cell) :=
  match cs with
  | [] => None
  | c :: r =>
      match remove_element id (cell_children c) with
      | Some l => Some ({| cell_html := cell_html c; cell_children := l |} :: r)
      | None => option_map (cons c) (remove_in_cells id r)
      end
  end.

Fixpoint remove_node (id : string) (rows : list row) : option (list row) :=
  match rows with
  | [] => None
  | r :: rest =>
      if row_has_id id r then Some rest
      else match remove_in_cells id (cells r) with
           | Some cs => Some ({| row_id := row_id r; cells := cs |} :: rest)
           | None => option_map (cons r) (remove_node id rest)
           end
  end.

(** In-place update of the element carrying the id in a cell. *)
Fixpoint update_element (id : string) (f : element -> element) (l : list element)
  : list element :=
  match l with
  | [] => []
  | e :: r => if has_id id e then f e :: r else e :: update_element id f r
  end.

Definition update_in_row (id : string) (f : element -> element) (r : row) : row :=
  {| row_id := row_id r;
     cells := map (fun c => {| cell_html := cell_html c;
                               cell_children := update_element id f (cell_children c) |})
                  (cells r) |}.

Definition set_tbody (d : document) (t : option (list row)) : document :=
  {| tbody := t; detallesJson := detallesJson d; btnAgregar := btnAgregar d;
     infoSolicitud := infoSolicitud d; datosSolicitud := datosSolicitud d;
     id_bodega_origen := id_bodega_origen d |}.

(** What the user does to a control: typing into an input (a number
    input sanitizes what it is given) and choosing an option. *)
Definition type_into (v : string) (e : element) : element :=
  match content e with
  | Input _ =>
      {| attrs := attrs e;
         content := Input (match getAttribute e "type" with
                           | Some "number" => sanitize_number v
                           | _ => v
                           end) |}
  | _ => e
  end.

Definition choose (i : Z) (e : element) : element :=
  match content e with
  | Select opts _ => {| attrs := attrs e; content := Select opts i |}
  | _ => e
  end.

Definition edit (id : string) (f : element -> element) (d : document) : document :=
  set_tbody d (option_map (map (update_in_row id f)) (tbody d)).

(** Markup literals are written with a backquote where the page has a
    double quote. *)
Definition tpl (s : string) : string := replace_all "`" (String dquote "") s.

Definition nl : string := String (ascii_of_N 10) "".

End DOM.

(* ================================================================== *)
(** * EntregaArticulos: the item-delivery form *)
(* ================================================================== *)

Module EntregaArticulos.
Import JS DOM.

(** An entry of [articulosDisponibles]. *)
Record articulo := {
  art_id : value; codigo : value; nombre : value; stock : value; unidad : value
}.

(** The response of [/bodega/ajax/solicitud/<id>/articulos/]. *)
Record linea := {
  articulo_id : value;
  articulo_codigo : value;
  articulo_nombre : value;
  unidad_medida : value;
  cantidad_pendiente : value;
  stock_actual : value;
  detalle_solicitud_id : value
}.

Record solicitud := {
  numero : value;
  solicitante : value;
  departamento : value;
  motivo : value;
  bodega_origen_id : value
}.

Record respuesta := {
  success : value;
  r_solicitud : option solicitud;       (* [None]: the property is missing *)
  r_articulos : option (list linea);
  error : value;
  message : value
}.

(** How the two awaits of [cargarArticulosSolicitud] end: [fetch] or
    [response.json()] rejects, or the body is decoded. *)
Inductive fetch_outcome :=
| Rejects
| Resolves (data : respuesta).

(** The object's fields, the document, and what the handlers do to the
    outside: [alert] messages in order, [console.error] calls, and the
    submit event being handled ([preventDefault], [e.target.submit()]).
    [asignados] is a history variable: the numbers given to [fila.id],
    oldest first.  ([detallesArticulos] is never read or written.) *)
Record state := {
  articulosDisponibles : list articulo;
  contadorFilas : Z;
  esSolicitud : bool;
  doc : document;
  alerts : list string;
  errors_logged : nat;
  defaultPrevented : bool;
  submitted : nat;
  asignados : list Z
}.

Definition with_doc (d : document) (s : state) : state :=
  {| articulosDisponibles := articulosDisponibles s;
     contadorFilas := contadorFilas s; esSolicitud := esSolicitud s; doc := d;
     alerts := alerts s; errors_logged := errors_logged s;
     defaultPrevented := defaultPrevented s; submitted := submitted s;
     asignados := asignados s |}.

Definition with_contadorFilas (c : Z) (s : state) : state :=
  {| articulosDisponibles := articulosDisponibles s;
     contadorFilas := c; esSolicitud := esSolicitud s; doc := doc s;
     alerts := alerts s; errors_logged := errors_logged s;
     defaultPrevented := defaultPrevented s; submitted := submitted s;
     asignados := asignados s |}.

Definition with_esSolicitud (b : bool) (s : state) : state :=
  {| articulosDisponibles := articulosDisponibles s;
     contadorFilas := contadorFilas s; esSolicitud := b; doc := doc s;
     alerts := alerts s; errors_logged := errors_logged s;
     defaultPrevented := defaultPrevented s; submitted := submitted s;
     asignados := asignados s |}.

Definition with_asignado (n : Z) (s : state) : state :=
  {| articulosDisponibles := articulosDisponibles s;
     contadorFilas := contadorFilas s; esSolicitud := esSolicitud s; doc := doc s;
     alerts := alerts s; errors_logged := errors_logged s;
     defaultPrevented := defaultPrevented s; submitted := submitted s;
     asignados := (asignados s ++ [n])%list |}.

Definition alert (msg : string) (s : state) : state :=
  {| articulosDisponibles := articulosDisponibles s;
     contadorFilas := contadorFilas s; esSolicitud := esSolicitud s; doc := doc s;
     alerts := (alerts s ++ [msg])%list; errors_logged := errors_logged s;
     defaultPrevented := defaultPrevented s; submitted := submitted s;
     asignados := asignados s |}.

Definition console_error (s : state) : state :=
  {| articulosDisponibles := articulosDisponibles s;
     contadorFilas := contadorFilas s; esSolicitud := esSolicitud s; doc := doc s;
     alerts := alerts s; errors_logged := S (errors_logged s);
     defaultPrevented := defaultPrevented s; submitted := submitted s;
     asignados := asignados s |}.

Definition preventDefault (s : state) : state :=
  {| articulosDisponibles := articulosDisponibles s;
     contadorFilas := contadorFilas s; esSolicitud := esSolicitud s; doc := doc s;
     alerts := alerts s; errors_logged := errors_logged s;
     defaultPrevented := true; submitted := submitted s;
     asignados := asignados s |}.

Definition submit (s : state) : state :=
  {| articulosDisponibles := articulosDisponibles s;
     contadorFilas := contadorFilas s; esSolicitud := esSolicitud s; doc := doc s;
     alerts := alerts s; errors_logged := errors_logged s;
     defaultPrevented := defaultPrevented s; submitted := S (submitted s);
     asignados := asignados s |}.

(** The object as the literal declares it, after [init(articulos)] on a
    page [d]. *)
Definition init (articulos : list articulo) (d : document) : state :=
  {| articulosDisponibles := articulos; contadorFilas := 0; esSolicitud := false;
     doc := d; alerts := []; errors_logged := 0%nat;
     defaultPrevented := false; submitted := 0%nat; asignados := [] |}.

(** Escapa HTML para prevenir XSS. *)
Definition escapeHtml (unsafe : value) : string :=
  if negb (truthy unsafe) then ""
  else
    replace_all "'" "&#039;"
      (replace_all dquote "&quot;"
         (replace_all ">" "&gt;"
            (replace_all "<" "&lt;"
               (replace_all "&" "&amp;" (to_string unsafe))))).

(** [`fila_${n}`], [`cantidad_${n}`], ... *)
Definition idn (name : string) (n : Z) : string := name ++ string_of_Z n.

Definition indent (n : nat) : string := nl ++ string_of_list_ascii (repeat " "%char n).

(** ** Building rows *)

Definition opcionArticulo (art : articulo) : option_element :=
  {| op_attrs := [("value", to_string (art_id art));
                  ("data-stock", to_string (stock art));
                  (* the escaped text, read back by the markup parser *)
                  ("data-unidad", if truthy (unidad art) then to_string (unidad art) else "")];
     op_html := indent 16 ++ escapeHtml (codigo art) ++ " - " ++ escapeHtml (nombre art)
                ++ indent 12 |}.

Definition crearSelectArticulo (idFila : Z) (s : state) : element :=
  {| attrs := [("class", "form-select form-select-sm"); ("id", idn "articulo_" idFila)];
     content := Select ({| op_attrs := [("value", "")]; op_html := "Seleccione..." |}
                          :: map opcionArticulo (articulosDisponibles s)) 0 |}.

Definition crearInputCantidad (idFila : Z) (articulo : option linea) : element :=
  {| attrs := ([("type", "number"); ("class", "form-control form-control-sm");
                ("id", idn "cantidad_" idFila); ("step", "0.01"); ("min", "0.01");
                ("required", "")]
               ++ match articulo with
                  | Some a => [("max", to_string (cantidad_pendiente a));
                               ("data-pendiente", to_string (cantidad_pendiente a));
                               ("data-stock", to_string (stock_actual a))]
                  | None => []
                  end)%list;
     content := Input match articulo with
                      | Some a => sanitize_number (to_string (cantidad_pendiente a))
                      | None => ""
                      end |}.

Definition crearInputLote (idFila : Z) : element :=
  {| attrs := [("type", "text"); ("class", "form-control form-control-sm");
               ("id", idn "lote_" idFila); ("placeholder", "Lote (opcional)")];
     content := Input "" |}.

Definition crearBotonEliminar (idFila : Z) : element :=
  {| attrs := [("type", "button"); ("class", "btn btn-sm btn-danger")];
     content := Markup (tpl "<i class=`ri-delete-bin-line`></i>") |}.

Definition hidden (id v : string) : element :=
  {| attrs := [("type", "hidden"); ("id", id); ("value", v)]; content := Input v |}.

Definition celdaArticuloHtml (c : Z) (a : linea) : string :=
  indent 12 ++ "<strong>" ++ escapeHtml (articulo_codigo a) ++ "</strong><br>"
  ++ indent 12 ++ "<small>" ++ escapeHtml (articulo_nombre a) ++ "</small><br>"
  ++ indent 12 ++ tpl "<small class=`text-muted`>Pendiente: "
  ++ to_string (cantidad_pendiente a) ++ " " ++ escapeHtml (unidad_medida a) ++ "</small>"
  ++ indent 12 ++ tpl "<input type=`hidden` id=`" ++ idn "articulo_" c
  ++ tpl "` value=`" ++ to_string (articulo_id a) ++ tpl "`>"
  ++ indent 12 ++ tpl "<input type=`hidden` id=`" ++ idn "detalle_solicitud_" c
  ++ tpl "` value=`" ++ to_string (detalle_solicitud_id a) ++ tpl "`>"
  ++ indent 8.

Definition celdaStockHtml (a : linea) : string :=
  let colorStock :=
    if gt (to_number (stock_actual a)) (num 0) then "text-success" else "text-danger" in
  tpl "<strong class=`" ++ colorStock ++ tpl "`>" ++ to_string (stock_actual a) ++ " "
  ++ escapeHtml (unidad_medida a) ++ "</strong>".

Definition insertRow (r : row) (s : state) : state :=
  match tbody (doc s) with
  | Some rows => with_doc (set_tbody (doc s) (Some (rows ++ [r])%list)) s
  | None => s
  end.

(** Agrega una fila desde solicitud. *)
Definition agregarFilaSolicitud (a : linea) (s : state) : state :=
  match tbody (doc s) with
  | None => s
  | Some _ =>
      let c := contadorFilas s in
      let fila :=
        {| row_id := Some (idn "fila_" c);
           cells :=
             [ {| cell_html := celdaArticuloHtml c a;
                  cell_children :=
                    [hidden (idn "articulo_" c) (to_string (articulo_id a));
                     hidden (idn "detalle_solicitud_" c)
                            (to_string (detalle_solicitud_id a))] |};
               {| cell_html := celdaStockHtml a; cell_children := [] |};
               {| cell_html := ""; cell_children := [crearInputCantidad c (Some a)] |};
               {| cell_html := ""; cell_children := [crearInputLote c] |};
               {| cell_html := tpl "<span class=`text-muted`>-</span>";
                  cell_children := [] |} ] |} in
      with_contadorFilas (c + 1) (with_asignado c (insertRow fila s))
  end.

Definition is_placeholder (rows : list row) : bool :=
  match rows with
  | [r] => Nat.eqb (List.length (cells r)) 1
  | _ => false
  end.

(** Agrega una fila manual. *)
Definition agregarArticulo (s : state) : state :=
  match tbody (doc s) with
  | None => s
  | Some rows =>
      let s1 := if is_placeholder rows
                then with_doc (set_tbody (doc s) (Some [])) s else s in
      let idFila := contadorFilas s1 in
      let fila :=
        {| row_id := Some (idn "fila_" idFila);
           cells :=
             [ {| cell_html := ""; cell_children := [crearSelectArticulo idFila s1] |};
               {| cell_html := "";
                  cell_children :=
                    [ {| attrs := [("id", idn "stock_" idFila); ("class", "text-muted")];
                         content := Markup "-" |} ] |};
               {| cell_html := ""; cell_children := [crearInputCantidad idFila None] |};
               {| cell_html := ""; cell_children := [crearInputLote idFila] |};
               {| cell_html := ""; cell_children := [crearBotonEliminar idFila] |} ] |} in
      with_contadorFilas (idFila + 1) (with_asignado idFila (insertRow fila s1))
  end.

(** The empty-state row: a single cell spanning the five columns, its
    text on a line of its own after [n] spaces. *)
Definition placeholder (n : nat) (text : string) : row :=
  {| row_id := None;
     cells := [ {| cell_html := indent n ++ text ++ indent (n - 4);
                   cell_children := [] |} ] |}.

(** Limpia la tabla. *)
Definition limpiarTabla (s : state) : state :=
  match tbody (doc s) with
  | None => s
  | Some _ =>
      with_contadorFilas 0
        (with_doc
           (set_tbody (doc s)
              (Some [placeholder 20
                       (tpl "No hay artículos agregados. Seleccione una solicitud o haga clic en `Agregar Artículo` para comenzar.")]))
           s)
  end.

(** Elimina una fila de la tabla. *)
Definition eliminarFila (idFila : Z) (s : state) : state :=
  match tbody (doc s) with
  | None => s
  | Some rows =>
      let rows' := match remove_node (idn "fila_" idFila) rows with
                   | Some l => l
                   | None => rows
                   end in
      let s1 := with_doc (set_tbody (doc s) (Some rows')) s in
      if Nat.eqb (List.length rows') 0 then limpiarTabla s1 else s1
  end.

Definition set_attr (name v : string) (l : attributes) : attributes :=
  (name, v) :: filter (fun kv => negb (fst kv =? name)%string) l.

(** Actualiza el stock mostrado.  A TypeError (the element under
    [articulo_<n>] has no options, or none is selected) leaves the
    handler before anything is written. *)
Definition actualizarStock (idFila : Z) (s : state) : state :=
  match getElementById (doc s) (idn "articulo_" idFila),
        getElementById (doc s) (idn "stock_" idFila) with
  | Some select, Some _ =>
      let write html cls :=
        with_doc (edit (idn "stock_" idFila)
                       (fun e => {| attrs := match cls with
                                             | Some c => set_attr "class" c (attrs e)
                                             | None => attrs e
                                             end;
                                    content := Markup html |})
                       (doc s)) s in
      match value_of select with
      | Some (String _ _) =>
          match content select with
          | Select opts i =>
              match nth_Z opts i with
              | Some opcion =>
                  let str o := match o with Some x => x | None => "null" end in
                  let stock := str (lookup "data-stock" (op_attrs opcion)) in
                  let unidad := str (lookup "data-unidad" (op_attrs opcion)) in
                  write ("<strong>" ++ stock ++ " " ++ unidad ++ "</strong>")
                        (Some (if gt (parseFloat stock) (num 0)
                               then "text-success" else "text-danger"))
              | None => s
              end
          | _ => s
          end
      | _ => write (tpl "<span class=`text-muted`>-</span>") None
      end
  | _, _ => s
  end.

(** ** Handlers that may throw

    A computation returns the state it leaves and its value, [None]
    when a TypeError left it. *)
Definition M (A : Type) : Type := state -> state * option A.

Definition ret {A : Type} (a : A) : M A := fun s => (s, Some a).

Definition throw {A : Type} : M A := fun s => (s, None).

Definition bind {A B : Type} (m : M A) (k : A -> M B) : M B :=
  fun s => match m s with
           | (s1, Some a) => k a s1
           | (s1, None) => (s1, None)
           end.

Definition effect (f : state -> state) : M unit := fun s => (f s, Some tt).

Definition get {A : Type} (f : state -> A) : M A := fun s => (s, Some (f s)).

Notation "x <- m ;; k" := (bind m (fun x => k))
  (at level 61, m at next level, right associativity).
Notation "m ;; k" := (bind m (fun _ => k))
  (at level 61, right associativity).

(** [try { m } catch (error) { h }]. *)
Definition try_catch (m : M unit) (h : state -> state) : state -> state :=
  fun s => match m s with
           | (s1, Some _) => s1
           | (s1, None) => h s1
           end.

Definition datosSolicitudHtml (sol : solicitud) : string :=
  indent 12 ++ tpl "<p class=`mb-1`><strong>Número:</strong> "
  ++ to_string (numero sol) ++ "</p>"
  ++ indent 12 ++ tpl "<p class=`mb-1`><strong>Solicitante:</strong> "
  ++ to_string (solicitante sol) ++ "</p>"
  ++ indent 12 ++ tpl "<p class=`mb-1`><strong>Departamento:</strong> "
  ++ to_string (departamento sol) ++ "</p>"
  ++ indent 12 ++ tpl "<p class=`mb-0`><strong>Motivo:</strong> "
  ++ to_string (or_else (motivo sol) (VStr "N/A")) ++ "</p>"
  ++ indent 8.

(** Muestra información de la solicitud. *)
Definition mostrarInfoSolicitud (sol : option solicitud) : M unit :=
  d <- get doc ;;
  match infoSolicitud d, datosSolicitud d with
  | Some _, Some _ =>
      match sol with
      | None => throw
      | Some sol =>
          effect (with_doc
                    {| tbody := tbody d; detallesJson := detallesJson d;
                       btnAgregar := btnAgregar d;
                       infoSolicitud := Some false;
                       datosSolicitud := Some (datosSolicitudHtml sol);
                       id_bodega_origen := id_bodega_origen d |})
      end
  | _, _ => ret tt
  end.

(** Carga artículos en la tabla. *)
Definition cargarArticulosEnTabla (articulos : option (list linea)) : M unit :=
  d <- get doc ;;
  match tbody d with
  | None => ret tt
  | Some _ =>
      effect (with_doc (set_tbody d (Some []))) ;;
      match articulos with
      | None => throw
      | Some [] =>
          effect (with_doc
                    (set_tbody d
                       (Some [placeholder 24 "No hay artículos en esta solicitud."])))
      | Some l => effect (fun s => fold_left (fun s a => agregarFilaSolicitud a s) l s)
      end
  end.

Definition set_btnAgregar (disabled : bool) (s : state) : state :=
  let d := doc s in
  match btnAgregar d with
  | Some _ =>
      with_doc {| tbody := tbody d; detallesJson := detallesJson d;
                  btnAgregar := Some disabled;
                  infoSolicitud := infoSolicitud d; datosSolicitud := datosSolicitud d;
                  id_bodega_origen := id_bodega_origen d |} s
  | None => s
  end.

Definition set_bodega_origen (v : string) (s : state) : state :=
  let d := doc s in
  match id_bodega_origen d with
  | Some _ =>
      with_doc {| tbody := tbody d; detallesJson := detallesJson d;
                  btnAgregar := btnAgregar d;
                  infoSolicitud := infoSolicitud d; datosSolicitud := datosSolicitud d;
                  id_bodega_origen := Some v |} s
  | None => s
  end.

(** Carga artículos de una solicitud via AJAX.  [o] is how the two
    awaits ended and the argument state is the one they resume in. *)
Definition cargarArticulosSolicitud (solicitudId : string) (o : fetch_outcome)
  : state -> state :=
  let catch s :=
    alert "Error al cargar artículos de la solicitud." (console_error s) in
  match o with
  | Rejects => catch
  | Resolves data =>
      try_catch
        (if truthy (success data) then
           effect (with_esSolicitud true) ;;
           mostrarInfoSolicitud (r_solicitud data) ;;
           (* mostrarColumnasSolicitud() has an empty body *)
           cargarArticulosEnTabla (r_articulos data) ;;
           effect (set_btnAgregar true) ;;
           match r_solicitud data with
           | None => throw
           | Some sol =>
               if truthy (bodega_origen_id sol)
               then effect (set_bodega_origen (to_string (bodega_origen_id sol)))
               else ret tt
           end
         else
           effect (alert ("Error al cargar artículos de la solicitud: "
                          ++ to_string (or_else (error data) (message data)))))
        catch
  end.

(** Limpia datos de solicitud. *)
Definition limpiarArticulosSolicitud (s : state) : state :=
  let s1 := with_esSolicitud false s in
  let d := doc s1 in
  let s2 :=
    match infoSolicitud d with
    | Some _ =>
        with_doc {| tbody := tbody d; detallesJson := detallesJson d;
                    btnAgregar := btnAgregar d;
                    infoSolicitud := Some true; datosSolicitud := datosSolicitud d;
                    id_bodega_origen := id_bodega_origen d |} s1
    | None => s1
    end in
  set_btnAgregar false (limpiarTabla s2).

(** ** Validation and submission *)

(** [parseFloat(x)] where [x] is a string, [null] or [undefined]: the
    last two read as the texts null and undefined, which are not numbers. *)
Definition parseFloat_opt (x : option string) : number :=
  match x with
  | Some v => parseFloat v
  | None => NaN
  end.

(** Valida cantidad en modo solicitud. *)
Definition validarCantidadSolicitud (inputCantidad : element) : M bool :=
  let cantidadPendiente := parseFloat_opt (getAttribute inputCantidad "data-pendiente") in
  let cantidadAEntregar := parseFloat_opt (value_of inputCantidad) in
  let stockDisponible := parseFloat_opt (getAttribute inputCantidad "data-stock") in
  if gt cantidadAEntregar cantidadPendiente then
    effect (alert ("La cantidad a entregar (" ++ number_to_string cantidadAEntregar
                   ++ ") excede la cantidad pendiente ("
                   ++ number_to_string cantidadPendiente ++ ").")) ;;
    ret false
  else if gt cantidadAEntregar stockDisponible then
    effect (alert ("La cantidad a entregar (" ++ number_to_string cantidadAEntregar
                   ++ ") excede el stock disponible ("
                   ++ number_to_string stockDisponible ++ ").")) ;;
    ret false
  else ret true.

(** Valida stock disponible en modo manual. *)
Definition validarStockDisponible (selectArticulo inputCantidad : element) : M bool :=
  match content selectArticulo with
  | Select opts i =>
      match nth_Z opts i with
      | None => throw
      | Some opcion =>
          let stockDisponible := parseFloat_opt (lookup "data-stock" (op_attrs opcion)) in
          let cantidadSolicitada := parseFloat_opt (value_of inputCantidad) in
          if gt cantidadSolicitada stockDisponible then
            effect (alert ("La cantidad solicitada ("
                           ++ number_to_string cantidadSolicitada
                           ++ ") excede el stock disponible ("
                           ++ number_to_string stockDisponible ++ ").")) ;;
            ret false
          else ret true
      end
  | _ => throw
  end.

(** How one turn of the loop over the rows ends: [continue] or falling
    through to the next index with the records so far, or [return false]. *)
Inductive flow :=
| Next (detalles : list object)
| ReturnFalse.

(** [x.value] is falsy: missing or empty. *)
Definition no_value (x : option string) : bool :=
  match x with
  | Some (String _ _) => false
  | _ => true
  end.

Definition parseInt_opt (x : option string) : number :=
  match x with
  | Some v => parseInt v
  | None => NaN
  end.

Definition text_or_null (x : option string) : value :=
  match x with
  | Some (String c r) => VStr (String c r)
  | _ => VNull
  end.

(** The record pushed for a row: [{articulo_id, cantidad, lote}], and
    [detalle_solicitud_id] when it is truthy. *)
Definition construirDetalle (inputCantidad : element) (inputLote : option element)
    (articuloId : number) (detalleSolicitudId : value) : object :=
  let detalle :=
    [("articulo_id", VNum articuloId);
     ("cantidad", VNum (parseFloat_opt (value_of inputCantidad)));
     ("lote", match inputLote with
              | Some l => text_or_null (value_of l)
              | None => VNull
              end)] in
  if truthy detalleSolicitudId
  then (detalle ++ [("detalle_solicitud_id", detalleSolicitudId)])%list
  else detalle.

(** The end of a turn, common to both modes: the quantity must be
    present and positive, then the record is pushed. *)
Definition cantidadYDetalle (inputCantidad : element) (inputLote : option element)
    (articuloId : number) (detalleSolicitudId : value) (detalles : list object)
  : M flow :=
  if no_value (value_of inputCantidad)
     || le (parseFloat_opt (value_of inputCantidad)) (num 0)
  then effect (alert "Ingrese una cantidad válida en todas las filas.") ;;
       ret ReturnFalse
  else
    ret (Next (detalles ++ [construirDetalle inputCantidad inputLote
                                             articuloId detalleSolicitudId])%list).

(** The body of the loop of [validarYEnviarFormulario] at index [i]. *)
Definition fila (i : Z) (detalles : list object) : M flow :=
  d <- get doc ;;
  match getElementById d (idn "fila_" i) with
  | None => ret (Next detalles)
  | Some _ =>
      let inputLote := getElementById d (idn "lote_" i) in
      match getElementById d (idn "cantidad_" i) with
      | None => ret (Next detalles)
      | Some inputCantidad =>
          es <- get esSolicitud ;;
          if es then
            (* Modo solicitud *)
            match getElementById d (idn "articulo_" i),
                  getElementById d (idn "detalle_solicitud_" i) with
            | Some inputArticulo, Some inputDetalleSolicitud =>
                let articuloId := parseInt_opt (value_of inputArticulo) in
                let detalleSolicitudId :=
                  VNum (parseInt_opt (value_of inputDetalleSolicitud)) in
                ok <- validarCantidadSolicitud inputCantidad ;;
                if ok
                then cantidadYDetalle inputCantidad inputLote
                                      articuloId detalleSolicitudId detalles
                else ret ReturnFalse
            | _, _ => ret (Next detalles)
            end
          else
            (* Modo manual *)
            match getElementById d (idn "articulo_" i) with
            | Some selectArticulo =>
                if no_value (value_of selectArticulo) then
                  effect (alert "Seleccione un artículo en todas las filas.") ;;
                  ret ReturnFalse
                else
                  let articuloId := parseInt_opt (value_of selectArticulo) in
                  ok <- validarStockDisponible selectArticulo inputCantidad ;;
                  if ok
                  then cantidadYDetalle inputCantidad inputLote
                                        articuloId VNull detalles
                  else ret ReturnFalse
            | None =>
                effect (alert "Seleccione un artículo en todas las filas.") ;;
                ret ReturnFalse
            end
      end
  end.

(** [for (let i = from; i < this.contadorFilas; i++)], with [n] turns
    left. *)
Fixpoint recorrer (n : nat) (i : Z) (detalles : list object) : M flow :=
  match n with
  | O => ret (Next detalles)
  | S n' =>
      r <- fila i detalles ;;
      match r with
      | Next detalles' => recorrer n' (i + 1) detalles'
      | ReturnFalse => ret ReturnFalse
      end
  end.

Definition set_detallesJson (v : string) (s : state) : state :=
  let d := doc s in
  match detallesJson d with
  | Some _ =>
      with_doc {| tbody := tbody d; detallesJson := Some v;
                  btnAgregar := btnAgregar d;
                  infoSolicitud := infoSolicitud d; datosSolicitud := datosSolicitud d;
                  id_bodega_origen := id_bodega_origen d |} s
  | None => s
  end.

Definition sin_articulos (d : document) : bool :=
  match tbody d with
  | None => true
  | Some [] => true
  | Some (r :: _) => Nat.eqb (List.length (cells r)) 1
  end.

(** Valida y envía el formulario. *)
Definition validarYEnviarFormulario : M bool :=
  effect preventDefault ;;
  d <- get doc ;;
  if sin_articulos d then
    effect (alert "Debe agregar al menos un artículo a la entrega.") ;;
    ret false
  else
    c <- get contadorFilas ;;
    r <- recorrer (Z.to_nat c) 0 [] ;;
    match r with
    | ReturnFalse => ret false
    | Next detalles =>
        effect (set_detallesJson (JSON_stringify detalles)) ;;
        effect submit ;;
        ret true
    end.

(** ** The events of a session *)

Inductive operacion :=
| Agregar                                   (* the add button: [agregarArticulo()] *)
| Eliminar (idFila : Z)                     (* a delete button: [eliminarFila(idFila)] *)
| CambiarSolicitud (solicitudId : string) (o : fetch_outcome)
                                            (* change of [#id_solicitud] *)
| Elegir (idFila : Z) (indice : Z)          (* an option chosen in [articulo_<idFila>] *)
| Editar (id : string) (f : element -> element).   (* any other edit of a control *)

Definition paso (op : operacion) (s : state) : state :=
  match op with
  | Agregar => agregarArticulo s
  | Eliminar idFila => eliminarFila idFila s
  | CambiarSolicitud solicitudId o =>
      match solicitudId with
      | EmptyString => limpiarArticulosSolicitud s
      | _ => cargarArticulosSolicitud solicitudId o s
      end
  | Elegir idFila indice =>
      actualizarStock idFila
        (with_doc (edit (idn "articulo_" idFila) (choose indice) (doc s)) s)
  | Editar id f => with_doc (edit id f (doc s)) s
  end.

Definition ejecutar (ops : list operacion) (s : state) : state :=
  fold_left (fun s op => paso op s) ops s.

(** A page whose table body shows the empty state and whose other
    anchors are all present. *)
Definition pagina : document :=
  {| tbody := Some [placeholder 20 ""]; detallesJson := Some "";
     btnAgregar := Some false; infoSolicitud := Some true;
     datosSolicitud := Some ""; id_bodega_origen := Some "" |}.

End EntregaArticulos.

(* ================================================================== *)
(** * EntregaBienes: the goods-delivery form *)
(* ================================================================== *)

Module EntregaBienes.
Import JS DOM.

(** An entry of [activosDisponibles]. *)
Record activo := {
  act_id : value; nombre : value; codigo : value; categoria : value
}.

(** The object's fields, the document ([tbody] is [#bienesBody]), the
    [alert] messages and the submit event being handled.
    ([detallesBienes] is never read or written.) *)
Record state := {
  activosDisponibles : list activo;
  contadorFilas : Z;
  doc : document;
  alerts : list string;
  defaultPrevented : bool;
  submitted : nat
}.

Definition with_doc (d : document) (s : state) : state :=
  {| activosDisponibles := activosDisponibles s; contadorFilas := contadorFilas s;
     doc := d; alerts := alerts s; defaultPrevented := defaultPrevented s;
     submitted := submitted s |}.

Definition with_contadorFilas (c : Z) (s : state) : state :=
  {| activosDisponibles := activosDisponibles s; contadorFilas := c;
     doc := doc s; alerts := alerts s; defaultPrevented := defaultPrevented s;
     submitted := submitted s |}.

Definition alert (msg : string) (s : state) : state :=
  {| activosDisponibles := activosDisponibles s; contadorFilas := contadorFilas s;
     doc := doc s; alerts := (alerts s ++ [msg])%list;
     defaultPrevented := defaultPrevented s; submitted := submitted s |}.

Definition preventDefault (s : state) : state :=
  {| activosDisponibles := activosDisponibles s; contadorFilas := contadorFilas s;
     doc := doc s; alerts := alerts s; defaultPrevented := true;
     submitted := submitted s |}.

Definition submit (s : state) : state :=
  {| activosDisponibles := activosDisponibles s; contadorFilas := contadorFilas s;
     doc := doc s; alerts := alerts s; defaultPrevented := defaultPrevented s;
     submitted := S (submitted s) |}.

Definition init (activos : list activo) (d : document) : state :=
  {| activosDisponibles := activos; contadorFilas := 0; doc := d; alerts := [];
     defaultPrevented := false; submitted := 0%nat |}.

(** Escapa HTML para prevenir XSS. *)
Definition escapeHtml (unsafe : value) : string :=
  if negb (truthy unsafe) then ""
  else
    replace_all "'" "&#039;"
      (replace_all dquote "&quot;"
         (replace_all ">" "&gt;"
            (replace_all "<" "&lt;"
               (replace_all "&" "&amp;" (to_string unsafe))))).

Definition idn (name : string) (n : Z) : string := name ++ string_of_Z n.

Definition indent (n : nat) : string := nl ++ string_of_list_ascii (repeat " "%char n).

Definition opcionActivo (a : activo) : option_element :=
  let categoria := or_else (categoria a) (VStr "-") in
  let codigo := or_else (codigo a) (VStr "") in
  {| op_attrs := [("value", to_string (act_id a))];
     op_html := indent 16 ++ escapeHtml (nombre a) ++ " - " ++ escapeHtml codigo
                ++ " (" ++ escapeHtml categoria ++ ")" ++ indent 12 |}.

Definition crearSelectActivo (idFila : Z) (s : state) : element :=
  {| attrs := [("class", "form-select form-select-sm"); ("id", idn "activo_" idFila);
               ("required", "")];
     content := Select ({| op_attrs := [("value", "")]; op_html := "Seleccione..." |}
                          :: map opcionActivo (activosDisponibles s)) 0 |}.

Definition crearInputCantidad (idFila : Z) : element :=
  {| attrs := [("type", "number"); ("class", "form-control form-control-sm");
               ("id", idn "cantidad_" idFila); ("step", "1"); ("min", "1");
               ("required", "")];
     content := Input "1" |}.

Definition crearInputSerie (idFila : Z) : element :=
  {| attrs := [("type", "text"); ("class", "form-control form-control-sm");
               ("id", idn "serie_" idFila);
               ("placeholder", "Número de serie (opcional)")];
     content := Input "" |}.

Definition crearSelectEstado (idFila : Z) : element :=
  let opcion v text := {| op_attrs := [("value", v)]; op_html := text |} in
  {| attrs := [("class", "form-select form-select-sm");
               ("id", idn "estado_fisico_" idFila)];
     content := Select [opcion "" "Seleccione..."; opcion "EXCELENTE" "Excelente";
                        opcion "BUENO" "Bueno"; opcion "REGULAR" "Regular";
                        opcion "MALO" "Malo"] 0 |}.

Definition crearBotonEliminar (idFila : Z) : element :=
  {| attrs := [("type", "button"); ("class", "btn btn-sm btn-danger")];
     content := Markup (tpl "<i class=`ri-delete-bin-line`></i>") |}.

Definition is_placeholder (rows : list row) : bool :=
  match rows with
  | [r] => Nat.eqb (List.length (cells r)) 1
  | _ => false
  end.

(** Agrega una fila de bien. *)
Definition agregarBien (s : state) : state :=
  match tbody (doc s) with
  | None => s
  | Some rows =>
      let rows := if is_placeholder rows then [] else rows in
      let idFila := contadorFilas s in
      let one e := {| cell_html := ""; cell_children := [e] |} in
      let fila :=
        {| row_id := Some (idn "fila_" idFila);
           cells := [one (crearSelectActivo idFila s); one (crearInputCantidad idFila);
                     one (crearInputSerie idFila); one (crearSelectEstado idFila);
                     one (crearBotonEliminar idFila)] |} in
      with_contadorFilas (idFila + 1)
        (with_doc (set_tbody (doc s) (Some (rows ++ [fila])%list)) s)
  end.

(** Elimina una fila de la tabla. *)
Definition eliminarFila (idFila : Z) (s : state) : state :=
  match tbody (doc s) with
  | None => s
  | Some rows =>
      let rows' := match remove_node (idn "fila_" idFila) rows with
                   | Some l => l
                   | None => rows
                   end in
      let rows' :=
        if Nat.eqb (List.length rows') 0 then
          [ {| row_id := None;
               cells := [ {| cell_html :=
                               indent 24
                               ++ tpl "No hay bienes agregados. Haga clic en `Agregar Bien` para comenzar."
                               ++ indent 20;
                             cell_children := [] |} ] |} ]
        else rows' in
      with_doc (set_tbody (doc s) (Some rows')) s
  end.

Inductive flow :=
| Next (detalles : list object)
| ReturnFalse.

Definition no_value (x : option string) : bool :=
  match x with
  | Some (String _ _) => false
  | _ => true
  end.

Definition parseInt_opt (x : option string) : number :=
  match x with
  | Some v => parseInt v
  | None => NaN
  end.

Definition text_or_null (x : option string) : value :=
  match x with
  | Some (String c r) => VStr (String c r)
  | _ => VNull
  end.

Definition value_or_null (e : option element) : value :=
  match e with
  | Some x => text_or_null (value_of x)
  | None => VNull
  end.

(** The body of the loop of [validarYEnviarFormulario] at index [i]. *)
Definition fila (i : Z) (detalles : list object) (s : state) : state * flow :=
  let d := doc s in
  match getElementById d (idn "fila_" i) with
  | None => (s, Next detalles)
  | Some _ =>
      let selectActivo := getElementById d (idn "activo_" i) in
      let inputCantidad := getElementById d (idn "cantidad_" i) in
      let inputSerie := getElementById d (idn "serie_" i) in
      let selectEstado := getElementById d (idn "estado_fisico_" i) in
      match selectActivo with
      | Some sel =>
          if no_value (value_of sel) then
            (alert "Seleccione un activo/bien en todas las filas." s, ReturnFalse)
          else
            match inputCantidad with
            | Some inp =>
                if no_value (value_of inp)
                   || le (parseInt_opt (value_of inp)) (num 0)
                then (alert "Ingrese una cantidad válida en todas las filas." s,
                      ReturnFalse)
                else
                  (s, Next (detalles ++
                            [[("equipo_id", VNum (parseInt_opt (value_of sel)));
                              ("cantidad", VNum (parseInt_opt (value_of inp)));
                              ("numero_serie", value_or_null inputSerie);
                              ("estado_fisico", value_or_null selectEstado)]])%list)
            | None =>
                (alert "Ingrese una cantidad válida en todas las filas." s, ReturnFalse)
            end
      | None => (alert "Seleccione un activo/bien en todas las filas." s, ReturnFalse)
      end
  end.

(** [for (let i = from; i < this.contadorFilas; i++)], with [n] turns
    left. *)
Fixpoint recorrer (n : nat) (i : Z) (detalles : list object) (s : state)
  : state * flow :=
  match n with
  | O => (s, Next detalles)
  | S n' =>
      match fila i detalles s with
      | (s1, Next detalles') => recorrer n' (i + 1) detalles' s1
      | (s1, ReturnFalse) => (s1, ReturnFalse)
      end
  end.

Definition set_detallesJson (v : string) (s : state) : state :=
  let d := doc s in
  match detallesJson d with
  | Some _ =>
      with_doc {| tbody := tbody d; detallesJson := Some v;
                  btnAgregar := btnAgregar d;
                  infoSolicitud := infoSolicitud d; datosSolicitud := datosSolicitud d;
                  id_bodega_origen := id_bodega_origen d |} s
  | None => s
  end.

Definition sin_bienes (d : document) : bool :=
  match tbody d with
  | None => true
  | Some [] => true
  | Some (r :: _) => Nat.eqb (List.length (cells r)) 1
  end.

(** Valida y envía el formulario. *)
Definition validarYEnviarFormulario (s : state) : state * bool :=
  let s := preventDefault s in
  if sin_bienes (doc s) then
    (alert "Debe agregar al menos un bien a la entrega." s, false)
  else
    match recorrer (Z.to_nat (contadorFilas s)) 0 [] s with
    | (s1, ReturnFalse) => (s1, false)
    | (s1, Next detalles) =>
        (submit (set_detallesJson (JSON_stringify detalles) s1), true)
    end.

End EntregaBienes.

(* ================================================================== *)
(** * Vocabulary of the statements *)
(* ================================================================== *)

Module Enunciados.
Import JS DOM.

(** [needle] occurs in [hay]. *)
Fixpoint contains (needle hay : string) : bool :=
  prefix needle hay ||
  match hay with
  | EmptyString => false
  | String _ r => contains needle r
  end.

Fixpoint occurs (c : ascii) (s : string) : bool :=
  match s with
  | EmptyString => false
  | String x r => (x =? c)%char || occurs c r
  end.

(** The ids of the rows of a table body, top to bottom; the placeholder
    row has none. *)
Definition ids_de_filas (rows : list row) : list string :=
  flat_map (fun r => match row_id r with Some i => [i] | None => [] end) rows.

Definition filas (d : document) : list row :=
  match tbody d with
  | Some rows => rows
  | None => []
  end.

(** The indices a loop of [n] turns visits from [i] on, and those the
    loop of the submit handler visits: [0 .. c-1]. *)
Fixpoint indices_desde (i : Z) (n : nat) : list Z :=
  match n with
  | O => []
  | S n' => i :: indices_desde (i + 1) n'
  end.

Definition indices (c : Z) : list Z := indices_desde 0 (Z.to_nat c).

Definition valor (e : option element) : option string :=
  match e with
  | Some x => value_of x
  | None => None
  end.

Definition existe (d : document) (id : string) : bool :=
  match getElementById d id with
  | Some _ => true
  | None => false
  end.

(** The request-lines fetch fails: it rejects, or the response is not
    marked successful. *)
Definition fallida (o : EntregaArticulos.fetch_outcome) : Prop :=
  o = EntregaArticulos.Rejects \/
  exists data, o = EntregaArticulos.Resolves data
               /\ truthy (EntregaArticulos.success data) = false.

(** A row the loop of the item form does not skip: the row, its
    quantity input and, in linked mode, its two hidden inputs exist. *)
Definition bien_formada (s : EntregaArticulos.state) (i : Z) : bool :=
  let d := EntregaArticulos.doc s in
  existe d (EntregaArticulos.idn "fila_" i)
  && existe d (EntregaArticulos.idn "cantidad_" i)
  && (negb (EntregaArticulos.esSolicitud s)
      || existe d (EntregaArticulos.idn "articulo_" i)
         && existe d (EntregaArticulos.idn "detalle_solicitud_" i)).

(** The record of row [i], from its controls. *)
Definition registro (s : EntregaArticulos.state) (i : Z) : object :=
  let d := EntregaArticulos.doc s in
  match getElementById d (EntregaArticulos.idn "cantidad_" i) with
  | Some inputCantidad =>
      EntregaArticulos.construirDetalle inputCantidad
        (getElementById d (EntregaArticulos.idn "lote_" i))
        (EntregaArticulos.parseInt_opt
           (valor (getElementById d (EntregaArticulos.idn "articulo_" i))))
        (if EntregaArticulos.esSolicitud s
         then VNum (EntregaArticulos.parseInt_opt
                      (valor (getElementById d
                                (EntregaArticulos.idn "detalle_solicitud_" i))))
         else VNull)
  | None => []
  end.

(** The shape of a record of the item form: the three fields, and the
    linking field only in linked mode. *)
Definition forma (linked : bool) (o : object) : Prop :=
  exists articuloId cantidad lote,
    (lote = VNull \/ exists t, lote = VStr t)
    /\ (o = [("articulo_id", VNum articuloId); ("cantidad", VNum cantidad);
             ("lote", lote)]
        \/ linked = true
           /\ exists detalleId,
                o = [("articulo_id", VNum articuloId); ("cantidad", VNum cantidad);
                     ("lote", lote); ("detalle_solicitud_id", VNum detalleId)]).

(** The same shape, of a serialized record. *)
Definition forma_json (linked : bool) (j : json) : Prop :=
  exists members,
    j = JObj members
    /\ (map fst members = ["articulo_id"; "cantidad"; "lote"]
        \/ linked = true
           /\ map fst members
              = ["articulo_id"; "cantidad"; "lote"; "detalle_solicitud_id"]).

(** The history of the ids given out, [c] being the counter: none is
    negative, and the last [c] of them are [0, 1, ..., c-1] in that
    order, the ids given out since the counter last stood at 0. *)
Definition historia (c : Z) (l : list Z) : Prop :=
  Forall (fun n => 0 <= n) l /\ exists pre, l = (pre ++ indices c)%list.

(** What holds of the row ids throughout a session: the counter is not
    negative, the history is as above, and the rows in the table carry
    the ids [fila_n] for numbers [n] below the counter that increase
    down the table. *)
Definition invariante_ids (s : EntregaArticulos.state) : Prop :=
  0 <= EntregaArticulos.contadorFilas s
  /\ historia (EntregaArticulos.contadorFilas s) (EntregaArticulos.asignados s)
  /\ exists ns,
       ids_de_filas (filas (EntregaArticulos.doc s))
       = map (EntregaArticulos.idn "fila_") ns
       /\ StronglySorted Z.lt ns
       /\ Forall (fun n => 0 <= n < EntregaArticulos.contadorFilas s) ns.

(** A handler keeps the invariant, however it ends. *)
Definition preserva {A : Type} (m : EntregaArticulos.M A) : Prop :=
  forall s, invariante_ids s -> invariante_ids (fst (m s)).

(** How a turn, the loop or the handler of the item form may end from
    [s]: with the value [a] and the state [s'], with a message added to
    [s] and the value [b], or with a TypeError in [s]. *)
Definition termina {A : Type} (s s' : EntregaArticulos.state) (a b : A)
    (r : EntregaArticulos.state * option A) : Prop :=
  r = (s', Some a)
  \/ (exists msg, r = (EntregaArticulos.alert msg s, Some b))
  \/ r = (s, None).

(** Row [i] of the item form passes validation: its turn of the loop
    goes on to the next index. *)
Definition pasa (s : EntregaArticulos.state) (i : Z) : Prop :=
  exists detalles,
    EntregaArticulos.fila i [] s = (s, Some (EntregaArticulos.Next detalles)).

(** The goods form.  A row is there; it lacks a selected asset; its
    quantity is missing or its integer value is not positive. *)
Definition presente (s : EntregaBienes.state) (i : Z) : bool :=
  existe (EntregaBienes.doc s) (EntregaBienes.idn "fila_" i).

Definition sin_activo (s : EntregaBienes.state) (i : Z) : bool :=
  EntregaBienes.no_value
    (valor (getElementById (EntregaBienes.doc s) (EntregaBienes.idn "activo_" i))).

Definition cantidad_invalida (s : EntregaBienes.state) (i : Z) : bool :=
  let v := valor (getElementById (EntregaBienes.doc s)
                                 (EntregaBienes.idn "cantidad_" i)) in
  EntregaBienes.no_value v || le (EntregaBienes.parseInt_opt v) (num 0).

(** The record of row [i] of the goods form, from its controls. *)
Definition registro_bien (s : EntregaBienes.state) (i : Z) : object :=
  let d := EntregaBienes.doc s in
  [("equipo_id",
    VNum (EntregaBienes.parseInt_opt
            (valor (getElementById d (EntregaBienes.idn "activo_" i)))));
   ("cantidad",
    VNum (EntregaBienes.parseInt_opt
            (valor (getElementById d (EntregaBienes.idn "cantidad_" i)))));
   ("numero_serie",
    EntregaBienes.value_or_null (getElementById d (EntregaBienes.idn "serie_" i)));
   ("estado_fisico",
    EntregaBienes.value_or_null
      (getElementById d (EntregaBienes.idn "estado_fisico_" i)))].

(** The message of the first row, in the order of the list, that fails
    one of the two checks of the goods form. *)
Fixpoint primera_falla (s : EntregaBienes.state) (l : list Z) : option string :=
  match l with
  | [] => None
  | i :: r =>
      if presente s i then
        if sin_activo s i then Some "Seleccione un activo/bien en todas las filas."
        else if cantidad_invalida s i
             then Some "Ingrese una cantidad válida en todas las filas."
             else primera_falla s r
      else primera_falla s r
  end.

End Enunciados.

(** Concrete sessions of the item-delivery form. *)
Module Escenarios.
Import JS DOM EntregaArticulos.

(** A catalog with article 5 (stock 10) and article 9 (stock 4). *)
Definition catalogo : list articulo :=
  [ {| art_id := VNum (num 5); codigo := VStr "A-5"; nombre := VStr "Lápiz";
       stock := VNum (num 10); unidad := VStr "un" |};
    {| art_id := VNum (num 9); codigo := VStr "A-9"; nombre := VStr "Goma";
       stock := VNum (num 4); unidad := VStr "un" |} ].

(** Two manual rows: article 5, quantity 3, lot L1; article 9,
    quantity 1, no lot. *)
Definition dos_filas_manuales : state :=
  ejecutar
    [Agregar; Agregar;
     Elegir 0 1; Editar "cantidad_0" (type_into "3");
     Editar "lote_0" (type_into "L1");
     Elegir 1 2; Editar "cantidad_1" (type_into "1")]
    (init catalogo pagina).

(** A request with one pending line: 10 pending, 7 in stock. *)
Definition linea_10_7 : linea :=
  {| articulo_id := VNum (num 5); articulo_codigo := VStr "A-5";
     articulo_nombre := VStr "Lápiz"; unidad_medida := VStr "un";
     cantidad_pendiente := VNum (num 10); stock_actual := VNum (num 7);
     detalle_solicitud_id := VNum (num 77) |}.

Definition solicitud_script : solicitud :=
  {| numero := VStr "<script>"; solicitante := VStr "Ana";
     departamento := VStr "Bodega"; motivo := VNull;
     bodega_origen_id := VNum (num 3) |}.

Definition respuesta_ok : respuesta :=
  {| success := VBool true; r_solicitud := Some solicitud_script;
     r_articulos := Some [linea_10_7]; error := VUndefined; message := VUndefined |}.

Definition respuesta_error : respuesta :=
  {| success := VBool false; r_solicitud := None; r_articulos := None;
     error := VStr "Solicitud no encontrada"; message := VUndefined |}.

(** The request is selected, then the user types a quantity in its row. *)
Definition fila_vinculada (cantidad : string) : state :=
  ejecutar
    [CambiarSolicitud "4" (Resolves respuesta_ok);
     Editar "cantidad_0" (type_into cantidad)]
    (init catalogo pagina).

(** The two manual rows, the quantity input of the first taken out of
    the document. *)
Definition fila_sin_cantidad : state :=
  let s := dos_filas_manuales in
  with_doc (set_tbody (doc s)
              (match tbody (doc s) with
               | Some rows => remove_node "cantidad_0" rows
               | None => None
               end)) s.

(** The goods form: one asset in the catalog, one row, the asset chosen
    and a quantity typed. *)
Definition un_bien (cantidad : string) : EntregaBienes.state :=
  let s := EntregaBienes.agregarBien
             (EntregaBienes.init
                [ {| EntregaBienes.act_id := VNum (num 12);
                     EntregaBienes.nombre := VStr "Taladro";
                     EntregaBienes.codigo := VStr "T-1";
                     EntregaBienes.categoria := VNull |} ]
                pagina) in
  EntregaBienes.with_doc
    (edit "cantidad_0" (type_into cantidad)
       (edit "activo_0" (choose 1) (EntregaBienes.doc s))) s.

End Escenarios.

(** Further vocabulary, for the properties of the second part. *)
Module Sesion.
Import JS DOM Enunciados.

(** The element found under an id, for statements about a document in
    which it is there. *)
Definition el (d : document) (id : string) : element :=
  match getElementById d id with
  | Some e => e
  | None => {| attrs := []; content := Markup "" |}
  end.

(** The lot of row [i] as the item form serializes it. *)
Definition lote_de (s : EntregaArticulos.state) (i : Z) : value :=
  match getElementById (EntregaArticulos.doc s) (EntregaArticulos.idn "lote_" i) with
  | Some l => EntregaArticulos.text_or_null (value_of l)
  | None => VNull
  end.

(** The events of a session of the goods form. *)
Inductive operacion_bienes :=
| AgregarBien                               (* the add button: [agregarBien()] *)
| EliminarBien (idFila : Z)                 (* a delete button: [eliminarFila(idFila)] *)
| EditarBien (id : string) (f : element -> element).   (* the user edits a control *)

Definition paso_bienes (op : operacion_bienes) (s : EntregaBienes.state)
  : EntregaBienes.state :=
  match op with
  | AgregarBien => EntregaBienes.agregarBien s
  | EliminarBien idFila => EntregaBienes.eliminarFila idFila s
  | EditarBien id f => EntregaBienes.with_doc (edit id f (EntregaBienes.doc s)) s
  end.

Definition ejecutar_bienes (ops : list operacion_bienes) (s : EntregaBienes.state)
  : EntregaBienes.state :=
  fold_left (fun s op => paso_bienes op s) ops s.

(** The numbers given to [fila.id] in the course of the events, oldest
    first: [agregarBien] gives the counter, when the table body is there. *)
Fixpoint entregados_bienes (ops : list operacion_bienes) (s : EntregaBienes.state)
  : list Z :=
  match ops with
  | [] => []
  | op :: r =>
      (match op, tbody (EntregaBienes.doc s) with
       | AgregarBien, Some _ => [EntregaBienes.contadorFilas s]
       | _, _ => []
       end ++ entregados_bienes r (paso_bienes op s))%list
  end.

(** A row of the goods form passes both checks, or is not there. *)
Definition fila_bien_pasa (s : EntregaBienes.state) (i : Z) : Prop :=
  presente s i = true -> sin_activo s i = false /\ cantidad_invalida s i = false.

(** Responses marked successful: one with an empty list of lines, one
    that lacks the list. *)
Definition respuesta_sin_lineas : EntregaArticulos.respuesta :=
  {| EntregaArticulos.success := VBool true;
     EntregaArticulos.r_solicitud := Some Escenarios.solicitud_script;
     EntregaArticulos.r_articulos := Some [];
     EntregaArticulos.error := VUndefined;
     EntregaArticulos.message := VUndefined |}.

Definition respuesta_sin_lista : EntregaArticulos.respuesta :=
  {| EntregaArticulos.success := VBool true;
     EntregaArticulos.r_solicitud := Some Escenarios.solicitud_script;
     EntregaArticulos.r_articulos := None;
     EntregaArticulos.error := VUndefined;
     EntregaArticulos.message := VUndefined |}.

(** A session in which the response lacks the list of lines, after which
    the user adds a row by hand, chooses article 5 and asks for 3. *)
Definition fila_manual_tras_respuesta_sin_lista : EntregaArticulos.state :=
  EntregaArticulos.ejecutar
    [EntregaArticulos.CambiarSolicitud "4"
       (EntregaArticulos.Resolves respuesta_sin_lista);
     EntregaArticulos.Agregar;
     EntregaArticulos.Elegir 0 1;
     EntregaArticulos.Editar "cantidad_0" (type_into "3")]
    (EntregaArticulos.init Escenarios.catalogo EntregaArticulos.pagina).



(** The row [agregarArticulo] appends when the counter stands at [c], and
    the one [agregarBien] appends. *)
Definition fila_manual (c : Z) (s : EntregaArticulos.state) : row :=
  {| row_id := Some (EntregaArticulos.idn "fila_" c);
     cells :=
       [ {| cell_html := "";
            cell_children := [EntregaArticulos.crearSelectArticulo c s] |};
         {| cell_html := "";
            cell_children :=
              [ {| attrs := [("id", EntregaArticulos.idn "stock_" c);
                             ("class", "text-muted")];
                   content := Markup "-" |} ] |};
         {| cell_html := "";
            cell_children := [EntregaArticulos.crearInputCantidad c None] |};
         {| cell_html := ""; cell_children := [EntregaArticulos.crearInputLote c] |};
         {| cell_html := "";
            cell_children := [EntregaArticulos.crearBotonEliminar c] |} ] |}.

Definition fila_bien (c : Z) (s : EntregaBienes.state) : row :=
  let one e := {| cell_html := ""; cell_children := [e] |} in
  {| row_id := Some (EntregaBienes.idn "fila_" c);
     cells := [one (EntregaBienes.crearSelectActivo c s);
               one (EntregaBienes.crearInputCantidad c);
               one (EntregaBienes.crearInputSerie c);
               one (EntregaBienes.crearSelectEstado c);
               one (EntregaBienes.crearBotonEliminar c)] |}.




End Sesion.

(* ================================================================== *)
(** * Properties *)
(* ================================================================== *)

Import JS DOM Enunciados.

(** ** Escaping *)

Section Escaping.

Lemma occurs_append (c : ascii) (a b : string) :
  occurs c (a ++ b) = occurs c a || occurs c b.
Proof.
  induction a as [|x a IH]; simpl; [reflexivity|].
  rewrite IH. apply orb_assoc.
Qed.

(** Replacing [c] leaves no [c] behind when the replacement has none. *)
Lemma replace_all_removes (c : ascii) (by_ s : string) :
  occurs c by_ = false -> occurs c (replace_all c by_ s) = false.
Proof.
  intros Hby. induction s as [|x s IH]; simpl; [reflexivity|].
  destruct (x =? c)%char eqn:E.
  - rewrite occurs_append, Hby, IH. reflexivity.
  - simpl. rewrite E, IH. reflexivity.
Qed.

(** A character absent from the text and from the replacement stays
    absent. *)
Lemma replace_all_keeps_absent (d c : ascii) (by_ s : string) :
  occurs d by_ = false -> occurs d s = false ->
  occurs d (replace_all c by_ s) = false.
Proof.
  intros Hby. induction s as [|x s IH]; simpl; [reflexivity|].
  intros H. apply orb_false_iff in H as [Hx Hs].
  destruct (x =? c)%char.
  - rewrite occurs_append, Hby, (IH Hs). reflexivity.
  - simpl. rewrite Hx, (IH Hs). reflexivity.
Qed.

(** What [escapeHtml] returns holds none of [<], [>], the double quote
    and the single quote. *)
Lemma escapeHtml_sin_marcado (v : value) (c : ascii) :
  In c ["<"; ">"; dquote; "'"]%char ->
  occurs c (EntregaArticulos.escapeHtml v) = false.
Proof.
  intros Hc. unfold EntregaArticulos.escapeHtml.
  destruct (truthy v); simpl; [|reflexivity].
  set (t := to_string v).
  simpl in Hc.
  destruct Hc as [<-|[<-|[<-|[<-|[]]]]].
  - do 2 (apply replace_all_keeps_absent; [reflexivity|]).
    apply replace_all_keeps_absent; [reflexivity|].
    apply replace_all_removes. reflexivity.
  - do 2 (apply replace_all_keeps_absent; [reflexivity|]).
    apply replace_all_removes. reflexivity.
  - apply replace_all_keeps_absent; [reflexivity|].
    apply replace_all_removes. reflexivity.
  - apply replace_all_removes. reflexivity.
Qed.

Lemma escapeHtml_same (v : value) :
  EntregaBienes.escapeHtml v = EntregaArticulos.escapeHtml v.
Proof. reflexivity. Qed.

(** The five characters and their entities. *)
Lemma escapeHtml_entidades :
  EntregaArticulos.escapeHtml
    (VStr ("&<>" ++ String dquote "'")) = "&amp;&lt;&gt;&quot;&#039;".
Proof. reflexivity. Qed.

(** A catalog entry named [<script>] shows as escaped text in the
    option of either form. *)
Lemma opcion_script_escapada :
  contains "&lt;script&gt;"
    (op_html (EntregaBienes.opcionActivo
                {| EntregaBienes.act_id := VNum (num 1);
                   EntregaBienes.nombre := VStr "<script>";
                   EntregaBienes.codigo := VNull;
                   EntregaBienes.categoria := VNull |})) = true
  /\ contains "&lt;script&gt;"
       (op_html (EntregaArticulos.opcionArticulo
                   {| EntregaArticulos.art_id := VNum (num 1);
                      EntregaArticulos.codigo := VStr "X";
                      EntregaArticulos.nombre := VStr "<script>";
                      EntregaArticulos.stock := VNum (num 1);
                      EntregaArticulos.unidad := VStr "un" |})) = true.
Proof. split; vm_compute; reflexivity. Qed.

End Escaping.

(** C8.  For every falsy input (null, undefined, the empty string, 0,
    false, NaN), [escapeHtml] of either form returns the empty string;
    the number 0 in particular gives the empty text, not the digit 0. *)
Theorem escapeHtml_falsy (v : value) (H : truthy v = false) :
  EntregaArticulos.escapeHtml v = "" /\ EntregaBienes.escapeHtml v = "".
Proof.
  unfold EntregaArticulos.escapeHtml, EntregaBienes.escapeHtml.
  rewrite H. split; reflexivity.
Qed.

Lemma escapeHtml_falsy_witness :
  Forall (fun v => truthy v = false
                   /\ EntregaArticulos.escapeHtml v = ""
                   /\ EntregaBienes.escapeHtml v = "")
         [VNull; VUndefined; VStr ""; VNum (num 0); VBool false; VNum NaN]
  /\ to_string (VNum (num 0)) = "0".
Proof.
  split; [|reflexivity].
  repeat (apply Forall_cons; [split; [reflexivity | apply escapeHtml_falsy; reflexivity]|]).
  apply Forall_nil.
Defined.

(** C2.  The request metadata is written into the page as it came:
    [mostrarInfoSolicitud] does not pass [numero], [solicitante],
    [departamento] and [motivo] through [escapeHtml], so a request whose
    number is the text <script> puts that markup, not its escaped form
    &lt;script&gt;, into [#datosSolicitud]. *)
Theorem mostrarInfoSolicitud_sin_escapar :
  let s := EntregaArticulos.init Escenarios.catalogo EntregaArticulos.pagina in
  let s' := fst (EntregaArticulos.mostrarInfoSolicitud
                   (Some Escenarios.solicitud_script) s) in
  EntregaArticulos.escapeHtml (VStr "<script>") = "&lt;script&gt;"
  /\ datosSolicitud (EntregaArticulos.doc s') =
       Some (EntregaArticulos.datosSolicitudHtml Escenarios.solicitud_script)
  /\ contains "<strong>Número:</strong> <script></p>"
       (EntregaArticulos.datosSolicitudHtml Escenarios.solicitud_script) = true
  /\ contains "&lt;script&gt;"
       (EntregaArticulos.datosSolicitudHtml Escenarios.solicitud_script) = false
  /\ datosSolicitud
       (EntregaArticulos.doc
          (EntregaArticulos.paso
             (EntregaArticulos.CambiarSolicitud
                "4" (EntregaArticulos.Resolves Escenarios.respuesta_ok)) s)) =
       Some (EntregaArticulos.datosSolicitudHtml Escenarios.solicitud_script).
Proof. vm_compute. repeat split; reflexivity. Qed.

(** ** The request-lines fetch *)

(** C4.  When the request-lines fetch rejects, or its response is not
    marked successful, [cargarArticulosSolicitud] shows one message and
    changes nothing else: the document (and with it the table body), the
    row counter and [esSolicitud] are as before. *)
Theorem cargarArticulosSolicitud_fallida
    (solicitudId : string) (o : EntregaArticulos.fetch_outcome)
    (s : EntregaArticulos.state) (H : fallida o) :
  let s' := EntregaArticulos.cargarArticulosSolicitud solicitudId o s in
  (exists msg, EntregaArticulos.alerts s' = (EntregaArticulos.alerts s ++ [msg])%list)
  /\ EntregaArticulos.doc s' = EntregaArticulos.doc s
  /\ EntregaArticulos.contadorFilas s' = EntregaArticulos.contadorFilas s
  /\ EntregaArticulos.esSolicitud s' = EntregaArticulos.esSolicitud s
  /\ EntregaArticulos.articulosDisponibles s' = EntregaArticulos.articulosDisponibles s
  /\ EntregaArticulos.asignados s' = EntregaArticulos.asignados s
  /\ EntregaArticulos.submitted s' = EntregaArticulos.submitted s.
Proof.
  destruct H as [->|[data [-> Hs]]]; cbn.
  - repeat split; eauto.
  - unfold EntregaArticulos.try_catch. rewrite Hs. cbn. repeat split; eauto.
Qed.

Lemma cargarArticulosSolicitud_fallida_witness :
  let o := EntregaArticulos.Resolves Escenarios.respuesta_error in
  let s := Escenarios.dos_filas_manuales in
  let s' := EntregaArticulos.cargarArticulosSolicitud "4" o s in
  fallida o
  /\ EntregaArticulos.alerts s' =
       ["Error al cargar artículos de la solicitud: Solicitud no encontrada"]
  /\ EntregaArticulos.doc s' = EntregaArticulos.doc s
  /\ EntregaArticulos.contadorFilas s' = 2
  /\ EntregaArticulos.esSolicitud s' = false.
Proof.
  cbv zeta.
  assert (Hf : fallida (EntregaArticulos.Resolves Escenarios.respuesta_error))
    by (right; exists Escenarios.respuesta_error; split; reflexivity).
  pose proof (cargarArticulosSolicitud_fallida "4" _
                Escenarios.dos_filas_manuales Hf) as H.
  cbv zeta in H. destruct H as (_ & Hdoc & Hc & Hes & _).
  split; [exact Hf|]. split; [vm_compute; reflexivity|]. split; [exact Hdoc|].
  split; [rewrite Hc|rewrite Hes]; vm_compute; reflexivity.
Defined.

(** ** Quantity bounds in linked mode *)

Lemma gt_Fin (x y : Q) : gt (Fin x) (Fin y) = true <-> (y < x)%Q.
Proof.
  simpl. rewrite negb_true_iff. split.
  - intros H. apply Qnot_le_lt. intros Hle.
    apply Qle_bool_iff in Hle. congruence.
  - intros H. destruct (Qle_bool x y) eqn:E; [|reflexivity].
    apply Qle_bool_iff in E. exfalso. exact (Qlt_not_le _ _ H E).
Qed.

Lemma gt_Fin_false (x y : Q) : gt (Fin x) (Fin y) = false <-> (x <= y)%Q.
Proof.
  simpl. rewrite negb_false_iff. apply Qle_bool_iff.
Qed.

(** C1.  In linked mode the quantity of a row is compared first with
    the pending quantity and then with the stock, both read from the
    attributes written when the row was populated; the three are
    compared as the Numbers [parseFloat] reads them as, and the messages
    print those Numbers.  With 10 pending and 7 in stock: 8 and 10 are
    rejected for exceeding the stock, 7 is accepted. *)
Theorem validarCantidadSolicitud_limites :
  (forall (e : element) (s : EntregaArticulos.state) (q p st : Q),
      EntregaArticulos.parseFloat_opt (value_of e) = Fin q ->
      EntregaArticulos.parseFloat_opt (getAttribute e "data-pendiente") = Fin p ->
      EntregaArticulos.parseFloat_opt (getAttribute e "data-stock") = Fin st ->
      ((p < q)%Q ->
       EntregaArticulos.validarCantidadSolicitud e s =
         (EntregaArticulos.alert
            ("La cantidad a entregar (" ++ Q_to_string q
             ++ ") excede la cantidad pendiente (" ++ Q_to_string p ++ ").") s,
          Some false))
      /\ ((q <= p)%Q -> (st < q)%Q ->
          EntregaArticulos.validarCantidadSolicitud e s =
            (EntregaArticulos.alert
               ("La cantidad a entregar (" ++ Q_to_string q
                ++ ") excede el stock disponible (" ++ Q_to_string st ++ ").") s,
             Some false))
      /\ ((q <= p)%Q -> (q <= st)%Q ->
          EntregaArticulos.validarCantidadSolicitud e s = (s, Some true)))
  /\ (forall (a : EntregaArticulos.linea) (c : Z) (s : EntregaArticulos.state),
         EntregaArticulos.cantidad_pendiente a = VNum (num 10) ->
         EntregaArticulos.stock_actual a = VNum (num 7) ->
         let e v := type_into v (EntregaArticulos.crearInputCantidad c (Some a)) in
         EntregaArticulos.validarCantidadSolicitud (e "8") s =
           (EntregaArticulos.alert
              "La cantidad a entregar (8) excede el stock disponible (7)." s,
            Some false)
         /\ EntregaArticulos.validarCantidadSolicitud (e "10") s =
              (EntregaArticulos.alert
                 "La cantidad a entregar (10) excede el stock disponible (7)." s,
               Some false)
         /\ EntregaArticulos.validarCantidadSolicitud (e "7") s = (s, Some true))
  /\ (forall (s s1 : EntregaArticulos.state) (i : Z) (detalles : list object)
             (e art det : element),
         EntregaArticulos.esSolicitud s = true ->
         existe (EntregaArticulos.doc s) (EntregaArticulos.idn "fila_" i) = true ->
         getElementById (EntregaArticulos.doc s) (EntregaArticulos.idn "cantidad_" i)
         = Some e ->
         getElementById (EntregaArticulos.doc s) (EntregaArticulos.idn "articulo_" i)
         = Some art ->
         getElementById (EntregaArticulos.doc s)
                        (EntregaArticulos.idn "detalle_solicitud_" i) = Some det ->
         EntregaArticulos.validarCantidadSolicitud e s = (s1, Some false) ->
         EntregaArticulos.fila i detalles s = (s1, Some EntregaArticulos.ReturnFalse))
  /\ (let submit_with v :=
        EntregaArticulos.validarYEnviarFormulario (Escenarios.fila_vinculada v) in
      (snd (submit_with "8") = Some false
       /\ EntregaArticulos.alerts (fst (submit_with "8")) =
            ["La cantidad a entregar (8) excede el stock disponible (7)."])
      /\ (snd (submit_with "10") = Some false
          /\ EntregaArticulos.alerts (fst (submit_with "10")) =
               ["La cantidad a entregar (10) excede el stock disponible (7)."])
      /\ (snd (submit_with "7") = Some true
          /\ EntregaArticulos.alerts (fst (submit_with "7")) = []
          /\ EntregaArticulos.submitted (fst (submit_with "7")) = 1%nat)).
Proof.
  split; [|split; [|split]].
  - intros e s q p st Hq Hp Hst.
    unfold EntregaArticulos.validarCantidadSolicitud.
    rewrite Hq, Hp, Hst.
    split; [|split].
    + intros Hlt. apply gt_Fin in Hlt. rewrite Hlt. reflexivity.
    + intros Hle Hlt. apply gt_Fin_false in Hle. apply gt_Fin in Hlt.
      rewrite Hle, Hlt. reflexivity.
    + intros Hle1 Hle2. apply gt_Fin_false in Hle1, Hle2.
      rewrite Hle1, Hle2. reflexivity.
  - intros a c s Hp Hst e.
    unfold e, EntregaArticulos.validarCantidadSolicitud,
      EntregaArticulos.crearInputCantidad, type_into, getAttribute, value_of.
    cbn [attrs content lookup app String.eqb Ascii.eqb Bool.eqb].
    rewrite Hp, Hst.
    repeat split; vm_compute; reflexivity.
  - intros s s1 i detalles e art det Hes Hf He Hart Hdet Hv.
    unfold existe in Hf.
    unfold EntregaArticulos.fila, EntregaArticulos.bind, EntregaArticulos.get.
    cbv beta iota.
    destruct (getElementById (EntregaArticulos.doc s) (EntregaArticulos.idn "fila_" i));
      [|discriminate].
    rewrite He, Hes, Hart, Hdet, Hv. reflexivity.
  - vm_compute. repeat split; reflexivity.
Qed.

Lemma validarCantidadSolicitud_limites_witness :
  let e := type_into "11"
             (EntregaArticulos.crearInputCantidad 0 (Some Escenarios.linea_10_7)) in
  let s := Escenarios.fila_vinculada "11" in
  (EntregaArticulos.parseFloat_opt (value_of e) = Fin (inject_Z 11)
   /\ EntregaArticulos.parseFloat_opt (getAttribute e "data-pendiente")
      = Fin (inject_Z 10)
   /\ EntregaArticulos.parseFloat_opt (getAttribute e "data-stock") = Fin (inject_Z 7)
   /\ (inject_Z 10 < inject_Z 11)%Q)
  /\ EntregaArticulos.validarCantidadSolicitud e s =
       (EntregaArticulos.alert
          "La cantidad a entregar (11) excede la cantidad pendiente (10)." s,
        Some false)
  /\ EntregaArticulos.fila 0 [] s =
       (EntregaArticulos.alert
          "La cantidad a entregar (11) excede la cantidad pendiente (10)." s,
        Some EntregaArticulos.ReturnFalse).
Proof.
  cbv zeta.
  destruct validarCantidadSolicitud_limites as (Hord & _ & Hfila & _).
  assert (Hv : EntregaArticulos.validarCantidadSolicitud
                 (type_into "11"
                    (EntregaArticulos.crearInputCantidad 0
                       (Some Escenarios.linea_10_7)))
                 (Escenarios.fila_vinculada "11")
               = (EntregaArticulos.alert
                    "La cantidad a entregar (11) excede la cantidad pendiente (10)."
                    (Escenarios.fila_vinculada "11"), Some false)).
  { exact (proj1 (Hord (type_into "11"
                          (EntregaArticulos.crearInputCantidad 0
                             (Some Escenarios.linea_10_7)))
                       (Escenarios.fila_vinculada "11")
                       (inject_Z 11) (inject_Z 10) (inject_Z 7)
                       eq_refl eq_refl eq_refl) eq_refl). }
  split; [repeat split; reflexivity|].
  split; [exact Hv|].
  apply (Hfila _ _ 0 []
           (type_into "11"
              (EntregaArticulos.crearInputCantidad 0 (Some Escenarios.linea_10_7)))
           (EntregaArticulos.hidden "articulo_0" "5")
           (EntregaArticulos.hidden "detalle_solicitud_0" "77"));
    try exact Hv; vm_compute; reflexivity.
Defined.

(** ** Serialization *)

(** C5.  Two manual rows, article 5 with quantity 3 and lot L1 and
    article 9 with quantity 1 and no lot, are accepted; the payload
    written to [#detallesJson] decodes to exactly two records in that
    order, with the quantities as the numbers 3 and 1 and the lot as the
    text L1 in the first and null in the second. *)
Theorem payload_dos_filas_manuales :
  let r := EntregaArticulos.validarYEnviarFormulario Escenarios.dos_filas_manuales in
  snd r = Some true
  /\ EntregaArticulos.submitted (fst r) = 1%nat
  /\ exists payload,
       detallesJson (EntregaArticulos.doc (fst r)) = Some payload
       /\ payload =
            print_json
              (JArr [JObj [("articulo_id", JNum (inject_Z 5));
                           ("cantidad", JNum (inject_Z 3));
                           ("lote", JStr "L1")];
                     JObj [("articulo_id", JNum (inject_Z 9));
                           ("cantidad", JNum (inject_Z 1));
                           ("lote", JNull)]])
       /\ JSON_parse payload =
            Some (JArr [JObj [("articulo_id", JNum (inject_Z 5));
                              ("cantidad", JNum (inject_Z 3));
                              ("lote", JStr "L1")];
                        JObj [("articulo_id", JNum (inject_Z 9));
                              ("cantidad", JNum (inject_Z 1));
                              ("lote", JNull)]]).
Proof.
  cbv zeta. split; [vm_compute; reflexivity|].
  split; [vm_compute; reflexivity|].
  eexists. split; [vm_compute; reflexivity|].
  split; vm_compute; reflexivity.
Qed.

(** ** Row ids *)

Section RowIds.
Import EntregaArticulos.

Lemma string_of_Z_inj (a b : Z) : string_of_Z a = string_of_Z b -> a = b.
Proof.
  unfold string_of_Z. intros H.
  apply DecimalZ.to_int_inj.
  pose proof (NilEmpty.isi (Z.to_int a)) as Ha.
  pose proof (NilEmpty.isi (Z.to_int b)) as Hb.
  rewrite H in Ha. congruence.
Qed.

Lemma append_inj_r (p a b : string) : (p ++ a = p ++ b)%string -> a = b.
Proof.
  induction p as [|c p IH]; simpl; intros H; [exact H|].
  injection H as H. exact (IH H).
Qed.

Lemma idn_inj (name : string) (a b : Z) : idn name a = idn name b -> a = b.
Proof.
  unfold idn. intros H. apply string_of_Z_inj. exact (append_inj_r _ _ _ H).
Qed.

Lemma StronglySorted_remove (l1 l2 : list Z) (x : Z) :
  StronglySorted Z.lt (l1 ++ x :: l2) -> StronglySorted Z.lt (l1 ++ l2).
Proof.
  induction l1 as [|a l1 IH]; simpl; intros H.
  - apply StronglySorted_inv in H. tauto.
  - apply StronglySorted_inv in H as [Hs Hf].
    constructor; [exact (IH Hs)|].
    apply Forall_app in Hf as [H1 H2].
    apply Forall_app. split; [exact H1|].
    inversion H2; assumption.
Qed.

Lemma StronglySorted_snoc (l : list Z) (c : Z) :
  StronglySorted Z.lt l -> Forall (fun n => n < c) l ->
  StronglySorted Z.lt (l ++ [c]).
Proof.
  induction 1 as [|a l Hs IH Ha]; simpl; intros Hc.
  - repeat constructor.
  - inversion Hc as [|? ? Hac Hlc]; subst.
    constructor; [exact (IH Hlc)|].
    apply Forall_app. split; [exact Ha|]. repeat constructor. exact Hac.
Qed.

Lemma StronglySorted_NoDup (l : list Z) : StronglySorted Z.lt l -> NoDup l.
Proof.
  induction 1 as [|a l Hs IH Ha]; constructor; [|exact IH].
  intros Hin. rewrite Forall_forall in Ha. specialize (Ha _ Hin). lia.
Qed.

Lemma NoDup_map_idn (ns : list Z) : NoDup ns -> NoDup (map (idn "fila_") ns).
Proof.
  induction 1 as [|a l Hin Hnd IH]; simpl; constructor; [|exact IH].
  intros H. apply in_map_iff in H as [b [Hb Hbl]].
  apply idn_inj in Hb. subst. contradiction.
Qed.

Lemma ids_de_filas_app (a b : list row) :
  ids_de_filas (a ++ b) = (ids_de_filas a ++ ids_de_filas b)%list.
Proof. apply flat_map_app. Qed.

Lemma ids_de_filas_cons (r : row) (rows : list row) :
  ids_de_filas (r :: rows)
  = (match row_id r with Some i => [i] | None => [] end ++ ids_de_filas rows)%list.
Proof. reflexivity. Qed.

(** Removing a node takes at most one id away. *)
Lemma remove_node_ids (id : string) (rows rows' : list row) :
  remove_node id rows = Some rows' ->
  ids_de_filas rows' = ids_de_filas rows
  \/ exists l1 x l2, ids_de_filas rows = (l1 ++ x :: l2)%list
                     /\ ids_de_filas rows' = (l1 ++ l2)%list.
Proof.
  revert rows'. induction rows as [|r rest IH]; intros rows' H;
    cbn [remove_node] in H; [discriminate|].
  rewrite ids_de_filas_cons.
  destruct (row_has_id id r) eqn:E.
  - injection H as <-. right.
    unfold row_has_id in E. destruct (row_id r) as [x|]; [|discriminate].
    exists [], x, (ids_de_filas rest). split; reflexivity.
  - destruct (remove_in_cells id (cells r)) as [cs|].
    + injection H as <-. left. reflexivity.
    + destruct (remove_node id rest) as [rest'|]; [|discriminate].
      injection H as <-. rewrite ids_de_filas_cons.
      destruct (IH _ eq_refl) as [Heq|(l1 & x & l2 & H1 & H2)].
      * left. rewrite Heq. reflexivity.
      * right. rewrite H1, H2.
        exists ((match row_id r with Some i => [i] | None => [] end) ++ l1)%list, x, l2.
        rewrite <- !app_assoc. split; reflexivity.
Qed.

Lemma ids_de_filas_edit (id : string) (f : element -> element) (rows : list row) :
  ids_de_filas (map (update_in_row id f) rows) = ids_de_filas rows.
Proof.
  induction rows as [|r rows IH]; [reflexivity|].
  unfold ids_de_filas in *. simpl. rewrite IH. reflexivity.
Qed.

(** A state that agrees with another on the table body, the counter
    and the history inherits the invariant. *)
Lemma invariante_ids_ext (s s' : state) :
  tbody (doc s') = tbody (doc s) ->
  contadorFilas s' = contadorFilas s ->
  asignados s' = asignados s ->
  invariante_ids s -> invariante_ids s'.
Proof.
  unfold invariante_ids, filas. intros -> -> ->. exact (fun H => H).
Qed.

(** Appending the row [fila_c], [c] being the counter, and counting on. *)
Lemma indices_desde_S (i : Z) (n : nat) :
  indices_desde i (S n) = (indices_desde i n ++ [i + Z.of_nat n])%list.
Proof.
  revert i. induction n as [|n IH]; intros i.
  - cbn. rewrite Z.add_0_r. reflexivity.
  - cbn [indices_desde app] in *. rewrite IH.
    replace (i + 1 + Z.of_nat n) with (i + Z.of_nat (S n)) by lia. reflexivity.
Qed.

Lemma indices_succ (c : Z) : 0 <= c -> indices (c + 1) = (indices c ++ [c])%list.
Proof.
  intros Hc. unfold indices.
  replace (Z.to_nat (c + 1)) with (S (Z.to_nat c)) by lia.
  rewrite indices_desde_S. repeat f_equal. lia.
Qed.

(** The counter given out, and the counter counting on. *)
Lemma historia_siguiente (c : Z) (l : list Z) :
  0 <= c -> historia c l -> historia (c + 1) (l ++ [c]).
Proof.
  intros Hc [Hl [pre ->]]. split.
  - apply Forall_app. split; [exact Hl|]. repeat constructor. exact Hc.
  - exists pre. rewrite indices_succ by exact Hc. rewrite app_assoc. reflexivity.
Qed.

(** The counter back at 0. *)
Lemma historia_reinicio (c : Z) (l : list Z) : historia c l -> historia 0 l.
Proof.
  intros [Hl _]. split; [exact Hl|]. exists l. rewrite app_nil_r. reflexivity.
Qed.

(** The step that recurs below: the new state differs from one that
    satisfies the invariant in neither table body, counter nor history. *)
Ltac sin_cambio H := eapply invariante_ids_ext; [| | |exact H]; reflexivity.

(** Appending the row [fila_c], [c] being the counter, and counting on. *)
Lemma invariante_ids_nueva (s s' : state) (ns : list Z) (rows' : list row) :
  0 <= contadorFilas s ->
  historia (contadorFilas s) (asignados s) ->
  StronglySorted Z.lt ns ->
  Forall (fun n => 0 <= n < contadorFilas s) ns ->
  tbody (doc s') = Some rows' ->
  ids_de_filas rows' = (map (idn "fila_") ns ++ [idn "fila_" (contadorFilas s)])%list ->
  contadorFilas s' = contadorFilas s + 1 ->
  asignados s' = (asignados s ++ [contadorFilas s])%list ->
  invariante_ids s'.
Proof.
  intros Hc Ha Hs Hb Ht Hi Hc' Ha'.
  unfold invariante_ids, filas. rewrite Ht, Hc', Ha'.
  split; [lia|]. split.
  - apply historia_siguiente; assumption.
  - exists (ns ++ [contadorFilas s])%list. split; [|split].
    + rewrite Hi, map_app. reflexivity.
    + apply StronglySorted_snoc; [exact Hs|].
      eapply Forall_impl; [|exact Hb]. simpl. intros; lia.
    + apply Forall_app. split.
      * eapply Forall_impl; [|exact Hb]. simpl. intros; lia.
      * repeat constructor; lia.
Qed.

Lemma agregarFilaSolicitud_invariante (a : linea) (s : state) :
  invariante_ids s -> invariante_ids (agregarFilaSolicitud a s).
Proof.
  intros (Hc & Ha & ns & Hi & Hs & Hb).
  unfold agregarFilaSolicitud, insertRow.
  destruct (tbody (doc s)) as [rows|] eqn:Et;
    [|unfold invariante_ids; eauto 10].
  eapply (invariante_ids_nueva s); eauto; try reflexivity.
  cbn. rewrite ids_de_filas_app. unfold filas in Hi. rewrite Et in Hi.
  rewrite Hi. reflexivity.
Qed.

Lemma agregarArticulo_invariante (s : state) :
  invariante_ids s -> invariante_ids (agregarArticulo s).
Proof.
  intros (Hc & Ha & ns & Hi & Hs & Hb).
  unfold agregarArticulo.
  destruct (tbody (doc s)) as [rows|] eqn:Et;
    [|unfold invariante_ids; eauto 10].
  unfold filas in Hi. rewrite Et in Hi.
  destruct (is_placeholder rows).
  - eapply (invariante_ids_nueva s _ []); eauto; try reflexivity; constructor.
  - unfold insertRow. rewrite Et.
    eapply (invariante_ids_nueva s); eauto; try reflexivity.
    cbn. rewrite ids_de_filas_app, Hi. reflexivity.
Qed.

Lemma limpiarTabla_invariante (s : state) :
  historia (contadorFilas s) (asignados s) ->
  (tbody (doc s) = None -> invariante_ids s) ->
  invariante_ids (limpiarTabla s).
Proof.
  intros Ha Hn. unfold limpiarTabla.
  destruct (tbody (doc s)) eqn:Et; [|exact (Hn eq_refl)].
  unfold invariante_ids. cbn. split; [lia|].
  split; [exact (historia_reinicio _ _ Ha)|].
  exists []. repeat split; constructor.
Qed.

Lemma eliminarFila_invariante (idFila : Z) (s : state) :
  invariante_ids s -> invariante_ids (eliminarFila idFila s).
Proof.
  intros Hinv. pose proof Hinv as (Hc & Ha & ns & Hi & Hs & Hb).
  unfold eliminarFila.
  destruct (tbody (doc s)) as [rows|] eqn:Et; [|exact Hinv].
  unfold filas in Hi. rewrite Et in Hi.
  set (rows' := match remove_node (idn "fila_" idFila) rows with
                | Some l => l
                | None => rows
                end).
  assert (Hrows' : exists ns', ids_de_filas rows' = map (idn "fila_") ns'
                               /\ StronglySorted Z.lt ns'
                               /\ Forall (fun n => 0 <= n < contadorFilas s) ns').
  { unfold rows'. destruct (remove_node (idn "fila_" idFila) rows) as [l|] eqn:Er;
      [|exists ns; auto].
    apply remove_node_ids in Er as [Heq|(l1 & x & l2 & H1 & H2)].
    - exists ns. rewrite Heq. auto.
    - rewrite Hi in H1.
      apply map_eq_app in H1 as (n1 & n2' & -> & Hn1 & Hn2).
      apply map_eq_cons in Hn2 as (n & n2 & -> & _ & Hn2).
      exists (n1 ++ n2)%list. split; [|split].
      + rewrite H2, map_app, Hn1, Hn2. reflexivity.
      + exact (StronglySorted_remove _ _ _ Hs).
      + apply Forall_app in Hb as [Hb1 Hb2].
        apply Forall_app. split; [exact Hb1|]. inversion Hb2; assumption. }
  destruct (Nat.eqb (List.length rows') 0).
  - apply limpiarTabla_invariante; [exact Ha|]. cbn. discriminate.
  - destruct Hrows' as (ns' & H1 & H2 & H3).
    unfold invariante_ids, filas. cbn. eauto 10.
Qed.

Lemma preserva_ret {A : Type} (a : A) : preserva (ret a).
Proof. intros s H. exact H. Qed.

Lemma preserva_throw {A : Type} : preserva (@throw A).
Proof. intros s H. exact H. Qed.

Lemma preserva_get {A : Type} (f : state -> A) : preserva (get f).
Proof. intros s H. exact H. Qed.

Lemma preserva_effect (f : state -> state) :
  (forall s, invariante_ids s -> invariante_ids (f s)) -> preserva (effect f).
Proof. intros Hf s H. exact (Hf s H). Qed.

Lemma preserva_bind {A B : Type} (m : M A) (k : A -> M B) :
  preserva m -> (forall a, preserva (k a)) -> preserva (bind m k).
Proof.
  intros Hm Hk s H. unfold bind.
  specialize (Hm s H). destruct (m s) as [s1 [a|]]; simpl in *.
  - exact (Hk a s1 Hm).
  - exact Hm.
Qed.

Lemma fold_agregarFilaSolicitud_invariante (l : list linea) (s : state) :
  invariante_ids s ->
  invariante_ids (fold_left (fun s a => agregarFilaSolicitud a s) l s).
Proof.
  revert s. induction l as [|a l IH]; simpl; intros s H; [exact H|].
  apply IH, agregarFilaSolicitud_invariante, H.
Qed.

(** A table body without rows goes with any counter. *)
Lemma invariante_ids_sin_filas (d : document) (s : state) :
  ids_de_filas (filas d) = [] ->
  invariante_ids s -> invariante_ids (with_doc d s).
Proof.
  intros Hd (Hc & Ha & _). unfold invariante_ids. cbn [with_doc doc contadorFilas asignados].
  split; [exact Hc|]. split; [exact Ha|].
  exists []. rewrite Hd. repeat split; constructor.
Qed.

Lemma mostrarInfoSolicitud_preserva (sol : option solicitud) :
  preserva (mostrarInfoSolicitud sol).
Proof.
  intros s H. unfold mostrarInfoSolicitud, bind, get.
  destruct (infoSolicitud (doc s)), (datosSolicitud (doc s)); try exact H.
  destruct sol; [|exact H].
  sin_cambio H.
Qed.

Lemma cargarArticulosEnTabla_preserva (articulos : option (list linea)) :
  preserva (cargarArticulosEnTabla articulos).
Proof.
  unfold cargarArticulosEnTabla.
  apply preserva_bind; [apply preserva_get|intros d].
  destruct (tbody d) as [rows|]; [|apply preserva_ret].
  apply preserva_bind.
  - apply preserva_effect. intros s H.
    apply invariante_ids_sin_filas; [reflexivity|exact H].
  - intros _. destruct articulos as [[|a l]|].
    + apply preserva_effect. intros s H.
      apply invariante_ids_sin_filas; [reflexivity|exact H].
    + apply preserva_effect. intros s H.
      apply fold_agregarFilaSolicitud_invariante, H.
    + apply preserva_throw.
Qed.

Lemma set_btnAgregar_invariante (b : bool) (s : state) :
  invariante_ids s -> invariante_ids (set_btnAgregar b s).
Proof.
  intros H. unfold set_btnAgregar. destruct (btnAgregar (doc s)); [|exact H].
  sin_cambio H.
Qed.

Lemma cargarArticulosSolicitud_invariante
    (solicitudId : string) (o : fetch_outcome) (s : state) :
  invariante_ids s -> invariante_ids (cargarArticulosSolicitud solicitudId o s).
Proof.
  intros H.
  assert (Hcatch : forall s1, invariante_ids s1 ->
            invariante_ids
              (alert "Error al cargar artículos de la solicitud." (console_error s1))).
  { intros s1 H1. sin_cambio H1. }
  unfold cargarArticulosSolicitud. destruct o as [|data]; [exact (Hcatch s H)|].
  unfold try_catch.
  match goal with |- context [?m s] => assert (Hm : preserva m) end.
  { destruct (truthy (success data)).
    - apply preserva_bind; [apply preserva_effect; intros s1 H1;
        sin_cambio H1|intros _].
      apply preserva_bind; [apply mostrarInfoSolicitud_preserva|intros _].
      apply preserva_bind; [apply cargarArticulosEnTabla_preserva|intros _].
      apply preserva_bind; [apply preserva_effect, set_btnAgregar_invariante|intros _].
      destruct (r_solicitud data) as [sol|]; [|apply preserva_throw].
      destruct (truthy (bodega_origen_id sol)); [|apply preserva_ret].
      apply preserva_effect. intros s1 H1. unfold set_bodega_origen.
      destruct (id_bodega_origen (doc s1)); [|exact H1].
      sin_cambio H1.
    - apply preserva_effect. intros s1 H1.
      sin_cambio H1. }
  specialize (Hm s H).
  match goal with |- context [match ?x with _ => _ end] => destruct x as [s1 [u|]] end;
    simpl in Hm; [exact Hm|exact (Hcatch s1 Hm)].
Qed.

Lemma limpiarArticulosSolicitud_invariante (s : state) :
  invariante_ids s -> invariante_ids (limpiarArticulosSolicitud s).
Proof.
  intros H. unfold limpiarArticulosSolicitud.
  apply set_btnAgregar_invariante.
  set (s2 := match infoSolicitud (doc (with_esSolicitud false s)) with
             | Some _ => _
             | None => _
             end).
  assert (H2 : invariante_ids s2).
  { unfold s2. destruct (infoSolicitud (doc (with_esSolicitud false s)));
      sin_cambio H. }
  apply limpiarTabla_invariante; [apply H2|intros _; exact H2].
Qed.

Lemma edit_invariante (id : string) (f : element -> element) (s : state) :
  invariante_ids s -> invariante_ids (with_doc (edit id f (doc s)) s).
Proof.
  intros (Hc & Ha & ns & Hi & Hs & Hb).
  unfold invariante_ids, filas, edit in *. cbn.
  split; [exact Hc|]. split; [exact Ha|]. exists ns.
  destruct (tbody (doc s)); cbn; [rewrite ids_de_filas_edit|]; auto.
Qed.

Lemma actualizarStock_invariante (idFila : Z) (s : state) :
  invariante_ids s -> invariante_ids (actualizarStock idFila s).
Proof.
  intros H. unfold actualizarStock.
  destruct (getElementById (doc s) (idn "articulo_" idFila)) as [select|]; [|exact H].
  destruct (getElementById (doc s) (idn "stock_" idFila)); [|exact H].
  destruct (value_of select) as [[|c r]|]; try (apply edit_invariante, H).
  destruct (content select) as [v|opts i|h]; try exact H.
  destruct (nth_Z opts i); [apply edit_invariante, H|exact H].
Qed.

Lemma paso_invariante (op : operacion) (s : state) :
  invariante_ids s -> invariante_ids (paso op s).
Proof.
  intros H. destruct op as [|idFila|solicitudId o|idFila indice|id f]; simpl.
  - apply agregarArticulo_invariante, H.
  - apply eliminarFila_invariante, H.
  - destruct solicitudId.
    + apply limpiarArticulosSolicitud_invariante, H.
    + apply cargarArticulosSolicitud_invariante, H.
  - apply actualizarStock_invariante, edit_invariante, H.
  - apply edit_invariante, H.
Qed.

Lemma agregarArticulo_asigna (s : state) (rows : list row) :
  tbody (doc s) = Some rows ->
  asignados (agregarArticulo s) = (asignados s ++ [contadorFilas s])%list
  /\ contadorFilas (agregarArticulo s) = contadorFilas s + 1.
Proof.
  intros Et. unfold agregarArticulo. rewrite Et.
  destruct (is_placeholder rows); cbn; unfold insertRow; cbn; try rewrite Et;
    split; reflexivity.
Qed.

End RowIds.

(** C3, as stated, fails: removing the only row resets the counter, and
    the next row gets the id 0 again. *)
Lemma ids_reutilizados :
  let s := EntregaArticulos.ejecutar
             [EntregaArticulos.Agregar; EntregaArticulos.Eliminar 0;
              EntregaArticulos.Agregar]
             (EntregaArticulos.init Escenarios.catalogo EntregaArticulos.pagina) in
  EntregaArticulos.asignados s = [0; 0]
  /\ ~ StronglySorted Z.lt (EntregaArticulos.asignados s).
Proof.
  cbv zeta. split; [vm_compute; reflexivity|].
  replace (EntregaArticulos.asignados _) with [0; 0] by (vm_compute; reflexivity).
  intros H. apply StronglySorted_inv in H as [_ H].
  inversion H; lia.
Qed.

(** C3, amended.  Throughout a session of the item form (rows added and
    removed, a request selected or cleared, controls edited), every id
    given out is a non-negative integer; the ids given out since the
    counter last stood at 0 are 0, 1, 2, ... in that order, so each is
    above those before it; the rows in the table carry pairwise distinct
    ids [fila_n] with [n] below the counter; and the next row, manual or
    from a request, gets the counter as its id, above the id of every
    row in the table. *)
Theorem ids_de_filas_invariante
    (ops : list EntregaArticulos.operacion) (s0 : EntregaArticulos.state)
    (H : invariante_ids s0) :
  let s := EntregaArticulos.ejecutar ops s0 in
  invariante_ids s
  /\ NoDup (ids_de_filas (filas (EntregaArticulos.doc s)))
  /\ (forall rows, tbody (EntregaArticulos.doc s) = Some rows ->
        EntregaArticulos.asignados (EntregaArticulos.agregarArticulo s)
        = (EntregaArticulos.asignados s ++ [EntregaArticulos.contadorFilas s])%list
        /\ forall a,
             EntregaArticulos.asignados (EntregaArticulos.agregarFilaSolicitud a s)
             = (EntregaArticulos.asignados s
                ++ [EntregaArticulos.contadorFilas s])%list).
Proof.
  cbv zeta.
  assert (Hinv : invariante_ids (EntregaArticulos.ejecutar ops s0)).
  { revert s0 H. unfold EntregaArticulos.ejecutar.
    induction ops as [|op ops IH]; simpl; intros s0 H; [exact H|].
    apply IH, paso_invariante, H. }
  split; [exact Hinv|]. split.
  - destruct Hinv as (_ & _ & ns & -> & Hs & _).
    apply NoDup_map_idn, StronglySorted_NoDup, Hs.
  - intros rows Hrows. split; [apply (agregarArticulo_asigna _ rows Hrows)|].
    intros a. unfold EntregaArticulos.agregarFilaSolicitud, EntregaArticulos.insertRow.
    rewrite Hrows. reflexivity.
Qed.

Lemma ids_de_filas_invariante_witness :
  let s0 := EntregaArticulos.init Escenarios.catalogo EntregaArticulos.pagina in
  let s := EntregaArticulos.ejecutar
             [EntregaArticulos.Agregar; EntregaArticulos.Agregar;
              EntregaArticulos.Eliminar 0; EntregaArticulos.Agregar] s0 in
  invariante_ids s0
  /\ invariante_ids s
  /\ ids_de_filas (filas (EntregaArticulos.doc s)) = ["fila_1"; "fila_2"]
  /\ EntregaArticulos.asignados s = [0; 1; 2].
Proof.
  cbv zeta.
  assert (H0 : invariante_ids
                 (EntregaArticulos.init Escenarios.catalogo EntregaArticulos.pagina)).
  { split; [apply Z.le_refl|].
    split; [split; [apply Forall_nil|exists []; reflexivity]|].
    exists []. split; [reflexivity|]. split; constructor. }
  split; [exact H0|]. split.
  - exact (proj1 (ids_de_filas_invariante
                    [EntregaArticulos.Agregar; EntregaArticulos.Agregar;
                     EntregaArticulos.Eliminar 0; EntregaArticulos.Agregar] _ H0)).
  - split; vm_compute; reflexivity.
Defined.

(** ** The loop of the item form *)

Section ItemLoop.
Import EntregaArticulos.

Lemma validarCantidadSolicitud_casos (e : element) (s : state) :
  validarCantidadSolicitud e s = (s, Some true)
  \/ exists msg, validarCantidadSolicitud e s = (alert msg s, Some false).
Proof.
  unfold validarCantidadSolicitud.
  destruct (gt _ _); [right; eexists; reflexivity|].
  destruct (gt _ _); [right; eexists; reflexivity|left; reflexivity].
Qed.

Lemma validarStockDisponible_casos (sel e : element) (s : state) :
  validarStockDisponible sel e s = (s, Some true)
  \/ (exists msg, validarStockDisponible sel e s = (alert msg s, Some false))
  \/ validarStockDisponible sel e s = (s, None).
Proof.
  unfold validarStockDisponible.
  destruct (content sel) as [v|opts i|h]; try (right; right; reflexivity).
  destruct (nth_Z opts i); [|right; right; reflexivity].
  destruct (gt _ _); [right; left; eexists; reflexivity|left; reflexivity].
Qed.

Lemma cantidadYDetalle_casos
    (e : element) (l : option element) (a : number) (ds : value)
    (detalles : list object) (s : state) :
  cantidadYDetalle e l a ds detalles s
  = (s, Some (Next (detalles ++ [construirDetalle e l a ds])%list))
  \/ exists msg, cantidadYDetalle e l a ds detalles s = (alert msg s, Some ReturnFalse).
Proof.
  unfold cantidadYDetalle.
  destruct (_ || _); [right; eexists; reflexivity|left; reflexivity].
Qed.

(** One turn of the loop: the row is skipped or its record is pushed,
    the state staying as it is; or a message is shown and the handler
    returns false; or a TypeError leaves the handler. *)
Lemma fila_casos (i : Z) (detalles : list object) (s : state) :
  termina s s
    (Next (if bien_formada s i
           then (detalles ++ [registro s i])%list else detalles))
    ReturnFalse
    (fila i detalles s).
Proof.
  unfold fila, bien_formada, registro, existe, valor, bind at 1, get at 1.
  cbv beta iota.
  destruct (getElementById (doc s) (idn "fila_" i)) as [f|]; [|left; reflexivity].
  destruct (getElementById (doc s) (idn "cantidad_" i)) as [inp|];
    [|left; reflexivity].
  unfold bind at 1, get at 1. cbv beta iota.
  destruct (esSolicitud s).
  - destruct (getElementById (doc s) (idn "articulo_" i)) as [art|];
      [|left; reflexivity].
    destruct (getElementById (doc s) (idn "detalle_solicitud_" i)) as [det|];
      [|left; reflexivity].
    unfold bind at 1.
    destruct (validarCantidadSolicitud_casos inp s) as [->|[msg ->]].
    + destruct (cantidadYDetalle_casos inp (getElementById (doc s) (idn "lote_" i))
                  (parseInt_opt (value_of art))
                  (VNum (parseInt_opt (value_of det))) detalles s)
        as [->|[msg ->]]; [left; reflexivity|right; left; eexists; reflexivity].
    + right; left; eexists; reflexivity.
  - destruct (getElementById (doc s) (idn "articulo_" i)) as [sel|];
      [|right; left; eexists; reflexivity].
    destruct (no_value (value_of sel)); [right; left; eexists; reflexivity|].
    unfold bind at 1.
    destruct (validarStockDisponible_casos sel inp s) as [->|[[msg ->]| ->]].
    + destruct (cantidadYDetalle_casos inp (getElementById (doc s) (idn "lote_" i))
                  (parseInt_opt (value_of sel)) VNull detalles s)
        as [->|[msg ->]]; [left; reflexivity|right; left; eexists; reflexivity].
    + right; left; eexists; reflexivity.
    + right; right; reflexivity.
Qed.

(** The loop as a whole: it ends with the records of the well-formed
    rows it visited, in the order of the indices and with the state as
    it was; or with one more message and [return false]; or with a
    TypeError. *)
Lemma recorrer_casos (n : nat) (i : Z) (detalles : list object) (s : state) :
  termina s s
    (Next (detalles
           ++ map (registro s) (filter (bien_formada s) (indices_desde i n)))%list)
    ReturnFalse
    (recorrer n i detalles s).
Proof.
  revert i detalles. induction n as [|n IH]; intros i detalles.
  - left. simpl. rewrite app_nil_r. reflexivity.
  - cbn [recorrer indices_desde filter]. unfold bind at 1.
    destruct (fila_casos i detalles s) as [->|[[msg ->]| ->]].
    + destruct (bien_formada s i).
      * cbn [map].
        specialize (IH (i + 1) (detalles ++ [registro s i])%list).
        rewrite <- app_assoc in IH. exact IH.
      * apply IH.
    + right; left; eexists; reflexivity.
    + right; right; reflexivity.
Qed.

(** The submit handler, case by case. *)
Lemma validarYEnviarFormulario_casos (s : state) :
  termina (preventDefault s)
    (submit (set_detallesJson
               (JSON_stringify
                  (map (registro s)
                       (filter (bien_formada s) (indices (contadorFilas s)))))
               (preventDefault s)))
    true false
    (validarYEnviarFormulario s).
Proof.
  unfold validarYEnviarFormulario, bind at 1, effect at 1.
  unfold bind at 1, get at 1. cbv beta iota.
  change (doc (preventDefault s)) with (doc s).
  destruct (sin_articulos (doc s)); [right; left; eexists; reflexivity|].
  unfold bind at 1, get at 1. cbv beta iota.
  change (contadorFilas (preventDefault s)) with (contadorFilas s).
  unfold bind at 1.
  destruct (recorrer_casos (Z.to_nat (contadorFilas s)) 0 [] (preventDefault s))
    as [->|[[msg ->]| ->]].
  - left. reflexivity.
  - right; left; eexists; reflexivity.
  - right; right; reflexivity.
Qed.

Lemma forma_construirDetalle
    (e : element) (l : option element) (a : number) (ds : number) (linked : bool) :
  forma linked (construirDetalle e l a (if linked then VNum ds else VNull)).
Proof.
  unfold forma, construirDetalle.
  exists a, (parseFloat_opt (value_of e)),
    (match l with Some x => text_or_null (value_of x) | None => VNull end).
  split.
  - destruct l as [x|]; [|left; reflexivity].
    unfold text_or_null. destruct (value_of x) as [[|c r]|]; eauto.
  - destruct linked; [|left; reflexivity].
    destruct (truthy (VNum ds)); [|left; reflexivity].
    right. split; [reflexivity|]. exists ds. reflexivity.
Qed.

Lemma forma_registro (s : state) (i : Z) :
  bien_formada s i = true -> forma (esSolicitud s) (registro s i).
Proof.
  unfold bien_formada, registro, existe. intros H.
  destruct (getElementById (doc s) (idn "cantidad_" i)) as [inp|].
  - apply forma_construirDetalle.
  - rewrite andb_false_r in H. discriminate.
Qed.

End ItemLoop.

Section ItemSubmit.
Import EntregaArticulos.

Lemma In_indices_desde (i j : Z) (n : nat) :
  In j (indices_desde i n) <-> i <= j < i + Z.of_nat n.
Proof.
  revert i. induction n as [|n IH]; intros i; cbn [indices_desde In].
  - lia.
  - rewrite IH. lia.
Qed.

Lemma indices_desde_crecientes (i : Z) (n : nat) :
  StronglySorted Z.lt (indices_desde i n).
Proof.
  revert i. induction n as [|n IH]; intros i; cbn [indices_desde]; constructor.
  - apply IH.
  - apply Forall_forall. intros j Hj. apply In_indices_desde in Hj. lia.
Qed.

(** A turn does not look at the records pushed so far. *)
Lemma fila_acumula (i : Z) (detalles : list object) (s : state) :
  fila i detalles s
  = match fila i [] s with
    | (s1, Some (Next d)) => (s1, Some (Next (detalles ++ d)%list))
    | r => r
    end.
Proof.
  assert (Hret : (s, Some (Next detalles))
                 = (s, Some (Next (detalles ++ [])%list)))
    by (rewrite app_nil_r; reflexivity).
  assert (Hfin : forall l a ds e s1,
             cantidadYDetalle e l a ds detalles s1
             = match cantidadYDetalle e l a ds [] s1 with
               | (s2, Some (Next d)) => (s2, Some (Next (detalles ++ d)%list))
               | r => r
               end).
  { intros l a ds e s1. unfold cantidadYDetalle.
    destruct (_ || _); reflexivity. }
  unfold fila, bind, get, ret. cbv beta iota.
  destruct (getElementById (doc s) (idn "fila_" i)) as [f|]; [|exact Hret].
  destruct (getElementById (doc s) (idn "cantidad_" i)) as [inp|]; [|exact Hret].
  destruct (esSolicitud s).
  - destruct (getElementById (doc s) (idn "articulo_" i)) as [art|]; [|exact Hret].
    destruct (getElementById (doc s) (idn "detalle_solicitud_" i)) as [det|];
      [|exact Hret].
    destruct (validarCantidadSolicitud inp s) as [s1 [[|]|]]; try reflexivity.
    apply Hfin.
  - destruct (getElementById (doc s) (idn "articulo_" i)) as [sel|];
      [|reflexivity].
    destruct (no_value (value_of sel)); [reflexivity|].
    destruct (validarStockDisponible sel inp s) as [s1 [[|]|]]; try reflexivity.
    apply Hfin.
Qed.

(** When the loop runs to its end, every row it visited passed. *)
Lemma recorrer_pasa (n : nat) (i : Z) (detalles out : list object) (s s' : state) :
  recorrer n i detalles s = (s', Some (Next out)) ->
  Forall (pasa s) (indices_desde i n).
Proof.
  revert i detalles. induction n as [|n IH]; intros i detalles H;
    cbn [indices_desde]; [constructor|].
  cbn [recorrer] in H. unfold bind at 1 in H.
  rewrite fila_acumula in H.
  destruct (fila_casos i [] s) as [E|[[msg E]|E]]; rewrite E in H.
  - constructor; [eexists; exact E|]. exact (IH _ _ H).
  - discriminate.
  - discriminate.
Qed.

Lemma set_detallesJson_spec (v : string) (s : state) :
  detallesJson (doc (set_detallesJson v s))
  = option_map (fun _ => v) (detallesJson (doc s))
  /\ alerts (set_detallesJson v s) = alerts s
  /\ submitted (set_detallesJson v s) = submitted s
  /\ defaultPrevented (set_detallesJson v s) = defaultPrevented s
  /\ tbody (doc (set_detallesJson v s)) = tbody (doc s).
Proof.
  unfold set_detallesJson. destruct (detallesJson (doc s)) eqn:E; cbn;
    rewrite ?E; repeat split; reflexivity.
Qed.

(** A successful submission shows no message and writes the records of
    the well-formed rows, in the order of the indices. *)
Lemma validar_true_payload (s s' : state) :
  validarYEnviarFormulario s = (s', Some true) ->
  alerts s' = alerts s
  /\ detallesJson (doc s')
     = option_map
         (fun _ => JSON_stringify
                     (map (registro s)
                          (filter (bien_formada s) (indices (contadorFilas s)))))
         (detallesJson (doc s)).
Proof.
  intros H.
  destruct (validarYEnviarFormulario_casos s) as [E|[[msg E]|E]];
    rewrite E in H; try discriminate.
  injection H as <-.
  match goal with
  | |- context [set_detallesJson ?v ?t] =>
      destruct (set_detallesJson_spec v t) as (H1 & H2 & _)
  end.
  split.
  - change (alerts (submit ?x)) with (alerts x). rewrite H2. reflexivity.
  - change (doc (submit ?x)) with (doc x). rewrite H1. reflexivity.
Qed.

End ItemSubmit.

(** C9.  In the loop of the item form, a row that exists but lacks its
    quantity input (or, in linked mode, one of its two hidden inputs) is
    passed over: no message, no record.  When the form is submitted, the
    payload holds the records of exactly the other rows, in ascending
    order of their index, and no message was shown. *)
Theorem filas_incompletas_omitidas (s : EntregaArticulos.state) :
  (forall i detalles,
      existe (EntregaArticulos.doc s) (EntregaArticulos.idn "fila_" i) = true ->
      bien_formada s i = false ->
      EntregaArticulos.fila i detalles s = (s, Some (EntregaArticulos.Next detalles)))
  /\ (forall s',
         EntregaArticulos.validarYEnviarFormulario s = (s', Some true) ->
         EntregaArticulos.alerts s' = EntregaArticulos.alerts s
         /\ detallesJson (EntregaArticulos.doc s')
            = option_map
                (fun _ => JSON_stringify
                            (map (registro s)
                                 (filter (bien_formada s)
                                         (indices (EntregaArticulos.contadorFilas s)))))
                (detallesJson (EntregaArticulos.doc s)))
  /\ StronglySorted Z.lt (indices (EntregaArticulos.contadorFilas s))
  /\ (forall i, In i (indices (EntregaArticulos.contadorFilas s))
                <-> 0 <= i < EntregaArticulos.contadorFilas s).
Proof.
  split; [|split; [|split]].
  - intros i detalles Hf Hb.
    unfold bien_formada in Hb. rewrite Hf in Hb. cbn [andb] in Hb.
    unfold existe in Hf, Hb.
    unfold EntregaArticulos.fila, EntregaArticulos.bind at 1, EntregaArticulos.get at 1.
    cbv beta iota.
    destruct (getElementById (EntregaArticulos.doc s) (EntregaArticulos.idn "fila_" i));
      [|discriminate].
    destruct (getElementById (EntregaArticulos.doc s)
                             (EntregaArticulos.idn "cantidad_" i)); [|reflexivity].
    unfold EntregaArticulos.bind at 1, EntregaArticulos.get at 1. cbv beta iota.
    destruct (EntregaArticulos.esSolicitud s); [|discriminate].
    destruct (getElementById (EntregaArticulos.doc s)
                             (EntregaArticulos.idn "articulo_" i)); [|reflexivity].
    destruct (getElementById (EntregaArticulos.doc s)
                             (EntregaArticulos.idn "detalle_solicitud_" i));
      [discriminate|reflexivity].
  - intros s' H. exact (validar_true_payload s s' H).
  - apply indices_desde_crecientes.
  - intros i. unfold indices. rewrite In_indices_desde. lia.
Qed.

Lemma filas_incompletas_omitidas_witness :
  let s := Escenarios.fila_sin_cantidad in
  let r := EntregaArticulos.validarYEnviarFormulario s in
  (existe (EntregaArticulos.doc s) "fila_0" = true /\ bien_formada s 0 = false)
  /\ EntregaArticulos.fila 0 [] s = (s, Some (EntregaArticulos.Next []))
  /\ snd r = Some true
  /\ EntregaArticulos.alerts (fst r) = []
  /\ detallesJson (EntregaArticulos.doc (fst r))
     = Some (JSON_stringify [registro s 1]).
Proof.
  cbv zeta.
  assert (Hf : existe (EntregaArticulos.doc Escenarios.fila_sin_cantidad)
                      (EntregaArticulos.idn "fila_" 0) = true)
    by (vm_compute; reflexivity).
  assert (Hb : bien_formada Escenarios.fila_sin_cantidad 0 = false)
    by (vm_compute; reflexivity).
  assert (Hr : EntregaArticulos.validarYEnviarFormulario Escenarios.fila_sin_cantidad
               = (fst (EntregaArticulos.validarYEnviarFormulario
                         Escenarios.fila_sin_cantidad), Some true))
    by (vm_compute; reflexivity).
  destruct (filas_incompletas_omitidas Escenarios.fila_sin_cantidad)
    as (H1 & H2 & _).
  split; [split; [exact Hf|exact Hb]|].
  split; [exact (H1 0 [] Hf Hb)|].
  split; [rewrite Hr; reflexivity|].
  destruct (H2 _ Hr) as [Ha Hd].
  split; [rewrite Ha; vm_compute; reflexivity|].
  rewrite Hd. vm_compute. reflexivity.
Defined.

Lemma json_of_value_VNum (n : number) : exists j, json_of_value (VNum n) = Some j.
Proof. destruct n; eexists; reflexivity. Qed.

Lemma forma_json_members (linked : bool) (o : object) :
  forma linked o -> forma_json linked (JObj (json_members o)).
Proof.
  intros (a & c & l & Hl & Ho).
  destruct (json_of_value_VNum a) as [ja Ha].
  destruct (json_of_value_VNum c) as [jc Hc].
  assert (Hjl : exists jl, json_of_value l = Some jl)
    by (destruct Hl as [->|[t ->]]; eexists; reflexivity).
  destruct Hjl as [jl Hjl].
  eexists. split; [reflexivity|].
  destruct Ho as [->|[Hlinked [d ->]]]; cbn [json_members];
    rewrite Ha, Hc, Hjl.
  - left. reflexivity.
  - destruct (json_of_value_VNum d) as [jd Hd]. rewrite Hd.
    right. split; [exact Hlinked|reflexivity].
Qed.

(** C6.  Every record the item form serializes has the fields
    [articulo_id], [cantidad] and [lote] (a text or null), in that
    order, and [detalle_solicitud_id] after them only when the form is in
    linked mode: in manual mode no record carries it. *)
Theorem forma_de_los_detalles
    (s s' : EntregaArticulos.state)
    (H : EntregaArticulos.validarYEnviarFormulario s = (s', Some true)) :
  exists detalles,
    detallesJson (EntregaArticulos.doc s')
    = option_map (fun _ => JSON_stringify detalles)
                 (detallesJson (EntregaArticulos.doc s))
    /\ Forall (forma (EntregaArticulos.esSolicitud s)) detalles
    /\ (exists js, JSON_stringify detalles = print_json (JArr js)
                   /\ Forall (forma_json (EntregaArticulos.esSolicitud s)) js)
    /\ (EntregaArticulos.esSolicitud s = false ->
        Forall (fun o => map fst o = ["articulo_id"; "cantidad"; "lote"]) detalles).
Proof.
  destruct (validar_true_payload s s' H) as [_ Hd].
  eexists. split; [exact Hd|].
  assert (Hf : Forall (forma (EntregaArticulos.esSolicitud s))
                 (map (registro s)
                      (filter (bien_formada s)
                              (indices (EntregaArticulos.contadorFilas s))))).
  { apply Forall_forall. intros o Ho.
    apply in_map_iff in Ho as (i & <- & Hi).
    apply filter_In in Hi as [_ Hi]. apply forma_registro, Hi. }
  split; [exact Hf|]. split.
  - eexists. split; [reflexivity|].
    apply Forall_forall. intros j Hj.
    apply in_map_iff in Hj as (o & <- & Ho).
    rewrite Forall_forall in Hf. apply forma_json_members, Hf, Ho.
  - intros Hm. eapply Forall_impl; [|exact Hf].
    intros o (a & c & l & _ & [-> | [Hl _]]); [reflexivity|].
    rewrite Hm in Hl. discriminate.
Qed.

Lemma forma_de_los_detalles_witness :
  let s := Escenarios.fila_vinculada "7" in
  let s' := fst (EntregaArticulos.validarYEnviarFormulario s) in
  EntregaArticulos.validarYEnviarFormulario s = (s', Some true)
  /\ exists detalles,
       detallesJson (EntregaArticulos.doc s') = Some (JSON_stringify detalles)
       /\ Forall (forma true) detalles.
Proof.
  cbv zeta.
  assert (Hr : EntregaArticulos.validarYEnviarFormulario (Escenarios.fila_vinculada "7")
               = (fst (EntregaArticulos.validarYEnviarFormulario
                         (Escenarios.fila_vinculada "7")), Some true))
    by (vm_compute; reflexivity).
  split; [exact Hr|].
  destruct (forma_de_los_detalles _ _ Hr) as (detalles & Hd & Hf & _).
  exists detalles. split; [exact Hd|exact Hf].
Defined.

(** ** The goods form *)

Section GoodsLoop.
Import EntregaBienes.

(** One turn of the loop of the goods form. *)
Lemma fila_bien (i : Z) (detalles : list object) (s : state) :
  fila i detalles s
  = if presente s i then
      if sin_activo s i
      then (alert "Seleccione un activo/bien en todas las filas." s, ReturnFalse)
      else if cantidad_invalida s i
           then (alert "Ingrese una cantidad válida en todas las filas." s,
                 ReturnFalse)
           else (s, Next (detalles ++ [registro_bien s i])%list)
    else (s, Next detalles).
Proof.
  unfold fila, presente, sin_activo, cantidad_invalida, registro_bien, existe, valor.
  destruct (getElementById (doc s) (idn "fila_" i)); [|reflexivity].
  destruct (getElementById (doc s) (idn "activo_" i)) as [sel|]; [|reflexivity].
  destruct (no_value (value_of sel)); [reflexivity|].
  destruct (getElementById (doc s) (idn "cantidad_" i)) as [inp|]; [|reflexivity].
  destruct (_ || _); reflexivity.
Qed.

(** The loop: the message of the first failing row, or the records of
    all the rows that are there, in the order of the indices. *)
Lemma recorrer_bienes (n : nat) (i : Z) (detalles : list object) (s : state) :
  recorrer n i detalles s
  = match primera_falla s (indices_desde i n) with
    | Some msg => (alert msg s, ReturnFalse)
    | None =>
        (s, Next (detalles
                  ++ map (registro_bien s)
                       (filter (presente s) (indices_desde i n)))%list)
    end.
Proof.
  revert i detalles. induction n as [|n IH]; intros i detalles.
  - simpl. rewrite app_nil_r. reflexivity.
  - cbn [recorrer indices_desde primera_falla filter]. rewrite fila_bien.
    destruct (presente s i); [|apply IH].
    destruct (sin_activo s i); [reflexivity|].
    destruct (cantidad_invalida s i); [reflexivity|].
    rewrite IH. cbn [map]. rewrite <- app_assoc. reflexivity.
Qed.

(** The submit handler of the goods form, as a whole: the empty table
    and the first failing row are reported; otherwise the records of
    the rows are written and the form is submitted.  Only the value of
    the asset select and of the quantity input decide. *)
Lemma validarYEnviarFormulario_bienes (s : state) :
  validarYEnviarFormulario s
  = let s0 := preventDefault s in
    if sin_bienes (doc s)
    then (alert "Debe agregar al menos un bien a la entrega." s0, false)
    else match primera_falla s0 (indices (contadorFilas s)) with
         | Some msg => (alert msg s0, false)
         | None =>
             (submit
                (set_detallesJson
                   (JSON_stringify
                      (map (registro_bien s0)
                           (filter (presente s0) (indices (contadorFilas s)))))
                   s0),
              true)
         end.
Proof.
  unfold validarYEnviarFormulario. cbv zeta.
  change (doc (preventDefault s)) with (doc s).
  destruct (sin_bienes (doc s)); [reflexivity|].
  change (contadorFilas (preventDefault s)) with (contadorFilas s).
  rewrite recorrer_bienes. unfold indices.
  destruct (primera_falla _ _); reflexivity.
Qed.

(** A quantity that passes and has an integer value is at least 1. *)
Lemma cantidad_valida_entera (s : state) (i n : Z) :
  cantidad_invalida s i = false ->
  parseInt_opt (valor (getElementById (doc s) (idn "cantidad_" i))) = num n ->
  1 <= n.
Proof.
  unfold cantidad_invalida. intros H Hn. rewrite Hn in H.
  apply orb_false_iff in H as [_ H].
  unfold le, num in H.
  destruct (Z_lt_le_dec 0 n) as [Hlt|Hle]; [lia|].
  exfalso. assert (Hq : (inject_Z n <= inject_Z 0)%Q) by (rewrite <- Zle_Qle; exact Hle).
  apply Qle_bool_iff in Hq. congruence.
Qed.

Lemma set_detallesJson_bienes (v : string) (s : state) :
  detallesJson (doc (set_detallesJson v s))
  = option_map (fun _ => v) (detallesJson (doc s)).
Proof.
  unfold set_detallesJson. destruct (detallesJson (doc s)) eqn:E; cbn;
    rewrite ?E; reflexivity.
Qed.

End GoodsLoop.

(** C7.  The goods form accepts a row whose quantity has no integer
    value: with the asset chosen and the quantity .5, [parseInt] gives
    NaN, the test [NaN <= 0] is false, no message is shown, and the row is
    submitted with its quantity serialized as null.  (What the handler
    does in general is [validarYEnviarFormulario_bienes]; a quantity
    that passes and has an integer value is at least 1, by
    [cantidad_valida_entera].) *)
Theorem cantidad_sin_valor_entero_aceptada :
  let s := Escenarios.un_bien ".5" in
  let r := EntregaBienes.validarYEnviarFormulario s in
  valor (getElementById (EntregaBienes.doc s) "cantidad_0") = Some ".5"
  /\ parseInt ".5" = NaN
  /\ cantidad_invalida s 0 = false
  /\ snd r = true
  /\ EntregaBienes.alerts (fst r) = []
  /\ EntregaBienes.submitted (fst r) = 1%nat
  /\ detallesJson (EntregaBienes.doc (fst r))
     = Some (JSON_stringify
               [[("equipo_id", VNum (num 12)); ("cantidad", VNum NaN);
                 ("numero_serie", VNull); ("estado_fisico", VNull)]])
  /\ option_map JSON_parse (detallesJson (EntregaBienes.doc (fst r)))
     = Some (Some (JArr [JObj [("equipo_id", JNum (inject_Z 12));
                               ("cantidad", JNull);
                               ("numero_serie", JNull);
                               ("estado_fisico", JNull)]])).
Proof. cbv zeta. repeat split; vm_compute; reflexivity. Qed.

(** ** Failure leaves the form alone *)

Section Failure.

Lemma validar_true_recorrer (s s' : EntregaArticulos.state) :
  EntregaArticulos.validarYEnviarFormulario s = (s', Some true) ->
  EntregaArticulos.sin_articulos (EntregaArticulos.doc s) = false
  /\ Forall (pasa (EntregaArticulos.preventDefault s))
            (indices (EntregaArticulos.contadorFilas s)).
Proof.
  unfold EntregaArticulos.validarYEnviarFormulario, EntregaArticulos.bind,
    EntregaArticulos.get, EntregaArticulos.effect, EntregaArticulos.ret.
  cbv beta iota.
  change (EntregaArticulos.doc (EntregaArticulos.preventDefault s))
    with (EntregaArticulos.doc s).
  destruct (EntregaArticulos.sin_articulos (EntregaArticulos.doc s));
    [discriminate|].
  change (EntregaArticulos.contadorFilas (EntregaArticulos.preventDefault s))
    with (EntregaArticulos.contadorFilas s).
  destruct (EntregaArticulos.recorrer
              (Z.to_nat (EntregaArticulos.contadorFilas s)) 0 []
              (EntregaArticulos.preventDefault s)) as [s1 [[out|]|]] eqn:E;
    try discriminate.
  intros _. split; [reflexivity|].
  exact (recorrer_pasa _ _ _ _ _ _ E).
Qed.

Lemma primera_falla_None (s : EntregaBienes.state) (l : list Z) :
  primera_falla s l = None ->
  Forall (fun i => presente s i = true ->
                   sin_activo s i = false /\ cantidad_invalida s i = false) l.
Proof.
  induction l as [|i l IH]; cbn [primera_falla]; intros H; constructor.
  - destruct (presente s i); [|discriminate].
    destruct (sin_activo s i); [discriminate|].
    destruct (cantidad_invalida s i); [discriminate|]. auto.
  - apply IH. destruct (presente s i); [|exact H].
    destruct (sin_activo s i); [discriminate|].
    destruct (cantidad_invalida s i); [discriminate|exact H].
Qed.

End Failure.

(** C10.  On either form, when the submit handler does not return true
    (empty table, missing selection, bound violation, invalid quantity,
    or a TypeError on the item form), [#detallesJson] keeps its value and
    [e.target.submit()] is not called, the default submission having been
    prevented; the payload is written and the form submitted only when
    every row visited by the loop has passed. *)
Theorem envio_solo_tras_validar :
  (forall s : EntregaArticulos.state,
      let r := EntregaArticulos.validarYEnviarFormulario s in
      EntregaArticulos.defaultPrevented (fst r) = true
      /\ (snd r <> Some true ->
          detallesJson (EntregaArticulos.doc (fst r))
          = detallesJson (EntregaArticulos.doc s)
          /\ EntregaArticulos.submitted (fst r) = EntregaArticulos.submitted s)
      /\ (snd r = Some true ->
          EntregaArticulos.submitted (fst r) = S (EntregaArticulos.submitted s)
          /\ EntregaArticulos.sin_articulos (EntregaArticulos.doc s) = false
          /\ Forall (pasa (EntregaArticulos.preventDefault s))
                    (indices (EntregaArticulos.contadorFilas s))))
  /\ (forall s : EntregaBienes.state,
         let r := EntregaBienes.validarYEnviarFormulario s in
         EntregaBienes.defaultPrevented (fst r) = true
         /\ (snd r = false ->
             detallesJson (EntregaBienes.doc (fst r))
             = detallesJson (EntregaBienes.doc s)
             /\ EntregaBienes.submitted (fst r) = EntregaBienes.submitted s)
         /\ (snd r = true ->
             EntregaBienes.submitted (fst r) = S (EntregaBienes.submitted s)
             /\ EntregaBienes.sin_bienes (EntregaBienes.doc s) = false
             /\ Forall (fun i =>
                          presente (EntregaBienes.preventDefault s) i = true ->
                          sin_activo (EntregaBienes.preventDefault s) i = false
                          /\ cantidad_invalida (EntregaBienes.preventDefault s) i = false)
                       (indices (EntregaBienes.contadorFilas s)))).
Proof.
  split.
  - intros s. cbv zeta.
    destruct (validarYEnviarFormulario_casos s) as [E|[[msg E]|E]].
    + rewrite E. cbn [fst snd].
      match goal with
      | |- context [EntregaArticulos.set_detallesJson ?v ?t] =>
          destruct (set_detallesJson_spec v t) as (_ & _ & H3 & H4 & _)
      end.
      split; [exact H4|]. split; [intros H; contradiction H; reflexivity|].
      intros _. split.
      * change (EntregaArticulos.submitted (EntregaArticulos.submit ?x))
          with (S (EntregaArticulos.submitted x)). rewrite H3. reflexivity.
      * exact (validar_true_recorrer _ _ E).
    + rewrite E. cbn [fst snd]. split; [reflexivity|].
      split; [intros _; split; reflexivity|discriminate].
    + rewrite E. cbn [fst snd]. split; [reflexivity|].
      split; [intros _; split; reflexivity|discriminate].
  - intros s. cbv zeta. rewrite validarYEnviarFormulario_bienes. cbv zeta.
    destruct (EntregaBienes.sin_bienes (EntregaBienes.doc s)) eqn:Es.
    + cbn [fst snd]. split; [reflexivity|].
      split; [intros _; split; reflexivity|discriminate].
    + destruct (primera_falla _ _) as [msg|] eqn:Ep; cbn [fst snd].
      * split; [reflexivity|]. split; [intros _; split; reflexivity|discriminate].
      * split; [unfold EntregaBienes.set_detallesJson;
                destruct (detallesJson _); reflexivity|].
        split; [discriminate|]. intros _.
        split; [unfold EntregaBienes.set_detallesJson;
                destruct (detallesJson _); reflexivity|].
        split; [reflexivity|]. exact (primera_falla_None _ _ Ep).
Qed.

Lemma envio_solo_tras_validar_witness :
  let ra := EntregaArticulos.validarYEnviarFormulario (Escenarios.fila_vinculada "8") in
  let rb := EntregaBienes.validarYEnviarFormulario (Escenarios.un_bien "0") in
  (snd ra <> Some true
   /\ detallesJson (EntregaArticulos.doc (fst ra)) = Some ""
   /\ EntregaArticulos.submitted (fst ra) = 0%nat)
  /\ (snd rb = false
      /\ detallesJson (EntregaBienes.doc (fst rb)) = Some ""
      /\ EntregaBienes.submitted (fst rb) = 0%nat).
Proof.
  cbv zeta.
  assert (Ha : snd (EntregaArticulos.validarYEnviarFormulario
                      (Escenarios.fila_vinculada "8")) <> Some true)
    by (vm_compute; discriminate).
  assert (Hb : snd (EntregaBienes.validarYEnviarFormulario (Escenarios.un_bien "0"))
               = false)
    by (vm_compute; reflexivity).
  destruct envio_solo_tras_validar as [Hart Hbien].
  destruct (Hart (Escenarios.fila_vinculada "8")) as (_ & H1 & _).
  destruct (Hbien (Escenarios.un_bien "0")) as (_ & H2 & _).
  destruct (H1 Ha) as [H1d H1s]. destruct (H2 Hb) as [H2d H2s].
  split.
  - split; [exact Ha|]. split; [rewrite H1d|rewrite H1s]; vm_compute; reflexivity.
  - split; [exact Hb|]. split; [rewrite H2d|rewrite H2s]; vm_compute; reflexivity.
Defined.

(* ================================================================== *)
(** * Further properties of the two forms *)
(* ================================================================== *)

Import Sesion.

(** ** Numbers as the engine reads and prints them *)

(** A text is read as the binary64 nearest to the decimal it writes:
    digits beyond the precision are lost, what is below the smallest
    Number reads as 0 and what is above the largest as Infinity, which a
    number input does not keep.  A Number is printed with the fewest
    digits that read back as it, in exponent notation from [1e21] up and
    below [1e-6]. *)
Example lectura_y_escritura_de_numeros :
  parseFloat "10.0000000000000000001" = Fin (inject_Z 10)
  /\ parseFloat "1e-400" = Fin (inject_Z 0)
  /\ parseFloat "1e400" = Inf false
  /\ parseFloat "0.1" = Fin (3602879701896397 # 36028797018963968)
  /\ parseInt "9007199254740993" = Fin (inject_Z 9007199254740992)
  /\ sanitize_number "1e400" = ""
  /\ sanitize_number "1e-400" = "1e-400"
  /\ number_to_string (parseFloat "0.1") = "0.1"
  /\ number_to_string (parseFloat "7.35") = "7.35"
  /\ Q_to_string (inject_Z (10 ^ 21)) = "1e+21"
  /\ Q_to_string (inject_Z (10 ^ 21 - 10 ^ 5)) = "999999999999999900000"
  /\ Q_to_string (1 # 1000000) = "0.000001"
  /\ Q_to_string (1 # 10000000) = "1e-7".
Proof. vm_compute. repeat split; reflexivity. Qed.

(** So in a linked row with 10 pending and 7 in stock, a quantity written
    with more digits than a Number holds is judged by the Number it
    reads as: [7.0000000000000001] is 7 and passes, [1e-400] is 0 and is
    turned down as not positive. *)
Example cantidades_segun_se_leen :
  let envio v :=
    EntregaArticulos.validarYEnviarFormulario (Escenarios.fila_vinculada v) in
  (snd (envio "7.0000000000000001") = Some true
   /\ EntregaArticulos.alerts (fst (envio "7.0000000000000001")) = [])
  /\ (snd (envio "7.000000000000001") = Some false
      /\ EntregaArticulos.alerts (fst (envio "7.000000000000001"))
         = ["La cantidad a entregar (7.000000000000001) excede el stock disponible (7)."])
  /\ (snd (envio "1e-400") = Some false
      /\ EntregaArticulos.alerts (fst (envio "1e-400"))
         = ["Ingrese una cantidad válida en todas las filas."]).
Proof. vm_compute. repeat split; reflexivity. Qed.

Section SmallIntegers.

Lemma nearest_even_1 (n : Z) : nearest_even n 1 = n.
Proof.
  unfold nearest_even. rewrite Z.div_1_r, Z.mod_1_r. reflexivity.
Qed.

Lemma Qred_entero (n : Z) : Qred (inject_Z n) = inject_Z n.
Proof.
  unfold Qred, inject_Z.
  pose proof (Z.ggcd_gcd n 1) as Hg.
  pose proof (Z.ggcd_correct_divisors n 1) as Hd.
  destruct (Z.ggcd n 1) as [g [a b]]. cbn [fst] in Hg.
  rewrite Z.gcd_1_r in Hg. subst g. destruct Hd as [Ha Hb].
  assert (a = n) by lia. assert (b = 1) by lia. subst a b. reflexivity.
Qed.

Lemma escala_entera (n k : Z) :
  0 <= k -> (inject_Z (n * 2 ^ k) * Qpower (inject_Z 2) (- k) == inject_Z n)%Q.
Proof.
  intros Hk.
  rewrite Qpower_opp, <- Zpower_Qpower by exact Hk.
  rewrite inject_Z_mult. field.
  intros H. assert (H2 : 0 < 2 ^ k) by (apply Z.pow_pos_nonneg; lia).
  apply (Qeq_bool_neq (inject_Z (2 ^ k)) 0); [|exact H].
  unfold Qeq_bool. cbn. destruct (2 ^ k) eqn:E; try lia; reflexivity.
Qed.

(** An integer below [2^53] in magnitude is its own Number value. *)
Lemma binary64_entero (z : Z) :
  Z.abs z < 2 ^ 53 -> binary64 (inject_Z z) = num z.
Proof.
  intros Hz. unfold binary64, num. cbn [Qnum Qden inject_Z].
  destruct (Z.eqb_spec (Z.abs z) 0) as [H0|H0].
  - assert (z = 0) by lia. subst z. reflexivity.
  - set (n := Z.abs z) in *.
    assert (Hn : 0 < n) by lia.
    assert (He : binary_exponent n 1 = Z.log2 n).
    { unfold binary_exponent. cbn [Z.log2]. rewrite Z.sub_0_r.
      unfold scale2.
      pose proof (Z.log2_nonneg n) as Hl.
      destruct (Z.leb_spec 0 (Z.log2 n)); [|lia].
      rewrite Z.mul_1_l.
      destruct (Z.leb_spec (2 ^ Z.log2 n) n) as [_|Hlt]; [reflexivity|].
      pose proof (Z.log2_spec n Hn). lia. }
    rewrite He.
    assert (Hl : 0 <= Z.log2 n < 53).
    { split; [apply Z.log2_nonneg|]. apply Z.log2_lt_pow2; lia. }
    destruct (Z.leb_spec 1024 (Z.log2 n)); [lia|].
    rewrite Z.max_l by lia.
    remember (Z.log2 n - 52) as t eqn:Et.
    assert (Hv : forall m, (inject_Z m * Qpower (inject_Z 2) t == inject_Z n)%Q ->
                           (if (m =? 2 ^ 53) && (t =? 971) then Inf (z <? 0)
                            else Fin (if z <? 0
                                      then - Qred (inject_Z m * Qpower (inject_Z 2) t)
                                      else Qred (inject_Z m * Qpower (inject_Z 2) t))%Q)
                           = Fin (inject_Z z)).
    { intros m Hm.
      assert (Ht : (t =? 971) = false) by (apply Z.eqb_neq; lia).
      rewrite Ht, andb_false_r.
      rewrite (Qred_complete _ _ Hm), Qred_entero.
      unfold n. destruct z; reflexivity. }
    unfold scale2.
    destruct (Z.leb_spec 0 t) as [Hpos|Hneg].
    + assert (H0t : t = 0) by lia.
      replace (1 * 2 ^ t) with 1 by (rewrite H0t; reflexivity).
      rewrite nearest_even_1. apply Hv.
      rewrite H0t. change (Qpower (inject_Z 2) 0) with 1%Q. apply Qmult_1_r.
    + rewrite nearest_even_1. apply Hv.
      replace t with (- (- t)) at 2 by lia. apply escala_entera. lia.
Qed.

End SmallIntegers.

(** ** Escaping, continued *)

(** X1.  Whatever value it is given, [escapeHtml] of either form returns
    a text that holds none of the characters [<], [>], double quote and
    single quote. *)
Theorem escapeHtml_sin_caracteres_de_marcado (v : value) :
  Forall (fun c => occurs c (EntregaArticulos.escapeHtml v) = false
                   /\ occurs c (EntregaBienes.escapeHtml v) = false)
         ["<"; ">"; dquote; "'"]%char.
Proof.
  apply Forall_forall. intros c Hc.
  change (EntregaBienes.escapeHtml v) with (EntregaArticulos.escapeHtml v).
  split; apply escapeHtml_sin_marcado, Hc.
Qed.

Lemma replace_all_absent (c : ascii) (by_ s : string) :
  occurs c s = false -> replace_all c by_ s = s.
Proof.
  induction s as [|x s IH]; simpl; [reflexivity|].
  intros H. apply orb_false_iff in H as [Hx Hs].
  rewrite Hx, (IH Hs). reflexivity.
Qed.

(** X2.  A non-empty text that holds none of the five characters [&],
    [<], [>], double quote and single quote comes out of [escapeHtml] as
    it went in. *)
Theorem escapeHtml_texto_llano (t : string)
    (Hne : t <> "")
    (H : Forall (fun c => occurs c t = false) ["&"; "<"; ">"; dquote; "'"]%char) :
  EntregaArticulos.escapeHtml (VStr t) = t /\ EntregaBienes.escapeHtml (VStr t) = t.
Proof.
  change (EntregaBienes.escapeHtml (VStr t))
    with (EntregaArticulos.escapeHtml (VStr t)).
  unfold EntregaArticulos.escapeHtml.
  assert (Ht : truthy (VStr t) = true).
  { destruct t; [contradiction Hne; reflexivity|reflexivity]. }
  rewrite Ht. cbn [negb to_string].
  rewrite Forall_forall in H.
  assert (E : replace_all "'" "&#039;"
                (replace_all dquote "&quot;"
                   (replace_all ">" "&gt;"
                      (replace_all "<" "&lt;" (replace_all "&" "&amp;" t)))) = t).
  { rewrite (replace_all_absent "&"%char) by (apply H; simpl; auto).
    rewrite (replace_all_absent "<"%char) by (apply H; simpl; auto).
    rewrite (replace_all_absent ">"%char) by (apply H; simpl; auto).
    rewrite (replace_all_absent dquote) by (apply H; simpl; auto 6).
    apply replace_all_absent. apply H; simpl; auto 6. }
  split; exact E.
Qed.

Lemma escapeHtml_texto_llano_witness :
  ("Lápiz 2B" <> ""
   /\ Forall (fun c => occurs c "Lápiz 2B" = false) ["&"; "<"; ">"; dquote; "'"]%char)
  /\ EntregaArticulos.escapeHtml (VStr "Lápiz 2B") = "Lápiz 2B".
Proof.
  assert (Hne : "Lápiz 2B" <> "") by discriminate.
  assert (H : Forall (fun c => occurs c "Lápiz 2B" = false)
                     ["&"; "<"; ">"; dquote; "'"]%char)
    by (repeat constructor).
  split; [split; [exact Hne|exact H]|].
  exact (proj1 (escapeHtml_texto_llano "Lápiz 2B" Hne H)).
Defined.

(** ** The verdict on one row of the item form *)

Lemma le_Fin (x y : Q) : le (Fin x) (Fin y) = true <-> (x <= y)%Q.
Proof. simpl. apply Qle_bool_iff. Qed.

Lemma le_Fin_false (x y : Q) : le (Fin x) (Fin y) = false <-> (y < x)%Q.
Proof.
  simpl. split.
  - intros H. apply Qnot_le_lt. intros Hle. apply Qle_bool_iff in Hle. congruence.
  - intros H. destruct (Qle_bool x y) eqn:E; [|reflexivity].
    apply Qle_bool_iff in E. exfalso. exact (Qlt_not_le _ _ H E).
Qed.

(** A value that reads as a number is there and is not empty. *)
Lemma parseFloat_opt_Fin (x : option string) (q : Q) :
  EntregaArticulos.parseFloat_opt x = Fin q -> EntregaArticulos.no_value x = false.
Proof.
  destruct x as [[|c r]|]; simpl; intros H; try reflexivity; discriminate.
Qed.

(** X3.  A row of the item form in manual mode, its quantity input and
    its article control being there.  Without a chosen article the row
    is rejected with the selection message.  With an option chosen whose
    stock reads as the Number [st] and a quantity that reads as the
    Number [q]: [q] above [st] is rejected with
    the stock message, which cites both numbers; [q] within the stock but
    not positive is rejected as an invalid quantity; otherwise the record
    of the row is pushed, without a linking field.  When the article
    control is not a select but holds a value, a TypeError leaves the
    handler. *)
Theorem fila_manual_veredicto
    (s : EntregaArticulos.state) (i : Z) (detalles : list object) (sel inp : element)
    (Hm : EntregaArticulos.esSolicitud s = false)
    (Hf : existe (EntregaArticulos.doc s) (EntregaArticulos.idn "fila_" i) = true)
    (Hinp : getElementById (EntregaArticulos.doc s)
                           (EntregaArticulos.idn "cantidad_" i) = Some inp)
    (Hsel : getElementById (EntregaArticulos.doc s)
                           (EntregaArticulos.idn "articulo_" i) = Some sel) :
  (EntregaArticulos.no_value (value_of sel) = true ->
   EntregaArticulos.fila i detalles s
   = (EntregaArticulos.alert "Seleccione un artículo en todas las filas." s,
      Some EntregaArticulos.ReturnFalse))
  /\ (forall opts k opcion q st,
         content sel = Select opts k ->
         nth_Z opts k = Some opcion ->
         option_value opcion <> "" ->
         EntregaArticulos.parseFloat_opt (lookup "data-stock" (op_attrs opcion))
         = Fin st ->
         EntregaArticulos.parseFloat_opt (value_of inp) = Fin q ->
         ((st < q)%Q ->
          EntregaArticulos.fila i detalles s
          = (EntregaArticulos.alert
               ("La cantidad solicitada (" ++ Q_to_string q
                ++ ") excede el stock disponible (" ++ Q_to_string st ++ ").") s,
             Some EntregaArticulos.ReturnFalse))
         /\ ((q <= st)%Q -> (q <= 0)%Q ->
             EntregaArticulos.fila i detalles s
             = (EntregaArticulos.alert
                  "Ingrese una cantidad válida en todas las filas." s,
                Some EntregaArticulos.ReturnFalse))
         /\ ((q <= st)%Q -> (0 < q)%Q ->
             EntregaArticulos.fila i detalles s
             = (s, Some (EntregaArticulos.Next
                           (detalles
                            ++ [[("articulo_id", VNum (parseInt (option_value opcion)));
                                 ("cantidad", VNum (Fin q));
                                 ("lote", lote_de s i)]])%list))))
  /\ (forall v, content sel = Input v -> v <> "" ->
                EntregaArticulos.fila i detalles s = (s, None)).
Proof.
  unfold existe in Hf.
  assert (Hfila : forall r,
             (if EntregaArticulos.no_value (value_of sel)
              then (EntregaArticulos.alert
                      "Seleccione un artículo en todas las filas." s,
                    Some EntregaArticulos.ReturnFalse)
              else
                match EntregaArticulos.validarStockDisponible sel inp s with
                | (s1, Some true) =>
                    EntregaArticulos.cantidadYDetalle inp
                      (getElementById (EntregaArticulos.doc s)
                                      (EntregaArticulos.idn "lote_" i))
                      (EntregaArticulos.parseInt_opt (value_of sel)) VNull detalles s1
                | (s1, Some false) => (s1, Some EntregaArticulos.ReturnFalse)
                | (s1, None) => (s1, None)
                end) = r ->
             EntregaArticulos.fila i detalles s = r).
  { intros r <-.
    unfold EntregaArticulos.fila, EntregaArticulos.bind, EntregaArticulos.get,
      EntregaArticulos.ret, EntregaArticulos.effect.
    cbv beta iota.
    destruct (getElementById (EntregaArticulos.doc s) (EntregaArticulos.idn "fila_" i));
      [|discriminate].
    rewrite Hinp, Hm, Hsel.
    destruct (EntregaArticulos.no_value (value_of sel)); [reflexivity|].
    destruct (EntregaArticulos.validarStockDisponible sel inp s) as [s1 [[|]|]];
      reflexivity. }
  split; [|split].
  - intros Hv. apply Hfila. rewrite Hv. reflexivity.
  - intros opts k opcion q st Hc Hn Hval Hst Hq.
    assert (Hvs : value_of sel = Some (option_value opcion))
      by (unfold value_of; rewrite Hc, Hn; reflexivity).
    assert (Hnv : EntregaArticulos.no_value (value_of sel) = false).
    { rewrite Hvs. destruct (option_value opcion); [contradiction Hval|]; reflexivity. }
    assert (Hnq : EntregaArticulos.no_value (value_of inp) = false)
      by exact (parseFloat_opt_Fin _ _ Hq).
    split; [|split].
    + intros Hlt. apply Hfila. rewrite Hnv.
      unfold EntregaArticulos.validarStockDisponible. rewrite Hc, Hn, Hst, Hq.
      apply gt_Fin in Hlt. rewrite Hlt. reflexivity.
    + intros Hle H0. apply Hfila. rewrite Hnv.
      unfold EntregaArticulos.validarStockDisponible. rewrite Hc, Hn, Hst, Hq.
      apply gt_Fin_false in Hle. rewrite Hle.
      unfold EntregaArticulos.ret, EntregaArticulos.cantidadYDetalle.
      rewrite Hnq, Hq. apply le_Fin in H0.
      change (num 0) with (Fin 0%Q). rewrite H0. reflexivity.
    + intros Hle H0. apply Hfila. rewrite Hnv.
      unfold EntregaArticulos.validarStockDisponible. rewrite Hc, Hn, Hst, Hq.
      apply gt_Fin_false in Hle. rewrite Hle.
      unfold EntregaArticulos.ret, EntregaArticulos.cantidadYDetalle.
      rewrite Hnq, Hq. apply le_Fin_false in H0.
      change (num 0) with (Fin 0%Q). rewrite H0.
      unfold EntregaArticulos.construirDetalle, lote_de. rewrite Hq, Hvs. reflexivity.
  - intros v Hc Hv. apply Hfila.
    assert (Hnv : EntregaArticulos.no_value (value_of sel) = false).
    { unfold value_of. rewrite Hc. destruct v; [contradiction Hv|]; reflexivity. }
    rewrite Hnv. unfold EntregaArticulos.validarStockDisponible. rewrite Hc. reflexivity.
Qed.

Lemma fila_manual_veredicto_witness :
  let s := Escenarios.dos_filas_manuales in
  let d := EntregaArticulos.doc s in
  (EntregaArticulos.esSolicitud s = false
   /\ existe d "fila_0" = true
   /\ getElementById d "cantidad_0" = Some (el d "cantidad_0")
   /\ getElementById d "articulo_0" = Some (el d "articulo_0"))
  /\ EntregaArticulos.fila 0 [] s
     = (s, Some (EntregaArticulos.Next
                   [[("articulo_id", VNum (num 5)); ("cantidad", VNum (num 3));
                     ("lote", VStr "L1")]])).
Proof.
  cbv zeta.
  pose (s := Escenarios.dos_filas_manuales).
  pose (d := EntregaArticulos.doc s).
  assert (Hm : EntregaArticulos.esSolicitud s = false) by (vm_compute; reflexivity).
  assert (Hf : existe d (EntregaArticulos.idn "fila_" 0) = true)
    by (vm_compute; reflexivity).
  assert (Hinp : getElementById d (EntregaArticulos.idn "cantidad_" 0)
                 = Some (el d "cantidad_0")) by (vm_compute; reflexivity).
  assert (Hsel : getElementById d (EntregaArticulos.idn "articulo_" 0)
                 = Some (el d "articulo_0")) by (vm_compute; reflexivity).
  split; [repeat split; assumption|].
  destruct (fila_manual_veredicto s 0 [] _ _ Hm Hf Hinp Hsel) as (_ & H & _).
  edestruct (fun opts k opcion => H opts k opcion (inject_Z 3) (inject_Z 10))
    as (_ & _ & H3).
  - vm_compute. reflexivity.
  - vm_compute. reflexivity.
  - vm_compute. discriminate.
  - vm_compute. reflexivity.
  - vm_compute. reflexivity.
  - refine (eq_trans (H3 _ _) _);
      [vm_compute; discriminate|reflexivity|reflexivity].
Defined.

(** X4.  A row of the item form in linked mode, its quantity input and
    its two hidden inputs being there, whose quantity, pending quantity
    and stock read as the Numbers [q], [p] and [st].  The checks come in
    this order: [q]
    above [p], [q] above [st], [q] not positive; each rejects with its
    own message.  A quantity that passes all three has its record pushed,
    with the parsed article id and, when the parsed request-line id is
    neither 0 nor NaN, the linking field. *)
Theorem fila_vinculada_veredicto
    (s : EntregaArticulos.state) (i : Z) (detalles : list object)
    (inp art det : element) (q p st : Q)
    (Hm : EntregaArticulos.esSolicitud s = true)
    (Hf : existe (EntregaArticulos.doc s) (EntregaArticulos.idn "fila_" i) = true)
    (Hinp : getElementById (EntregaArticulos.doc s)
                           (EntregaArticulos.idn "cantidad_" i) = Some inp)
    (Hart : getElementById (EntregaArticulos.doc s)
                           (EntregaArticulos.idn "articulo_" i) = Some art)
    (Hdet : getElementById (EntregaArticulos.doc s)
                           (EntregaArticulos.idn "detalle_solicitud_" i) = Some det)
    (Hq : EntregaArticulos.parseFloat_opt (value_of inp) = Fin q)
    (Hp : EntregaArticulos.parseFloat_opt (getAttribute inp "data-pendiente") = Fin p)
    (Hst : EntregaArticulos.parseFloat_opt (getAttribute inp "data-stock") = Fin st) :
  ((p < q)%Q ->
   EntregaArticulos.fila i detalles s
   = (EntregaArticulos.alert
        ("La cantidad a entregar (" ++ Q_to_string q
         ++ ") excede la cantidad pendiente (" ++ Q_to_string p ++ ").") s,
      Some EntregaArticulos.ReturnFalse))
  /\ ((q <= p)%Q -> (st < q)%Q ->
      EntregaArticulos.fila i detalles s
      = (EntregaArticulos.alert
           ("La cantidad a entregar (" ++ Q_to_string q
            ++ ") excede el stock disponible (" ++ Q_to_string st ++ ").") s,
         Some EntregaArticulos.ReturnFalse))
  /\ ((q <= p)%Q -> (q <= st)%Q -> (q <= 0)%Q ->
      EntregaArticulos.fila i detalles s
      = (EntregaArticulos.alert "Ingrese una cantidad válida en todas las filas." s,
         Some EntregaArticulos.ReturnFalse))
  /\ ((q <= p)%Q -> (q <= st)%Q -> (0 < q)%Q ->
      EntregaArticulos.fila i detalles s
      = (s, Some (EntregaArticulos.Next
                    (detalles
                     ++ [([("articulo_id",
                            VNum (EntregaArticulos.parseInt_opt (value_of art)));
                           ("cantidad", VNum (Fin q));
                           ("lote", lote_de s i)]
                          ++ let did := EntregaArticulos.parseInt_opt (value_of det) in
                             if truthy (VNum did)
                             then [("detalle_solicitud_id", VNum did)]
                             else [])%list])%list))).
Proof.
  unfold existe in Hf.
  assert (Hfila : forall r,
             match EntregaArticulos.validarCantidadSolicitud inp s with
             | (s1, Some true) =>
                 EntregaArticulos.cantidadYDetalle inp
                   (getElementById (EntregaArticulos.doc s)
                                   (EntregaArticulos.idn "lote_" i))
                   (EntregaArticulos.parseInt_opt (value_of art))
                   (VNum (EntregaArticulos.parseInt_opt (value_of det))) detalles s1
             | (s1, Some false) => (s1, Some EntregaArticulos.ReturnFalse)
             | (s1, None) => (s1, None)
             end = r ->
             EntregaArticulos.fila i detalles s = r).
  { intros r <-.
    unfold EntregaArticulos.fila, EntregaArticulos.bind, EntregaArticulos.get,
      EntregaArticulos.ret.
    cbv beta iota.
    destruct (getElementById (EntregaArticulos.doc s) (EntregaArticulos.idn "fila_" i));
      [|discriminate].
    rewrite Hinp, Hm, Hart, Hdet.
    destruct (EntregaArticulos.validarCantidadSolicitud inp s) as [s1 [[|]|]];
      reflexivity. }
  pose proof (parseFloat_opt_Fin _ _ Hq) as Hnq.
  assert (Hpasa : (q <= p)%Q -> (q <= st)%Q ->
                  EntregaArticulos.validarCantidadSolicitud inp s = (s, Some true)).
  { intros H1 H2. unfold EntregaArticulos.validarCantidadSolicitud.
    rewrite Hq, Hp, Hst. apply gt_Fin_false in H1, H2. rewrite H1, H2. reflexivity. }
  split; [|split; [|split]].
  - intros Hlt. apply Hfila. unfold EntregaArticulos.validarCantidadSolicitud.
    rewrite Hq, Hp, Hst. apply gt_Fin in Hlt. rewrite Hlt. reflexivity.
  - intros Hle Hlt. apply Hfila. unfold EntregaArticulos.validarCantidadSolicitud.
    rewrite Hq, Hp, Hst. apply gt_Fin_false in Hle. apply gt_Fin in Hlt.
    rewrite Hle, Hlt. reflexivity.
  - intros H1 H2 H0. apply Hfila. rewrite (Hpasa H1 H2).
    unfold EntregaArticulos.cantidadYDetalle. rewrite Hnq, Hq.
    apply le_Fin in H0. change (num 0) with (Fin 0%Q). rewrite H0. reflexivity.
  - intros H1 H2 H0. apply Hfila. rewrite (Hpasa H1 H2).
    unfold EntregaArticulos.cantidadYDetalle. rewrite Hnq, Hq.
    apply le_Fin_false in H0. change (num 0) with (Fin 0%Q). rewrite H0.
    unfold EntregaArticulos.construirDetalle, lote_de. rewrite Hq. cbv zeta.
    destruct (truthy (VNum (EntregaArticulos.parseInt_opt (value_of det))));
      [reflexivity|rewrite app_nil_r; reflexivity].
Qed.

Lemma fila_vinculada_veredicto_witness :
  let s := Escenarios.fila_vinculada "0" in
  let d := EntregaArticulos.doc s in
  (EntregaArticulos.esSolicitud s = true
   /\ existe d "fila_0" = true
   /\ EntregaArticulos.parseFloat_opt (value_of (el d "cantidad_0")) = Fin 0%Q
   /\ (0 <= inject_Z 10)%Q /\ (0 <= inject_Z 7)%Q /\ (0 <= 0)%Q)
  /\ EntregaArticulos.fila 0 [] s
     = (EntregaArticulos.alert "Ingrese una cantidad válida en todas las filas." s,
        Some EntregaArticulos.ReturnFalse).
Proof.
  cbv zeta.
  pose (s := Escenarios.fila_vinculada "0").
  pose (d := EntregaArticulos.doc s).
  assert (Hm : EntregaArticulos.esSolicitud s = true) by (vm_compute; reflexivity).
  assert (Hf : existe d (EntregaArticulos.idn "fila_" 0) = true)
    by (vm_compute; reflexivity).
  assert (Hinp : getElementById d (EntregaArticulos.idn "cantidad_" 0)
                 = Some (el d "cantidad_0")) by (vm_compute; reflexivity).
  assert (Hart : getElementById d (EntregaArticulos.idn "articulo_" 0)
                 = Some (el d "articulo_0")) by (vm_compute; reflexivity).
  assert (Hdet : getElementById d (EntregaArticulos.idn "detalle_solicitud_" 0)
                 = Some (el d "detalle_solicitud_0")) by (vm_compute; reflexivity).
  assert (Hq : EntregaArticulos.parseFloat_opt (value_of (el d "cantidad_0"))
               = Fin 0%Q) by (vm_compute; reflexivity).
  assert (Hp : EntregaArticulos.parseFloat_opt
                 (getAttribute (el d "cantidad_0") "data-pendiente")
               = Fin (inject_Z 10)) by (vm_compute; reflexivity).
  assert (Hst : EntregaArticulos.parseFloat_opt
                  (getAttribute (el d "cantidad_0") "data-stock")
                = Fin (inject_Z 7)) by (vm_compute; reflexivity).
  assert (H10 : (0 <= inject_Z 10)%Q) by (vm_compute; discriminate).
  assert (H7 : (0 <= inject_Z 7)%Q) by (vm_compute; discriminate).
  assert (H0 : (0 <= 0)%Q) by (vm_compute; discriminate).
  split; [repeat split; assumption|].
  destruct (fila_vinculada_veredicto s 0 [] _ _ _ _ _ _ Hm Hf Hinp Hart Hdet Hq Hp Hst)
    as (_ & _ & H & _).
  exact (H H10 H7 H0).
Defined.

(** ** The goods form, continued *)

Lemma primera_falla_Some (s : EntregaBienes.state) (l : list Z) (msg : string) :
  primera_falla s l = Some msg ->
  exists l1 j l2,
    l = (l1 ++ j :: l2)%list
    /\ Forall (fila_bien_pasa s) l1
    /\ presente s j = true
    /\ (sin_activo s j = true
        /\ msg = "Seleccione un activo/bien en todas las filas."
        \/ sin_activo s j = false /\ cantidad_invalida s j = true
           /\ msg = "Ingrese una cantidad válida en todas las filas.").
Proof.
  induction l as [|i l IH]; cbn [primera_falla]; intros H; [discriminate|].
  destruct (presente s i) eqn:Ep.
  - destruct (sin_activo s i) eqn:Ea.
    + injection H as <-. exists [], i, l. repeat split; auto.
    + destruct (cantidad_invalida s i) eqn:Eq.
      * injection H as <-. exists [], i, l. repeat split; auto.
      * destruct (IH H) as (l1 & j & l2 & -> & Hl1 & Hj).
        exists (i :: l1), j, l2. split; [reflexivity|]. split; [|exact Hj].
        constructor; [|exact Hl1]. intros _. auto.
  - destruct (IH H) as (l1 & j & l2 & -> & Hl1 & Hj).
    exists (i :: l1), j, l2. split; [reflexivity|]. split; [|exact Hj].
    constructor; [|exact Hl1]. intros Hp. unfold fila_bien_pasa. congruence.
Qed.

(** X5.  The submit handler of the goods form, whole.  An empty table
    is rejected with its message.  Otherwise the rows are visited in
    ascending index order and the first one that fails decides: a row
    with no chosen asset gives the asset message, also when its quantity
    is bad too; a row with an asset and a missing, empty or non-positive
    quantity gives the quantity message.  When no row fails, one record
    per row that is there is written, in index order, and the form is
    submitted.  Nothing else of a row is looked at to decide. *)
Theorem envio_de_bienes (s : EntregaBienes.state) :
  let s0 := EntregaBienes.preventDefault s in
  let c := EntregaBienes.contadorFilas s in
  (EntregaBienes.sin_bienes (EntregaBienes.doc s) = true ->
   EntregaBienes.validarYEnviarFormulario s
   = (EntregaBienes.alert "Debe agregar al menos un bien a la entrega." s0, false))
  /\ (forall msg,
         EntregaBienes.sin_bienes (EntregaBienes.doc s) = false ->
         primera_falla s0 (indices c) = Some msg ->
         EntregaBienes.validarYEnviarFormulario s = (EntregaBienes.alert msg s0, false)
         /\ exists l1 j l2,
              indices c = (l1 ++ j :: l2)%list
              /\ Forall (fila_bien_pasa s0) l1
              /\ presente s0 j = true
              /\ (sin_activo s0 j = true
                  /\ msg = "Seleccione un activo/bien en todas las filas."
                  \/ sin_activo s0 j = false /\ cantidad_invalida s0 j = true
                     /\ msg = "Ingrese una cantidad válida en todas las filas."))
  /\ (EntregaBienes.sin_bienes (EntregaBienes.doc s) = false ->
      Forall (fila_bien_pasa s0) (indices c) ->
      EntregaBienes.validarYEnviarFormulario s
      = (EntregaBienes.submit
           (EntregaBienes.set_detallesJson
              (JSON_stringify
                 (map (registro_bien s0) (filter (presente s0) (indices c))))
              s0),
         true)).
Proof.
  cbv zeta. rewrite validarYEnviarFormulario_bienes. cbv zeta.
  split; [|split].
  - intros ->. reflexivity.
  - intros msg -> Hp. rewrite Hp. split; [reflexivity|].
    exact (primera_falla_Some _ _ _ Hp).
  - intros -> Hall.
    destruct (primera_falla (EntregaBienes.preventDefault s)
                (indices (EntregaBienes.contadorFilas s))) as [msg|] eqn:Hp;
      [|reflexivity].
    exfalso.
    destruct (primera_falla_Some _ _ _ Hp) as (l1 & j & l2 & Hl & _ & Hj & Hfail).
    rewrite Hl in Hall. apply Forall_app in Hall as [_ Hall].
    inversion Hall as [|? ? Hjp _]; subst.
    destruct (Hjp Hj) as [Ha Hq].
    destruct Hfail as [[Ha' _]|(_ & Hq' & _)]; congruence.
Qed.

Lemma envio_de_bienes_witness :
  let s := Escenarios.un_bien "-2" in
  (EntregaBienes.sin_bienes (EntregaBienes.doc s) = false
   /\ primera_falla (EntregaBienes.preventDefault s)
        (indices (EntregaBienes.contadorFilas s))
      = Some "Ingrese una cantidad válida en todas las filas.")
  /\ EntregaBienes.validarYEnviarFormulario s
     = (EntregaBienes.alert "Ingrese una cantidad válida en todas las filas."
          (EntregaBienes.preventDefault s), false).
Proof.
  cbv zeta.
  assert (H1 : EntregaBienes.sin_bienes (EntregaBienes.doc (Escenarios.un_bien "-2"))
               = false) by (vm_compute; reflexivity).
  assert (H2 : primera_falla (EntregaBienes.preventDefault (Escenarios.un_bien "-2"))
                 (indices (EntregaBienes.contadorFilas (Escenarios.un_bien "-2")))
               = Some "Ingrese una cantidad válida en todas las filas.")
    by (vm_compute; reflexivity).
  split; [split; assumption|].
  destruct (envio_de_bienes (Escenarios.un_bien "-2")) as (_ & H & _).
  exact (proj1 (H _ H1 H2)).
Defined.

Section GoodsIds.
Import EntregaBienes.

Lemma paso_bienes_contador (op : operacion_bienes) (s : state) :
  contadorFilas (paso_bienes op s)
  = match op, tbody (doc s) with
    | AgregarBien, Some _ => contadorFilas s + 1
    | _, _ => contadorFilas s
    end.
Proof.
  destruct op as [|k|id f]; cbn [paso_bienes].
  - unfold agregarBien. destruct (tbody (doc s)); reflexivity.
  - unfold eliminarFila. destruct (tbody (doc s)); reflexivity.
  - destruct (tbody (doc s)); reflexivity.
Qed.

Lemma ejecutar_bienes_contador (ops : list operacion_bienes) (s : state) :
  contadorFilas s <= contadorFilas (ejecutar_bienes ops s).
Proof.
  revert s. unfold ejecutar_bienes.
  induction ops as [|op ops IH]; intros s; cbn [fold_left]; [lia|].
  specialize (IH (paso_bienes op s)). rewrite paso_bienes_contador in IH.
  destruct op, (tbody (doc s)); lia.
Qed.

Lemma entregados_bienes_cotas (ops : list operacion_bienes) (s : state) :
  Forall (fun n => contadorFilas s <= n < contadorFilas (ejecutar_bienes ops s))
         (entregados_bienes ops s)
  /\ StronglySorted Z.lt (entregados_bienes ops s).
Proof.
  revert s. induction ops as [|op ops IH]; intros s; cbn [entregados_bienes].
  - split; constructor.
  - destruct (IH (paso_bienes op s)) as [Hb Hs].
    change (ejecutar_bienes (op :: ops) s)
      with (ejecutar_bienes ops (paso_bienes op s)).
    pose proof (ejecutar_bienes_contador ops (paso_bienes op s)) as Hm.
    rewrite paso_bienes_contador in Hb, Hm.
    destruct op as [|k|id f], (tbody (doc s)) as [rows|] eqn:Et;
      cbn [app]; try (split; [|exact Hs];
                      eapply Forall_impl; [|exact Hb]; cbv beta; intros; lia).
    split.
    + constructor; [lia|]. eapply Forall_impl; [|exact Hb]. cbv beta. intros; lia.
    + constructor; [exact Hs|]. eapply Forall_impl; [|exact Hb]. cbv beta. intros; lia.
Qed.

End GoodsIds.

(** X6.  In the goods form the row counter never goes down: removing a
    row, the last one too, leaves it as it is.  So over any sequence of
    events the ids given to new rows increase strictly, none is given
    twice, and each new row is appended under the id [fila_<counter>]. *)
Theorem ids_de_bienes_sin_reuso (ops : list operacion_bienes) (s : EntregaBienes.state) :
  EntregaBienes.contadorFilas s
  <= EntregaBienes.contadorFilas (ejecutar_bienes ops s)
  /\ StronglySorted Z.lt (entregados_bienes ops s)
  /\ Forall (fun n => EntregaBienes.contadorFilas s <= n
                      < EntregaBienes.contadorFilas (ejecutar_bienes ops s))
            (entregados_bienes ops s)
  /\ (forall k, EntregaBienes.contadorFilas (EntregaBienes.eliminarFila k s)
                = EntregaBienes.contadorFilas s)
  /\ (forall rows, tbody (EntregaBienes.doc s) = Some rows ->
        exists rows0 r,
          tbody (EntregaBienes.doc (EntregaBienes.agregarBien s))
          = Some (rows0 ++ [r])%list
          /\ row_id r = Some (EntregaBienes.idn "fila_" (EntregaBienes.contadorFilas s))
          /\ EntregaBienes.contadorFilas (EntregaBienes.agregarBien s)
             = EntregaBienes.contadorFilas s + 1).
Proof.
  destruct (entregados_bienes_cotas ops s) as [Hb Hs].
  split; [apply ejecutar_bienes_contador|]. split; [exact Hs|]. split; [exact Hb|].
  split.
  - intros k. unfold EntregaBienes.eliminarFila.
    destruct (tbody (EntregaBienes.doc s)); reflexivity.
  - intros rows Hrows. unfold EntregaBienes.agregarBien. rewrite Hrows.
    eexists _, _. cbn. split; [reflexivity|]. split; reflexivity.
Qed.

Lemma ids_de_bienes_sin_reuso_witness :
  let s := EntregaBienes.init [] EntregaArticulos.pagina in
  let ops := [AgregarBien; EliminarBien 0; AgregarBien] in
  tbody (EntregaBienes.doc (ejecutar_bienes ops s)) <> None
  /\ entregados_bienes ops s = [0; 1]
  /\ ids_de_filas (filas (EntregaBienes.doc (ejecutar_bienes ops s))) = ["fila_1"]
  /\ exists rows0 r,
       tbody (EntregaBienes.doc
                (EntregaBienes.agregarBien (ejecutar_bienes ops s)))
       = Some (rows0 ++ [r])%list
       /\ row_id r = Some "fila_2".
Proof.
  cbv zeta.
  split; [vm_compute; discriminate|].
  split; [vm_compute; reflexivity|]. split; [vm_compute; reflexivity|].
  destruct (ids_de_bienes_sin_reuso []
              (ejecutar_bienes [AgregarBien; EliminarBien 0; AgregarBien]
                 (EntregaBienes.init [] EntregaArticulos.pagina)))
    as (_ & _ & _ & _ & H).
  edestruct H as (rows0 & r & H1 & H2 & _); [vm_compute; reflexivity|].
  exists rows0, r. split; [exact H1|exact H2].
Defined.

(** ** Clearing the request, and requests without lines *)

Section ModeController.
Import EntregaArticulos.

Lemma validar_sin_articulos (s : state) :
  sin_articulos (doc s) = true ->
  validarYEnviarFormulario s
  = (alert "Debe agregar al menos un artículo a la entrega." (preventDefault s),
     Some false).
Proof.
  intros H. unfold validarYEnviarFormulario, bind, effect, get, ret. cbv beta iota.
  change (doc (preventDefault s)) with (doc s). rewrite H. reflexivity.
Qed.

End ModeController.

(** X7.  Clearing the request selection, whatever the form held: the
    form is in manual mode, the table shows only the empty-state row,
    the counter is 0, the add button (when there) is enabled and the
    request panel (when there) hidden.  A submit right after is rejected
    for lack of articles, with nothing written. *)
Theorem limpiarArticulosSolicitud_deja_vacio
    (s : EntregaArticulos.state) (rows : list row)
    (H : tbody (EntregaArticulos.doc s) = Some rows) :
  let s1 := EntregaArticulos.limpiarArticulosSolicitud s in
  EntregaArticulos.esSolicitud s1 = false
  /\ EntregaArticulos.contadorFilas s1 = 0
  /\ (exists text, tbody (EntregaArticulos.doc s1)
                   = Some [EntregaArticulos.placeholder 20 text])
  /\ btnAgregar (EntregaArticulos.doc s1)
     = option_map (fun _ => false) (btnAgregar (EntregaArticulos.doc s))
  /\ infoSolicitud (EntregaArticulos.doc s1)
     = option_map (fun _ => true) (infoSolicitud (EntregaArticulos.doc s))
  /\ EntregaArticulos.alerts s1 = EntregaArticulos.alerts s
  /\ EntregaArticulos.validarYEnviarFormulario s1
     = (EntregaArticulos.alert "Debe agregar al menos un artículo a la entrega."
          (EntregaArticulos.preventDefault s1), Some false).
Proof.
  cbv zeta.
  assert (Hs : EntregaArticulos.sin_articulos
                 (EntregaArticulos.doc (EntregaArticulos.limpiarArticulosSolicitud s))
               = true
               /\ exists text,
                    tbody (EntregaArticulos.doc
                             (EntregaArticulos.limpiarArticulosSolicitud s))
                    = Some [EntregaArticulos.placeholder 20 text]).
  { destruct s as [cat c es d al er dp sub asg].
    destruct d as [tb dj ba inf dat bod]. cbn in H. subst tb.
    destruct ba, inf; (split; [reflexivity|eexists; reflexivity]). }
  destruct Hs as [Hs Htext].
  split; [|split; [|split; [exact Htext|split; [|split; [|split]]]]];
    try exact (validar_sin_articulos _ Hs);
    destruct s as [cat c es d al er dp sub asg];
    destruct d as [tb dj ba inf dat bod]; cbn in H; subst tb;
    destruct ba, inf; reflexivity.
Qed.

Lemma limpiarArticulosSolicitud_deja_vacio_witness :
  let s := Escenarios.fila_vinculada "7" in
  let s1 := EntregaArticulos.limpiarArticulosSolicitud s in
  (exists rows, tbody (EntregaArticulos.doc s) = Some rows
                /\ ids_de_filas rows = ["fila_0"])
  /\ EntregaArticulos.esSolicitud s = true
  /\ EntregaArticulos.esSolicitud s1 = false
  /\ EntregaArticulos.contadorFilas s1 = 0
  /\ ids_de_filas (filas (EntregaArticulos.doc s1)) = []
  /\ btnAgregar (EntregaArticulos.doc s1) = Some false.
Proof.
  cbv zeta.
  assert (Ht : tbody (EntregaArticulos.doc (Escenarios.fila_vinculada "7"))
               = Some (filas (EntregaArticulos.doc (Escenarios.fila_vinculada "7"))))
    by (vm_compute; reflexivity).
  destruct (limpiarArticulosSolicitud_deja_vacio _ _ Ht)
    as (H1 & H2 & [text H3] & H4 & _).
  split; [eexists; split; [exact Ht|vm_compute; reflexivity]|].
  split; [vm_compute; reflexivity|]. split; [exact H1|]. split; [exact H2|].
  split; [unfold filas; rewrite H3; reflexivity|].
  rewrite H4. vm_compute. reflexivity.
Defined.

(** X9.  A successful response with an empty list of lines: the form is
    in linked mode, the table shows only the row saying the request has
    no articles, the counter is as before, no message is shown and the
    add button (when there) is disabled.  A submit right after is
    rejected for lack of articles. *)
Theorem cargar_solicitud_sin_lineas
    (solicitudId : string) (s : EntregaArticulos.state)
    (data : EntregaArticulos.respuesta) (sol : EntregaArticulos.solicitud)
    (rows : list row)
    (Hok : truthy (EntregaArticulos.success data) = true)
    (Hsol : EntregaArticulos.r_solicitud data = Some sol)
    (Hart : EntregaArticulos.r_articulos data = Some [])
    (Ht : tbody (EntregaArticulos.doc s) = Some rows) :
  let s' := EntregaArticulos.cargarArticulosSolicitud
              solicitudId (EntregaArticulos.Resolves data) s in
  EntregaArticulos.esSolicitud s' = true
  /\ EntregaArticulos.contadorFilas s' = EntregaArticulos.contadorFilas s
  /\ tbody (EntregaArticulos.doc s')
     = Some [EntregaArticulos.placeholder 24 "No hay artículos en esta solicitud."]
  /\ EntregaArticulos.alerts s' = EntregaArticulos.alerts s
  /\ btnAgregar (EntregaArticulos.doc s')
     = option_map (fun _ => true) (btnAgregar (EntregaArticulos.doc s))
  /\ EntregaArticulos.validarYEnviarFormulario s'
     = (EntregaArticulos.alert "Debe agregar al menos un artículo a la entrega."
          (EntregaArticulos.preventDefault s'), Some false).
Proof.
  cbv zeta.
  assert (Hall :
    let s' := EntregaArticulos.cargarArticulosSolicitud
                solicitudId (EntregaArticulos.Resolves data) s in
    EntregaArticulos.esSolicitud s' = true
    /\ EntregaArticulos.contadorFilas s' = EntregaArticulos.contadorFilas s
    /\ tbody (EntregaArticulos.doc s')
       = Some [EntregaArticulos.placeholder 24 "No hay artículos en esta solicitud."]
    /\ EntregaArticulos.alerts s' = EntregaArticulos.alerts s
    /\ btnAgregar (EntregaArticulos.doc s')
       = option_map (fun _ => true) (btnAgregar (EntregaArticulos.doc s))).
  { cbv zeta.
    destruct s as [cat c es d al er dp sub asg].
    destruct d as [tb dj ba inf dat bod]. cbn in Ht. subst tb.
    unfold EntregaArticulos.cargarArticulosSolicitud, EntregaArticulos.try_catch,
      EntregaArticulos.mostrarInfoSolicitud, EntregaArticulos.cargarArticulosEnTabla,
      EntregaArticulos.bind, EntregaArticulos.effect, EntregaArticulos.get,
      EntregaArticulos.ret, EntregaArticulos.set_btnAgregar,
      EntregaArticulos.set_bodega_origen.
    rewrite Hok, Hsol, Hart.
    destruct ba, inf, dat, bod, (truthy (EntregaArticulos.bodega_origen_id sol));
      repeat split; reflexivity. }
  cbv zeta in Hall. destruct Hall as (H1 & H2 & H3 & H4 & H5).
  repeat (split; [assumption|]).
  apply validar_sin_articulos. unfold EntregaArticulos.sin_articulos.
  rewrite H3. reflexivity.
Qed.

Lemma cargar_solicitud_sin_lineas_witness :
  let s := Escenarios.dos_filas_manuales in
  let s' := EntregaArticulos.cargarArticulosSolicitud "4"
              (EntregaArticulos.Resolves respuesta_sin_lineas) s in
  (truthy (EntregaArticulos.success respuesta_sin_lineas) = true
   /\ EntregaArticulos.r_articulos respuesta_sin_lineas = Some []
   /\ ids_de_filas (filas (EntregaArticulos.doc s)) = ["fila_0"; "fila_1"])
  /\ EntregaArticulos.esSolicitud s' = true
  /\ ids_de_filas (filas (EntregaArticulos.doc s')) = []
  /\ EntregaArticulos.contadorFilas s' = 2
  /\ snd (EntregaArticulos.validarYEnviarFormulario s') = Some false.
Proof.
  cbv zeta.
  assert (Ht : tbody (EntregaArticulos.doc Escenarios.dos_filas_manuales)
               = Some (filas (EntregaArticulos.doc Escenarios.dos_filas_manuales)))
    by (vm_compute; reflexivity).
  destruct (cargar_solicitud_sin_lineas "4" Escenarios.dos_filas_manuales
              respuesta_sin_lineas Escenarios.solicitud_script _
              eq_refl eq_refl eq_refl Ht) as (H1 & H2 & H3 & _ & _ & H6).
  split; [repeat split; vm_compute; reflexivity|].
  split; [exact H1|]. split; [unfold filas; rewrite H3; reflexivity|].
  split; [rewrite H2; vm_compute; reflexivity|].
  rewrite H6. reflexivity.
Defined.

(** X10.  A response marked successful that lacks [solicitud] or
    [articulos] ends in the catch: the generic error message is shown and
    logged.  By then the form has been put in linked mode, and stays so.
    When it is [articulos] that is missing and [solicitud] is there, the
    table body has been emptied, with no empty-state row, and the add
    button has not been disabled. *)
Theorem cargar_respuesta_incompleta
    (solicitudId : string) (s : EntregaArticulos.state)
    (data : EntregaArticulos.respuesta)
    (Hok : truthy (EntregaArticulos.success data) = true)
    (Hfalta : EntregaArticulos.r_solicitud data = None
              \/ EntregaArticulos.r_articulos data = None)
    (Hanclas : tbody (EntregaArticulos.doc s) <> None
               /\ infoSolicitud (EntregaArticulos.doc s) <> None
               /\ datosSolicitud (EntregaArticulos.doc s) <> None) :
  let s' := EntregaArticulos.cargarArticulosSolicitud
              solicitudId (EntregaArticulos.Resolves data) s in
  EntregaArticulos.esSolicitud s' = true
  /\ EntregaArticulos.alerts s'
     = (EntregaArticulos.alerts s
        ++ ["Error al cargar artículos de la solicitud."])%list
  /\ EntregaArticulos.errors_logged s' = S (EntregaArticulos.errors_logged s)
  /\ EntregaArticulos.contadorFilas s' = EntregaArticulos.contadorFilas s
  /\ btnAgregar (EntregaArticulos.doc s') = btnAgregar (EntregaArticulos.doc s)
  /\ (EntregaArticulos.r_solicitud data = None ->
      EntregaArticulos.doc s' = EntregaArticulos.doc s)
  /\ (EntregaArticulos.r_solicitud data <> None ->
      tbody (EntregaArticulos.doc s') = Some []).
Proof.
  cbv zeta.
  destruct s as [cat c es d al er dp sub asg].
  destruct d as [tb dj ba inf dat bod].
  cbn in Hanclas. destruct Hanclas as (Htb & Hinf & Hdat).
  destruct tb as [rows|]; [|contradiction Htb; reflexivity].
  destruct inf as [i0|]; [|contradiction Hinf; reflexivity].
  destruct dat as [d0|]; [|contradiction Hdat; reflexivity].
  unfold EntregaArticulos.cargarArticulosSolicitud, EntregaArticulos.try_catch,
    EntregaArticulos.mostrarInfoSolicitud, EntregaArticulos.cargarArticulosEnTabla,
    EntregaArticulos.bind, EntregaArticulos.effect, EntregaArticulos.get,
    EntregaArticulos.ret, EntregaArticulos.throw.
  rewrite Hok.
  destruct (EntregaArticulos.r_solicitud data) as [sol|] eqn:Hsol.
  - destruct Hfalta as [Hf|Hf]; [discriminate|]. rewrite Hf.
    cbn. repeat split; try reflexivity. intros Hx. discriminate Hx.
  - cbn. repeat split; try reflexivity. intros Hne. contradiction Hne. reflexivity.
Qed.

Lemma cargar_respuesta_incompleta_witness :
  let s := Escenarios.dos_filas_manuales in
  let s' := EntregaArticulos.cargarArticulosSolicitud "4"
              (EntregaArticulos.Resolves respuesta_sin_lista) s in
  (truthy (EntregaArticulos.success respuesta_sin_lista) = true
   /\ EntregaArticulos.r_articulos respuesta_sin_lista = None
   /\ ids_de_filas (filas (EntregaArticulos.doc s)) = ["fila_0"; "fila_1"])
  /\ EntregaArticulos.esSolicitud s' = true
  /\ EntregaArticulos.alerts s' = ["Error al cargar artículos de la solicitud."]
  /\ tbody (EntregaArticulos.doc s') = Some []
  /\ btnAgregar (EntregaArticulos.doc s') = Some false.
Proof.
  cbv zeta.
  assert (Ha : tbody (EntregaArticulos.doc Escenarios.dos_filas_manuales) <> None
               /\ infoSolicitud (EntregaArticulos.doc Escenarios.dos_filas_manuales)
                  <> None
               /\ datosSolicitud (EntregaArticulos.doc Escenarios.dos_filas_manuales)
                  <> None)
    by (repeat split; vm_compute; discriminate).
  destruct (cargar_respuesta_incompleta "4" Escenarios.dos_filas_manuales
              respuesta_sin_lista eq_refl (or_intror eq_refl) Ha)
    as (H1 & H2 & _ & _ & H5 & _ & H7).
  split; [repeat split; vm_compute; reflexivity|].
  split; [exact H1|]. split; [rewrite H2; vm_compute; reflexivity|].
  split; [apply H7; vm_compute; discriminate|].
  rewrite H5. vm_compute. reflexivity.
Defined.

(** ** Rows the loop passes over *)

Section Skipped.
Import EntregaArticulos.

(** A row that is not well formed, or is not there, is passed over. *)
Lemma fila_omitida (i : Z) (detalles : list object) (s : state) :
  bien_formada s i = false -> fila i detalles s = (s, Some (Next detalles)).
Proof.
  unfold bien_formada, existe, fila, bind, get, ret. cbv beta iota.
  destruct (getElementById (doc s) (idn "fila_" i)); [|reflexivity].
  destruct (getElementById (doc s) (idn "cantidad_" i)); [|reflexivity].
  destruct (esSolicitud s); [|discriminate].
  destruct (getElementById (doc s) (idn "articulo_" i)); [|reflexivity].
  destruct (getElementById (doc s) (idn "detalle_solicitud_" i));
    [discriminate|reflexivity].
Qed.

Lemma recorrer_omitidas (n : nat) (i : Z) (detalles : list object) (s : state) :
  Forall (fun j => bien_formada s j = false) (indices_desde i n) ->
  recorrer n i detalles s = (s, Some (Next detalles)).
Proof.
  revert i. induction n as [|n IH]; intros i H; [reflexivity|].
  cbn [indices_desde] in H. inversion H as [|? ? Hi Hr]; subst.
  cbn [recorrer]. unfold bind at 1. rewrite (fila_omitida _ _ _ Hi).
  exact (IH _ Hr).
Qed.

End Skipped.

(** X8.  In linked mode, when the table is not empty but no element
    [detalle_solicitud_<i>] is in it (the rows were added by hand), every
    row is passed over without a message: the handler writes the empty
    list [[]] to [#detallesJson], submits the form and returns true. *)
Theorem envio_sin_registros
    (s : EntregaArticulos.state)
    (Hne : EntregaArticulos.sin_articulos (EntregaArticulos.doc s) = false)
    (Hlinked : EntregaArticulos.esSolicitud s = true)
    (Hsin : forall i, existe (EntregaArticulos.doc s)
                             (EntregaArticulos.idn "detalle_solicitud_" i) = false) :
  EntregaArticulos.validarYEnviarFormulario s
  = (EntregaArticulos.submit
       (EntregaArticulos.set_detallesJson "[]" (EntregaArticulos.preventDefault s)),
     Some true).
Proof.
  unfold EntregaArticulos.validarYEnviarFormulario, EntregaArticulos.bind,
    EntregaArticulos.effect, EntregaArticulos.get, EntregaArticulos.ret.
  cbv beta iota.
  change (EntregaArticulos.doc (EntregaArticulos.preventDefault s))
    with (EntregaArticulos.doc s).
  rewrite Hne.
  change (EntregaArticulos.contadorFilas (EntregaArticulos.preventDefault s))
    with (EntregaArticulos.contadorFilas s).
  rewrite recorrer_omitidas; [reflexivity|].
  apply Forall_forall. intros j _.
  unfold bien_formada.
  change (EntregaArticulos.doc (EntregaArticulos.preventDefault s))
    with (EntregaArticulos.doc s).
  change (EntregaArticulos.esSolicitud (EntregaArticulos.preventDefault s))
    with (EntregaArticulos.esSolicitud s).
  rewrite Hlinked, (Hsin j). cbn [negb orb]. rewrite !andb_false_r. reflexivity.
Qed.

Lemma envio_sin_registros_witness :
  let s := fila_manual_tras_respuesta_sin_lista in
  let r := EntregaArticulos.validarYEnviarFormulario s in
  (EntregaArticulos.sin_articulos (EntregaArticulos.doc s) = false
   /\ EntregaArticulos.esSolicitud s = true
   /\ ids_de_filas (filas (EntregaArticulos.doc s)) = ["fila_0"]
   /\ valor (getElementById (EntregaArticulos.doc s) "articulo_0") = Some "5"
   /\ valor (getElementById (EntregaArticulos.doc s) "cantidad_0") = Some "3")
  /\ snd r = Some true
  /\ EntregaArticulos.alerts (fst r) = ["Error al cargar artículos de la solicitud."]
  /\ EntregaArticulos.submitted (fst r) = 1%nat
  /\ detallesJson (EntregaArticulos.doc (fst r)) = Some "[]".
Proof.
  cbv zeta.
  assert (Hne : EntregaArticulos.sin_articulos
                  (EntregaArticulos.doc fila_manual_tras_respuesta_sin_lista) = false)
    by (vm_compute; reflexivity).
  assert (Hl : EntregaArticulos.esSolicitud fila_manual_tras_respuesta_sin_lista = true)
    by (vm_compute; reflexivity).
  assert (Hsin : forall i,
             existe (EntregaArticulos.doc fila_manual_tras_respuesta_sin_lista)
                    (EntregaArticulos.idn "detalle_solicitud_" i) = false).
  { intros i. vm_compute. reflexivity. }
  rewrite (envio_sin_registros _ Hne Hl Hsin). cbn [fst snd].
  split; [repeat split; vm_compute; reflexivity|].
  repeat split; vm_compute; reflexivity.
Defined.

(** ** Removing rows *)

Section Removal.

Lemma find_app_None {A : Type} (f : A -> bool) (a b : list A) :
  find f (a ++ b) = None -> find f a = None /\ find f b = None.
Proof.
  induction a as [|x a IH]; simpl; intros H; [auto|].
  destruct (f x); [discriminate|auto].
Qed.

Lemma remove_element_None (id : string) (l : list element) :
  find (has_id id) l = None -> remove_element id l = None.
Proof.
  induction l as [|e l IH]; simpl; intros H; [reflexivity|].
  destruct (has_id id e); [discriminate|]. rewrite (IH H). reflexivity.
Qed.

Lemma remove_in_cells_None (id : string) (cs : list cell) :
  find (has_id id) (flat_map cell_children cs) = None -> remove_in_cells id cs = None.
Proof.
  induction cs as [|c cs IH]; simpl; intros H; [reflexivity|].
  apply find_app_None in H as [H1 H2].
  rewrite (remove_element_None _ _ H1), (IH H2). reflexivity.
Qed.

Lemma find_by_id_None (id : string) (r : row) (rest : list row) :
  find_by_id id (r :: rest) = None ->
  row_has_id id r = false
  /\ find (has_id id) (row_elements r) = None
  /\ find_by_id id rest = None.
Proof.
  cbn [find_by_id]. destruct (row_has_id id r); [discriminate|].
  destruct (find (has_id id) (row_elements r)); [discriminate|]. auto.
Qed.

(** No node under the id: nothing to remove. *)
Lemma remove_node_None (id : string) (rows : list row) :
  find_by_id id rows = None -> remove_node id rows = None.
Proof.
  induction rows as [|r rest IH]; intros H; [reflexivity|].
  apply find_by_id_None in H as (H1 & H2 & H3).
  cbn [remove_node]. rewrite H1.
  unfold row_elements in H2. rewrite (remove_in_cells_None _ _ H2), (IH H3).
  reflexivity.
Qed.

(** The row under the id is the last one, and no node before it carries
    the id: removing gives the rows before. *)
Lemma remove_node_ultima (id : string) (rows : list row) (r : row) :
  find_by_id id rows = None -> row_has_id id r = true ->
  remove_node id (rows ++ [r]) = Some rows.
Proof.
  intros H Hr. induction rows as [|r0 rest IH]; cbn [app remove_node].
  - rewrite Hr. reflexivity.
  - apply find_by_id_None in H as (H1 & H2 & H3).
    rewrite H1. unfold row_elements in H2.
    rewrite (remove_in_cells_None _ _ H2), (IH H3). reflexivity.
Qed.

Lemma tbody_mismo (s : EntregaArticulos.state) (rows : list row) :
  tbody (EntregaArticulos.doc s) = Some rows ->
  EntregaArticulos.with_doc (set_tbody (EntregaArticulos.doc s) (Some rows)) s = s.
Proof.
  destruct s as [cat c es d al er dp sub asg].
  destruct d as [tb dj ba inf dat bod]. cbn. intros ->. reflexivity.
Qed.

Lemma tbody_mismo_bienes (s : EntregaBienes.state) (rows : list row) :
  tbody (EntregaBienes.doc s) = Some rows ->
  EntregaBienes.with_doc (set_tbody (EntregaBienes.doc s) (Some rows)) s = s.
Proof.
  destruct s as [cat c d al dp sub].
  destruct d as [tb dj ba inf dat bod]. cbn. intros ->. reflexivity.
Qed.

Lemma length_no_vacia {A : Type} (l : list A) :
  l <> [] -> Nat.eqb (List.length l) 0 = false.
Proof. destruct l; [intros H; contradiction H; reflexivity|reflexivity]. Qed.

End Removal.

(** X11.  [eliminarFila] with an id no node of the table carries, the
    table holding at least one row: on either form the state is left
    exactly as it was. *)
Theorem eliminarFila_id_desconocido :
  (forall (s : EntregaArticulos.state) (k : Z) (rows : list row),
      tbody (EntregaArticulos.doc s) = Some rows ->
      rows <> [] ->
      getElementById (EntregaArticulos.doc s) (EntregaArticulos.idn "fila_" k) = None ->
      EntregaArticulos.eliminarFila k s = s)
  /\ (forall (s : EntregaBienes.state) (k : Z) (rows : list row),
         tbody (EntregaBienes.doc s) = Some rows ->
         rows <> [] ->
         getElementById (EntregaBienes.doc s) (EntregaBienes.idn "fila_" k) = None ->
         EntregaBienes.eliminarFila k s = s).
Proof.
  split; intros s k rows Ht Hne Hno; unfold getElementById in Hno; rewrite Ht in Hno.
  - unfold EntregaArticulos.eliminarFila. rewrite Ht.
    rewrite (remove_node_None _ _ Hno), (length_no_vacia _ Hne).
    apply tbody_mismo, Ht.
  - unfold EntregaBienes.eliminarFila. rewrite Ht.
    rewrite (remove_node_None _ _ Hno), (length_no_vacia _ Hne).
    apply tbody_mismo_bienes, Ht.
Qed.

Lemma eliminarFila_id_desconocido_witness :
  let s := Escenarios.dos_filas_manuales in
  let b := Escenarios.un_bien "1" in
  (getElementById (EntregaArticulos.doc s) (EntregaArticulos.idn "fila_" 7) = None
   /\ getElementById (EntregaBienes.doc b) (EntregaBienes.idn "fila_" 7) = None)
  /\ EntregaArticulos.eliminarFila 7 s = s
  /\ EntregaBienes.eliminarFila 7 b = b.
Proof.
  cbv zeta.
  assert (H1 : getElementById (EntregaArticulos.doc Escenarios.dos_filas_manuales)
                              (EntregaArticulos.idn "fila_" 7) = None)
    by (vm_compute; reflexivity).
  assert (H2 : getElementById (EntregaBienes.doc (Escenarios.un_bien "1"))
                              (EntregaBienes.idn "fila_" 7) = None)
    by (vm_compute; reflexivity).
  destruct eliminarFila_id_desconocido as [Ha Hb].
  split; [split; assumption|]. split.
  - apply (Ha _ 7 (filas (EntregaArticulos.doc Escenarios.dos_filas_manuales)));
      [vm_compute; reflexivity|vm_compute; discriminate|exact H1].
  - apply (Hb _ 7 (filas (EntregaBienes.doc (Escenarios.un_bien "1"))));
      [vm_compute; reflexivity|vm_compute; discriminate|exact H2].
Defined.

(** X12.  Adding a manual row and removing it at once, no node carrying
    the new row's id beforehand.  When the table held rows, it holds the
    same rows again and only the counter has moved on by one.  When the
    table was empty or showed the empty-state row, it shows the
    empty-state row and the counter is back at 0.  Either way the id was
    given out. *)
Theorem agregar_y_eliminar
    (s : EntregaArticulos.state) (rows : list row)
    (Ht : tbody (EntregaArticulos.doc s) = Some rows)
    (Hfresh : getElementById (EntregaArticulos.doc s)
                (EntregaArticulos.idn "fila_" (EntregaArticulos.contadorFilas s))
              = None) :
  let s2 := EntregaArticulos.eliminarFila (EntregaArticulos.contadorFilas s)
              (EntregaArticulos.agregarArticulo s) in
  (EntregaArticulos.is_placeholder rows = false -> rows <> [] ->
   tbody (EntregaArticulos.doc s2) = Some rows
   /\ EntregaArticulos.contadorFilas s2 = EntregaArticulos.contadorFilas s + 1)
  /\ (EntregaArticulos.is_placeholder rows = true \/ rows = [] ->
      (exists text, tbody (EntregaArticulos.doc s2)
                    = Some [EntregaArticulos.placeholder 20 text])
      /\ EntregaArticulos.contadorFilas s2 = 0)
  /\ EntregaArticulos.asignados s2
     = (EntregaArticulos.asignados s ++ [EntregaArticulos.contadorFilas s])%list.
Proof.
  cbv zeta.
  assert (Hid : forall c, row_has_id (EntregaArticulos.idn "fila_" c)
                  {| row_id := Some (EntregaArticulos.idn "fila_" c); cells := [] |}
                = true).
  { intros c. unfold row_has_id. cbn [row_id]. apply String.eqb_refl. }
  destruct s as [cat c es d al er dp sub asg].
  destruct d as [tb dj ba inf dat bod]. cbn in Ht, Hfresh. subst tb.
  unfold getElementById in Hfresh. cbn [tbody] in Hfresh.
  unfold EntregaArticulos.eliminarFila, EntregaArticulos.agregarArticulo,
    EntregaArticulos.insertRow.
  cbn [EntregaArticulos.doc EntregaArticulos.contadorFilas tbody
       EntregaArticulos.with_doc set_tbody EntregaArticulos.with_contadorFilas
       EntregaArticulos.with_asignado EntregaArticulos.asignados].
  destruct (EntregaArticulos.is_placeholder rows) eqn:Ep.
  - cbn [EntregaArticulos.doc EntregaArticulos.contadorFilas tbody
         EntregaArticulos.with_doc set_tbody EntregaArticulos.with_contadorFilas
         EntregaArticulos.with_asignado EntregaArticulos.asignados app].
    cbn [remove_node row_has_id row_id]. rewrite String.eqb_refl.
    cbn. split; [discriminate|]. split; [|reflexivity].
    intros _. split; [eexists; reflexivity|reflexivity].
  - cbn [EntregaArticulos.doc EntregaArticulos.contadorFilas tbody
         EntregaArticulos.with_doc set_tbody EntregaArticulos.with_contadorFilas
         EntregaArticulos.with_asignado EntregaArticulos.asignados].
    rewrite remove_node_ultima;
      [|exact Hfresh|unfold row_has_id; cbn [row_id]; apply String.eqb_refl].
    destruct rows as [|r0 rest].
    + cbn. split; [intros _ Hne; contradiction Hne; reflexivity|].
      split; [|reflexivity]. intros _. split; [eexists; reflexivity|reflexivity].
    + cbn. split; [intros _ _; split; reflexivity|].
      split; [|reflexivity]. intros [Hx|Hx]; discriminate.
Qed.

Lemma agregar_y_eliminar_witness :
  let s := Escenarios.dos_filas_manuales in
  let s2 := EntregaArticulos.eliminarFila 2 (EntregaArticulos.agregarArticulo s) in
  (getElementById (EntregaArticulos.doc s) (EntregaArticulos.idn "fila_" 2) = None
   /\ EntregaArticulos.contadorFilas s = 2)
  /\ tbody (EntregaArticulos.doc s2) = tbody (EntregaArticulos.doc s)
  /\ EntregaArticulos.contadorFilas s2 = 3.
Proof.
  cbv zeta.
  assert (Ht : tbody (EntregaArticulos.doc Escenarios.dos_filas_manuales)
               = Some (filas (EntregaArticulos.doc Escenarios.dos_filas_manuales)))
    by (vm_compute; reflexivity).
  assert (Hf : getElementById (EntregaArticulos.doc Escenarios.dos_filas_manuales)
                 (EntregaArticulos.idn "fila_"
                    (EntregaArticulos.contadorFilas Escenarios.dos_filas_manuales))
               = None) by (vm_compute; reflexivity).
  destruct (agregar_y_eliminar _ _ Ht Hf) as (H & _ & _).
  destruct H as [H1 H2]; [vm_compute; reflexivity|vm_compute; discriminate|].
  split; [split; [exact Hf|reflexivity]|].
  split; [rewrite Ht; exact H1|exact H2].
Defined.

(** ** Loading the lines of a request *)

Section RequestRows.

Lemma idn_eqb (p : string) (a b : Z) :
  (EntregaArticulos.idn p a =? EntregaArticulos.idn p b)%string = (a =? b).
Proof.
  destruct (Z.eqb_spec a b) as [->|Hne].
  - apply String.eqb_refl.
  - apply String.eqb_neq. intros H. apply Hne. exact (idn_inj _ _ _ H).
Qed.




Lemma idn_distinto (p q : string) (a b : Z) :
  (exists x y p' q', p = String x p' /\ q = String y q' /\ Ascii.eqb x y = false) ->
  (EntregaArticulos.idn p a =? EntregaArticulos.idn q b)%string = false.
Proof.
  intros (x & y & p' & q' & -> & -> & H).
  unfold EntregaArticulos.idn. cbn [append String.eqb]. rewrite H. reflexivity.
Qed.


Lemma has_id_cantidad (id : string) (c : Z) (a : option EntregaArticulos.linea) :
  has_id id (EntregaArticulos.crearInputCantidad c a)
  = (EntregaArticulos.idn "cantidad_" c =? id)%string.
Proof. destruct a; reflexivity. Qed.

Lemma has_id_lote (id : string) (c : Z) :
  has_id id (EntregaArticulos.crearInputLote c)
  = (EntregaArticulos.idn "lote_" c =? id)%string.
Proof. reflexivity. Qed.













End RequestRows.



(** ** A row just added *)

Section NewRow.

Lemma find_by_id_app (id : string) (a b : list row) :
  find_by_id id (a ++ b)
  = match find_by_id id a with
    | Some e => Some e
    | None => find_by_id id b
    end.
Proof.
  induction a as [|r a IH]; [reflexivity|].
  cbn [app find_by_id]. destruct (row_has_id id r); [reflexivity|].
  destruct (find (has_id id) (row_elements r)); [reflexivity|]. exact IH.
Qed.

Lemma agregarArticulo_tabla (s : EntregaArticulos.state) (rows : list row) :
  tbody (EntregaArticulos.doc s) = Some rows ->
  let s' := EntregaArticulos.agregarArticulo s in
  tbody (EntregaArticulos.doc s')
  = Some ((if EntregaArticulos.is_placeholder rows then [] else rows)
          ++ [fila_manual (EntregaArticulos.contadorFilas s) s])%list
  /\ EntregaArticulos.esSolicitud s' = EntregaArticulos.esSolicitud s
  /\ EntregaArticulos.contadorFilas s' = EntregaArticulos.contadorFilas s + 1
  /\ EntregaArticulos.alerts s' = EntregaArticulos.alerts s.
Proof.
  destruct s as [cat c es d al er dp sub asg].
  destruct d as [tb dj ba inf dat bod]. cbn. intros ->.
  unfold EntregaArticulos.agregarArticulo, EntregaArticulos.insertRow. cbn.
  destruct (EntregaArticulos.is_placeholder rows); cbn; repeat split; reflexivity.
Qed.

Lemma agregarBien_tabla (s : EntregaBienes.state) (rows : list row) :
  tbody (EntregaBienes.doc s) = Some rows ->
  let s' := EntregaBienes.agregarBien s in
  tbody (EntregaBienes.doc s')
  = Some ((if EntregaBienes.is_placeholder rows then [] else rows)
          ++ [fila_bien (EntregaBienes.contadorFilas s) s])%list
  /\ EntregaBienes.contadorFilas s' = EntregaBienes.contadorFilas s + 1
  /\ EntregaBienes.alerts s' = EntregaBienes.alerts s.
Proof.
  destruct s as [cat c d al dp sub].
  destruct d as [tb dj ba inf dat bod]. cbn. intros ->.
  unfold EntregaBienes.agregarBien. cbn.
  destruct (EntregaBienes.is_placeholder rows); cbn; repeat split; reflexivity.
Qed.

Lemma idn_bienes (p : string) (n : Z) : EntregaBienes.idn p n = EntregaArticulos.idn p n.
Proof. reflexivity. Qed.

(** The ids of the new manual row lead to its controls. *)
Lemma buscar_en_fila_manual (c : Z) (s : EntregaArticulos.state) :
  let E := EntregaArticulos.idn in
  find_by_id (E "fila_" c) [fila_manual c s]
  = Some {| attrs := [("id", E "fila_" c)]; content := Markup "" |}
  /\ find_by_id (E "articulo_" c) [fila_manual c s]
     = Some (EntregaArticulos.crearSelectArticulo c s)
  /\ find_by_id (E "cantidad_" c) [fila_manual c s]
     = Some (EntregaArticulos.crearInputCantidad c None)
  /\ find_by_id (E "lote_" c) [fila_manual c s]
     = Some (EntregaArticulos.crearInputLote c).
Proof.
  cbv zeta.
  assert (Hd : forall p q u v,
             (exists x y p' q', p = String x p' /\ q = String y q'
                                /\ Ascii.eqb x y = false) ->
             (EntregaArticulos.idn p u =? EntregaArticulos.idn q v)%string = false)
    by (intros; apply idn_distinto; assumption).
  assert (Hsel : forall id, has_id id (EntregaArticulos.crearSelectArticulo c s)
                            = (EntregaArticulos.idn "articulo_" c =? id)%string)
    by reflexivity.
  assert (Hst : forall id cnt,
             has_id id {| attrs := [("id", EntregaArticulos.idn "stock_" c);
                                    ("class", "text-muted")];
                          content := cnt |}
             = (EntregaArticulos.idn "stock_" c =? id)%string) by reflexivity.
  unfold fila_manual.
  cbn [find_by_id row_has_id row_id row_elements cells flat_map cell_children app find].
  rewrite !Hsel, !Hst, !has_id_cantidad, !has_id_lote.
  repeat split.
  all: repeat first
         [ rewrite idn_eqb, Z.eqb_refl
         | rewrite Hd by (do 4 eexists; repeat split; reflexivity) ].
  all: reflexivity.
Qed.

(** The ids of the new goods row lead to its controls. *)
Lemma buscar_en_fila_bien (c : Z) (s : EntregaBienes.state) :
  let E := EntregaBienes.idn in
  find_by_id (E "fila_" c) [fila_bien c s]
  = Some {| attrs := [("id", E "fila_" c)]; content := Markup "" |}
  /\ find_by_id (E "activo_" c) [fila_bien c s]
     = Some (EntregaBienes.crearSelectActivo c s)
  /\ find_by_id (E "cantidad_" c) [fila_bien c s]
     = Some (EntregaBienes.crearInputCantidad c)
  /\ find_by_id (E "serie_" c) [fila_bien c s]
     = Some (EntregaBienes.crearInputSerie c)
  /\ find_by_id (E "estado_fisico_" c) [fila_bien c s]
     = Some (EntregaBienes.crearSelectEstado c).
Proof.
  cbv zeta.
  assert (Hd : forall p q u v,
             (exists x y p' q', p = String x p' /\ q = String y q'
                                /\ Ascii.eqb x y = false) ->
             (EntregaArticulos.idn p u =? EntregaArticulos.idn q v)%string = false)
    by (intros; apply idn_distinto; assumption).
  assert (Hsel : forall id, has_id id (EntregaBienes.crearSelectActivo c s)
                            = (EntregaArticulos.idn "activo_" c =? id)%string)
    by reflexivity.
  assert (Hcan : forall id, has_id id (EntregaBienes.crearInputCantidad c)
                            = (EntregaArticulos.idn "cantidad_" c =? id)%string)
    by reflexivity.
  assert (Hser : forall id, has_id id (EntregaBienes.crearInputSerie c)
                            = (EntregaArticulos.idn "serie_" c =? id)%string)
    by reflexivity.
  assert (Hest : forall id, has_id id (EntregaBienes.crearSelectEstado c)
                            = (EntregaArticulos.idn "estado_fisico_" c =? id)%string)
    by reflexivity.
  assert (Hbot : forall id, has_id id (EntregaBienes.crearBotonEliminar c) = false)
    by reflexivity.
  unfold fila_bien.
  cbn [find_by_id row_has_id row_id row_elements cells flat_map cell_children app find].
  rewrite !Hsel, !Hcan, !Hser, !Hest, ?Hbot, !idn_bienes.
  repeat split.
  all: repeat first
         [ rewrite idn_eqb, Z.eqb_refl
         | rewrite Hd by (do 4 eexists; repeat split; reflexivity) ].
  all: reflexivity.
Qed.

End NewRow.

(** X14.  [agregarArticulo] on a table in which no node carries the ids
    of the row to come.  Afterwards those ids lead to the controls just
    built: the article select, the empty quantity input and the empty
    lot input.  Unless the table showed the empty-state row, every id
    that led to an element still leads to the same element.  In manual
    mode the new row, with no article chosen yet, is rejected by the
    submit loop with the selection message. *)
Theorem fila_manual_recien_agregada
    (s : EntregaArticulos.state) (rows : list row)
    (Ht : tbody (EntregaArticulos.doc s) = Some rows)
    (Hfresh : Forall (fun p => getElementById (EntregaArticulos.doc s)
                                 (EntregaArticulos.idn p (EntregaArticulos.contadorFilas s))
                               = None)
                     ["fila_"; "articulo_"; "cantidad_"; "lote_"]) :
  let E := EntregaArticulos.idn in
  let c := EntregaArticulos.contadorFilas s in
  let s' := EntregaArticulos.agregarArticulo s in
  let d' := EntregaArticulos.doc s' in
  (getElementById d' (E "articulo_" c) = Some (EntregaArticulos.crearSelectArticulo c s)
   /\ getElementById d' (E "cantidad_" c)
      = Some (EntregaArticulos.crearInputCantidad c None)
   /\ getElementById d' (E "lote_" c) = Some (EntregaArticulos.crearInputLote c))
  /\ (EntregaArticulos.is_placeholder rows = false ->
      forall id e, getElementById (EntregaArticulos.doc s) id = Some e ->
                   getElementById d' id = Some e)
  /\ (EntregaArticulos.esSolicitud s = false ->
      forall detalles,
        EntregaArticulos.fila c detalles s'
        = (EntregaArticulos.alert "Seleccione un artículo en todas las filas." s',
           Some EntregaArticulos.ReturnFalse)).
Proof.
  cbv zeta.
  destruct (agregarArticulo_tabla s rows Ht) as (Ht' & Hes & _ & _).
  cbv zeta in Ht', Hes.
  set (s' := EntregaArticulos.agregarArticulo s) in *.
  set (c := EntregaArticulos.contadorFilas s) in *.
  destruct (buscar_en_fila_manual c s) as (B1 & B2 & B3 & B4). cbv zeta in B1, B2, B3, B4.
  unfold getElementById in Hfresh. rewrite Ht in Hfresh.
  inversion Hfresh as [|? ? F1 Hf1]; subst.
  inversion Hf1 as [|? ? F2 Hf2]; subst.
  inversion Hf2 as [|? ? F3 Hf3]; subst.
  inversion Hf3 as [|? ? F4 _]; subst.
  assert (G : forall p,
             find_by_id (EntregaArticulos.idn p c) rows = None ->
             getElementById (EntregaArticulos.doc s') (EntregaArticulos.idn p c)
             = find_by_id (EntregaArticulos.idn p c) [fila_manual c s]).
  { intros p Hp. unfold getElementById. rewrite Ht', find_by_id_app.
    destruct (EntregaArticulos.is_placeholder rows); [reflexivity|].
    rewrite Hp. reflexivity. }
  assert (L1 := eq_trans (G _ F1) B1).
  assert (L2 := eq_trans (G _ F2) B2).
  assert (L3 := eq_trans (G _ F3) B3).
  assert (L4 := eq_trans (G _ F4) B4).
  split; [repeat split; assumption|].
  split.
  - intros Hp id e He. unfold getElementById in *. rewrite Ht in He.
    rewrite Ht', Hp, find_by_id_app, He. reflexivity.
  - intros Hm detalles.
    unfold EntregaArticulos.fila, EntregaArticulos.bind, EntregaArticulos.get,
      EntregaArticulos.ret, EntregaArticulos.effect.
    cbv beta iota. rewrite L1, L3, Hes, Hm, L2. reflexivity.
Qed.

Lemma fila_manual_recien_agregada_witness :
  let s := Escenarios.dos_filas_manuales in
  let s' := EntregaArticulos.agregarArticulo s in
  Forall (fun p => getElementById (EntregaArticulos.doc s) (EntregaArticulos.idn p 2) = None)
         ["fila_"; "articulo_"; "cantidad_"; "lote_"]
  /\ getElementById (EntregaArticulos.doc s') "cantidad_2"
     = Some (EntregaArticulos.crearInputCantidad 2 None)
  /\ valor (getElementById (EntregaArticulos.doc s') "cantidad_0") = Some "3"
  /\ EntregaArticulos.fila 2 [] s'
     = (EntregaArticulos.alert "Seleccione un artículo en todas las filas." s',
        Some EntregaArticulos.ReturnFalse).
Proof.
  cbv zeta.
  assert (Hf : Forall (fun p => getElementById
                                  (EntregaArticulos.doc Escenarios.dos_filas_manuales)
                                  (EntregaArticulos.idn p
                                     (EntregaArticulos.contadorFilas
                                        Escenarios.dos_filas_manuales)) = None)
                      ["fila_"; "articulo_"; "cantidad_"; "lote_"])
    by (repeat constructor).
  destruct (fila_manual_recien_agregada Escenarios.dos_filas_manuales
              (filas (EntregaArticulos.doc Escenarios.dos_filas_manuales))
              eq_refl Hf) as ((_ & H2 & _) & H4 & H5).
  split; [exact Hf|]. split; [exact H2|].
  split.
  - erewrite (H4 eq_refl "cantidad_0"); [|vm_compute; reflexivity]. reflexivity.
  - exact (H5 eq_refl []).
Defined.

(** X15.  [agregarBien] on a table in which no node carries the ids of
    the row to come.  Afterwards those ids lead to the controls just
    built: the asset select, the quantity input holding 1, the empty
    serial input and the condition select.  Unless the table showed the
    empty-state row, every id that led to an element still leads to the
    same element.  The new row, with no asset chosen yet, is rejected by
    the submit loop with the asset message. *)
Theorem bien_recien_agregado
    (s : EntregaBienes.state) (rows : list row)
    (Ht : tbody (EntregaBienes.doc s) = Some rows)
    (Hfresh : Forall (fun p => getElementById (EntregaBienes.doc s)
                                 (EntregaBienes.idn p (EntregaBienes.contadorFilas s))
                               = None)
                     ["fila_"; "activo_"; "cantidad_"; "serie_"; "estado_fisico_"]) :
  let E := EntregaBienes.idn in
  let c := EntregaBienes.contadorFilas s in
  let s' := EntregaBienes.agregarBien s in
  let d' := EntregaBienes.doc s' in
  (getElementById d' (E "activo_" c) = Some (EntregaBienes.crearSelectActivo c s)
   /\ getElementById d' (E "cantidad_" c) = Some (EntregaBienes.crearInputCantidad c)
   /\ getElementById d' (E "serie_" c) = Some (EntregaBienes.crearInputSerie c)
   /\ getElementById d' (E "estado_fisico_" c) = Some (EntregaBienes.crearSelectEstado c))
  /\ valor (getElementById d' (E "cantidad_" c)) = Some "1"
  /\ (EntregaBienes.is_placeholder rows = false ->
      forall id e, getElementById (EntregaBienes.doc s) id = Some e ->
                   getElementById d' id = Some e)
  /\ (forall detalles,
        EntregaBienes.fila c detalles s'
        = (EntregaBienes.alert "Seleccione un activo/bien en todas las filas." s',
           EntregaBienes.ReturnFalse)).
Proof.
  cbv zeta.
  destruct (agregarBien_tabla s rows Ht) as (Ht' & _ & _).
  cbv zeta in Ht'.
  set (s' := EntregaBienes.agregarBien s) in *.
  set (c := EntregaBienes.contadorFilas s) in *.
  destruct (buscar_en_fila_bien c s) as (B1 & B2 & B3 & B4 & B5).
  cbv zeta in B1, B2, B3, B4, B5.
  unfold getElementById in Hfresh. rewrite Ht in Hfresh.
  inversion Hfresh as [|? ? F1 Hf1]; subst.
  inversion Hf1 as [|? ? F2 Hf2]; subst.
  inversion Hf2 as [|? ? F3 Hf3]; subst.
  inversion Hf3 as [|? ? F4 Hf4]; subst.
  inversion Hf4 as [|? ? F5 _]; subst.
  assert (G : forall p,
             find_by_id (EntregaBienes.idn p c) rows = None ->
             getElementById (EntregaBienes.doc s') (EntregaBienes.idn p c)
             = find_by_id (EntregaBienes.idn p c) [fila_bien c s]).
  { intros p Hp. unfold getElementById. rewrite Ht', find_by_id_app.
    destruct (EntregaBienes.is_placeholder rows); [reflexivity|].
    rewrite Hp. reflexivity. }
  assert (L1 := eq_trans (G _ F1) B1).
  assert (L2 := eq_trans (G _ F2) B2).
  assert (L3 := eq_trans (G _ F3) B3).
  assert (L4 := eq_trans (G _ F4) B4).
  assert (L5 := eq_trans (G _ F5) B5).
  split; [repeat split; assumption|].
  split; [rewrite L3; reflexivity|].
  split.
  - intros Hp id e He. unfold getElementById in *. rewrite Ht in He.
    rewrite Ht', Hp, find_by_id_app, He. reflexivity.
  - intros detalles. unfold EntregaBienes.fila. cbv zeta.
    rewrite L1, L2. reflexivity.
Qed.

Lemma bien_recien_agregado_witness :
  let s := Escenarios.un_bien "2" in
  let s' := EntregaBienes.agregarBien s in
  Forall (fun p => getElementById (EntregaBienes.doc s) (EntregaBienes.idn p 1) = None)
         ["fila_"; "activo_"; "cantidad_"; "serie_"; "estado_fisico_"]
  /\ valor (getElementById (EntregaBienes.doc s') "cantidad_1") = Some "1"
  /\ valor (getElementById (EntregaBienes.doc s') "cantidad_0") = Some "2"
  /\ EntregaBienes.fila 1 [] s'
     = (EntregaBienes.alert "Seleccione un activo/bien en todas las filas." s',
        EntregaBienes.ReturnFalse).
Proof.
  cbv zeta.
  assert (Hf : Forall (fun p => getElementById
                                  (EntregaBienes.doc (Escenarios.un_bien "2"))
                                  (EntregaBienes.idn p
                                     (EntregaBienes.contadorFilas
                                        (Escenarios.un_bien "2"))) = None)
                      ["fila_"; "activo_"; "cantidad_"; "serie_"; "estado_fisico_"])
    by (repeat constructor).
  destruct (bien_recien_agregado (Escenarios.un_bien "2")
              (filas (EntregaBienes.doc (Escenarios.un_bien "2")))
              eq_refl Hf) as (_ & H2 & H4 & H5).
  split; [exact Hf|]. split; [exact H2|].
  split.
  - erewrite (H4 eq_refl "cantidad_0"); [|vm_compute; reflexivity]. reflexivity.
  - exact (H5 []).
Defined.

(** ** The stock indicator *)

Section StockIndicator.








End StockIndicator.


